(** * NoctuaLight: collectors, report compiler and report writer

    A shallow embedding of the parts of [src/noctua] that build the
    hardware report: the CPU, RAM and BIOS collectors
    ([hardware/cpu.py], [hardware/ram.py], [hardware/bios.py]), the
    report generator ([report.py]) and the wiring of [noctua.py].

    Python strings are byte strings ([string]); Python exceptions are an
    explicit result type; the logger and the file system are an event
    trace threaded through a small writer monad.  A component logs
    through the logger its constructor is given: the methods whose
    failure handlers call it with [exc_info=True] take the kind of that
    logger as their first argument. *)

From Stdlib Require Import ZArith List String Ascii Bool Lia SpecFloat DecimalString.
From stdpp Require Import gmap strings sorting.
Import ListNotations.

(** ** Python strings, values and exceptions *)

Module Py.

Definition is_digit (c : ascii) : bool :=
  let n := N_of_ascii c in ((48 <=? n) && (n <=? 57))%N.

Definition to_upper (c : ascii) : ascii :=
  let n := N_of_ascii c in
  if ((97 <=? n) && (n <=? 122))%N then ascii_of_N (n - 32) else c.

Definition to_lower (c : ascii) : ascii :=
  let n := N_of_ascii c in
  if ((65 <=? n) && (n <=? 90))%N then ascii_of_N (n + 32) else c.

Fixpoint str_map (f : ascii -> ascii) (s : string) : string :=
  match s with
  | EmptyString => EmptyString
  | String c t => String (f c) (str_map f t)
  end.

(** [s.upper()], [s.lower()], [s.capitalize()] on ASCII text. *)
Definition upper : string -> string := str_map to_upper.
Definition lower : string -> string := str_map to_lower.
Definition capitalize (s : string) : string :=
  match s with
  | EmptyString => EmptyString
  | String c t => String (to_upper c) (lower t)
  end.

(** [s.replace(old, new)] for a one-character pattern [old]. *)
Fixpoint replace (old : ascii) (new : string) (s : string) : string :=
  match s with
  | EmptyString => EmptyString
  | String c t =>
      if Ascii.eqb c old then new +:+ replace old new t
      else String c (replace old new t)
  end.

(** [sep.join(parts)]. *)
Definition join (sep : string) (parts : list string) : string :=
  String.concat sep parts.

(** [s[:n]] and [s[i:j]] for non-negative bounds. *)
Definition slice (i j : nat) (s : string) : string :=
  String.substring i (j - i) s.

(** [str(n)] for an [int]. *)
Definition str_int (z : Z) : string := NilZero.string_of_int (Z.to_int z).

(** The dynamically typed values that reach the formatting code: what
    WMI properties, [psutil] counters and the [cpuinfo] dictionary hold. *)
Inductive pyval :=
| PNone
| PBool (b : bool)
| PInt (z : Z)
| PStr (s : string)
| PList (l : list string).

(** [repr] of a string without quotes, backslashes or control
    characters (the case of CPU flag names). *)
Definition repr_str (s : string) : string := "'" +:+ s +:+ "'".

(** [str(v)], as an f-string placeholder renders it. *)
Definition str (v : pyval) : string :=
  match v with
  | PNone => "None"
  | PBool true => "True"
  | PBool false => "False"
  | PInt z => str_int z
  | PStr s => s
  | PList l => "[" +:+ join ", " (map repr_str l) +:+ "]"
  end.

(** Truth value of [v] in a condition. *)
Definition truthy (v : pyval) : bool :=
  match v with
  | PNone => false
  | PBool b => b
  | PInt z => negb (z =? 0)%Z
  | PStr s => negb (String.eqb s "")
  | PList l => negb (match l with [] => true | _ => false end)
  end.

Definition as_number (v : pyval) : option Z :=
  match v with
  | PBool b => Some (if b then 1 else 0)%Z
  | PInt z => Some z
  | _ => None
  end.

Fixpoint list_eqb (a b : list string) : bool :=
  match a, b with
  | [], [] => true
  | x :: a', y :: b' => String.eqb x y && list_eqb a' b'
  | _, _ => false
  end.

(** [a == b]. *)
Definition eqb (a b : pyval) : bool :=
  match a, b with
  | PNone, PNone => true
  | PStr x, PStr y => String.eqb x y
  | PList x, PList y => list_eqb x y
  | _, _ =>
      match as_number a, as_number b with
      | Some x, Some y => (x =? y)%Z
      | _, _ => false
      end
  end.

(** Exception classes the program names in an [except] clause or that
    its library calls raise.  All of them derive from [Exception];
    signals outside that hierarchy ([KeyboardInterrupt], [SystemExit])
    are not part of the model. *)
Inductive exn_class :=
| Exception
| OSError
| FileNotFoundError
| PermissionError
| ValueError
| UnicodeEncodeError
| IndexError
| AttributeError
| TypeError
| x_wmi.

(** [IOError] is an alias of [OSError] in Python 3. *)
Definition IOError : exn_class := OSError.

Definition exn_class_eqb (a b : exn_class) : bool :=
  match a, b with
  | Exception, Exception | OSError, OSError
  | FileNotFoundError, FileNotFoundError | PermissionError, PermissionError
  | ValueError, ValueError | UnicodeEncodeError, UnicodeEncodeError
  | IndexError, IndexError | AttributeError, AttributeError
  | TypeError, TypeError | x_wmi, x_wmi => true
  | _, _ => false
  end.

(** Method resolution order of each class, itself first. *)
Definition mro (c : exn_class) : list exn_class :=
  match c with
  | Exception => [Exception]
  | OSError => [OSError; Exception]
  | FileNotFoundError => [FileNotFoundError; OSError; Exception]
  | PermissionError => [PermissionError; OSError; Exception]
  | ValueError => [ValueError; Exception]
  | UnicodeEncodeError => [UnicodeEncodeError; ValueError; Exception]
  | IndexError => [IndexError; Exception]
  | AttributeError => [AttributeError; Exception]
  | TypeError => [TypeError; Exception]
  | x_wmi => [x_wmi; Exception]
  end.

Definition issubclass (c d : exn_class) : bool :=
  existsb (exn_class_eqb d) (mro c).

Record exn := { exn_cls : exn_class; exn_msg : string }.

Definition isinstance (e : exn) (classes : list exn_class) : bool :=
  existsb (issubclass (exn_cls e)) classes.

(** The result of a call: a value, or an exception on its way up. *)
Inductive outcome (A : Type) :=
| Ok (a : A)
| Raise (e : exn).
Arguments Ok {A} a.
Arguments Raise {A} e.

(** Observable effects: logger calls and file-system writes. *)
Inductive level := DEBUG | INFO | WARNING | ERROR.

Inductive event :=
| Log (lvl : level) (msg : string)
| Makedirs (path : string)
| WriteFile (path content : string).

(** A computation emits events and ends in an outcome. *)
Definition M (A : Type) : Type := (list event * outcome A)%type.

Definition trace {A} (m : M A) : list event := fst m.
Definition result {A} (m : M A) : outcome A := snd m.

Definition ret {A} (a : A) : M A := ([], Ok a).
Definition raise {A} (e : exn) : M A := ([], Raise e).
Definition emit (ev : event) : M unit := ([ev], Ok tt).
Definition lift {A} (o : outcome A) : M A := ([], o).

Definition bind {A B} (m : M A) (k : A -> M B) : M B :=
  match m with
  | (t1, Ok a) => let (t2, r) := k a in (t1 ++ t2, r)
  | (t1, Raise e) => (t1, Raise e)
  end.

(** [try: m except C1 as e: h1 e except C2 as e: h2 e ...]: the first
    clause whose classes the exception is an instance of handles it; an
    exception no clause names keeps propagating, and so does one raised
    by a handler. *)
Fixpoint select_clause {A} (e : exn)
    (clauses : list (list exn_class * (exn -> M A))) : option (exn -> M A) :=
  match clauses with
  | [] => None
  | (classes, handler) :: rest =>
      if isinstance e classes then Some handler else select_clause e rest
  end.

Definition try_except {A} (m : M A)
    (clauses : list (list exn_class * (exn -> M A))) : M A :=
  match m with
  | (t1, Ok a) => (t1, Ok a)
  | (t1, Raise e) =>
      match select_clause e clauses with
      | Some handler => let (t2, r) := handler e in (t1 ++ t2, r)
      | None => (t1, Raise e)
      end
  end.

(** [for x in xs: acc = body acc x]. *)
Fixpoint for_each {A S} (xs : list A) (body : S -> A -> M S) (acc : S) : M S :=
  match xs with
  | [] => ret acc
  | x :: xs' => bind (body acc x) (for_each xs' body)
  end.

(** [seq[0]]. *)
Definition index0 {A} (l : list A) : M A :=
  match l with
  | x :: _ => ret x
  | [] => raise {| exn_cls := IndexError; exn_msg := "list index out of range" |}
  end.

(** The line feed of a ["\n"] escape. *)
Definition nl : string := String (ascii_of_nat 10) EmptyString.

(** [d.get(key, default)]. *)
Definition dict_get {K V} `{Countable K} (d : gmap K V) (key : K) (dflt : V) : V :=
  match d !! key with
  | Some v => v
  | None => dflt
  end.

#[export] Instance M_ret : MRet M := @ret.
#[export] Instance M_bind : MBind M := fun A B k m => bind m k.

End Py.
Import (hints) Py.

(** ** Python floats: IEEE 754 binary64 *)

Module PyFloat.

Definition prec : Z := 53.
Definition emax : Z := 1024.

Definition float : Type := spec_float.

(** [x == y] on floats. *)
Definition eqb (x y : float) : bool := SFeqb x y.

Definition digit_value (c : ascii) : Z := Z.of_N (N_of_ascii c) - 48.

(** Value of a run of decimal digits; [None] on any other character. *)
Fixpoint digits_value (acc : Z) (s : string) : option Z :=
  match s with
  | EmptyString => Some acc
  | String c t =>
      if Py.is_digit c then digits_value (10 * acc + digit_value c) t
      else None
  end.

(** The binary64 nearest to [n / 10^k] (ties to even), for [0 <= n]. *)
Definition of_ratio10 (n : Z) (k : nat) : float :=
  match n with
  | Zpos p =>
      SFdiv prec emax (S754_finite false p 0)
        (S754_finite false (Z.to_pos (10 ^ Z.of_nat k)) 0)
  | _ => S754_zero false
  end.

(** Text before and after the first ['.'] of [s]. *)
Fixpoint split_dot (s : string) : option (string * string) :=
  match s with
  | EmptyString => None
  | String c t =>
      if Ascii.eqb c "." then Some (EmptyString, t)
      else match split_dot t with
           | Some (a, b) => Some (String c a, b)
           | None => None
           end
  end.

(** [float(s)] on the literals of the form digits ['.'] digits, the only
    ones the program converts; every other text is rejected here. *)
Definition of_str (s : string) : Py.outcome float :=
  match split_dot s with
  | Some (String c i, String d f) =>
      match digits_value 0 (String c i +:+ String d f) with
      | Some n => Py.Ok (of_ratio10 n (String.length (String d f)))
      | None => Py.Raise {| Py.exn_cls := Py.ValueError;
                            Py.exn_msg := "could not convert string to float" |}
      end
  | _ => Py.Raise {| Py.exn_cls := Py.ValueError;
                     Py.exn_msg := "could not convert string to float" |}
  end.

Definition sign_str (s : bool) : string := if s then "-" else "".

(** [num / den] rounded to the nearest integer, ties to even. *)
Definition round_half_even (num den : Z) : Z :=
  let q := (num / den)%Z in
  let r := (num mod den)%Z in
  match (2 * r ?= den)%Z with
  | Lt => q
  | Gt => (q + 1)%Z
  | Eq => if Z.even q then q else (q + 1)%Z
  end.

(** [f"{x:.1f}"]: one digit after the point, the exact binary value
    rounded to nearest, ties to even. *)
Definition format_1f (x : float) : string :=
  match x with
  | S754_nan => "nan"
  | S754_infinity s => sign_str s +:+ "inf"
  | S754_zero s => sign_str s +:+ "0.0"
  | S754_finite s m e =>
      let tenths :=
        match e with
        | Zneg p => round_half_even (10 * Zpos m) (2 ^ Zpos p)
        | _ => (10 * Zpos m * 2 ^ e)%Z
        end in
      sign_str s +:+ Py.str_int (tenths / 10) +:+ "."
        +:+ Py.str_int (tenths mod 10)
  end.

End PyFloat.

(** ** The regular expression [\d+\.\d+] *)

Module Re.

(** The longest run of digits at the start of [s], and what follows. *)
Fixpoint span_digits (s : string) : string * string :=
  match s with
  | EmptyString => (EmptyString, EmptyString)
  | String c t =>
      if Py.is_digit c
      then let (d, r) := span_digits t in (String c d, r)
      else (EmptyString, s)
  end.

(** A match of the pattern anchored at the start of [s], with the text
    after it.  Both [\d+] are greedy, and giving digits back never helps:
    the character after a shorter run is a digit, not the point. *)
Definition match_here (s : string) : option (string * string) :=
  match span_digits s with
  | (String c i, String d r) =>
      if Ascii.eqb d "."
      then match span_digits r with
           | (String c' f, r') =>
               Some (String c i +:+ "." +:+ String c' f, r')
           | _ => None
           end
      else None
  | _ => None
  end.

Fixpoint findall_from (fuel : nat) (s : string) : list string :=
  match fuel with
  | O => []
  | S fuel' =>
      match s with
      | EmptyString => []
      | String _ t =>
          match match_here s with
          | Some (m, rest) => m :: findall_from fuel' rest
          | None => findall_from fuel' t
          end
      end
  end.

(** [re.findall(r"\d+\.\d+", s)]: the non-overlapping matches, left to
    right.  Every step consumes a character, so the length of [s] is
    fuel enough. *)
Definition findall (s : string) : list string :=
  findall_from (String.length s) s.

End Re.

(** ** [logging.Logger]: the methods the program calls *)

(** Called with the message alone.  [logger.py]'s [Logger] does the same
    on such a call (see [Logging] below), so the code that logs only in
    this way is written with these whichever logger it is given. *)
Module logger.
Definition debug (msg : string) : Py.M unit := Py.emit (Py.Log Py.DEBUG msg).
Definition info (msg : string) : Py.M unit := Py.emit (Py.Log Py.INFO msg).
Definition warning (msg : string) : Py.M unit := Py.emit (Py.Log Py.WARNING msg).
Definition error (msg : string) : Py.M unit := Py.emit (Py.Log Py.ERROR msg).
End logger.

(** ** Calls with keyword arguments *)

Module Call.
Import Py.

(** The arguments at a call site. *)
Record args := { positional : list pyval; keywords : list (string * pyval) }.

(** The parameters of a [def]: names, with the default where there is
    one. *)
Definition parameters : Type := list (string * option pyval).

Definition type_error (msg : string) : exn :=
  {| exn_cls := TypeError; exn_msg := msg |}.

(** Positional arguments fill the parameters from the left; [None] when
    there are more arguments than parameters. *)
Fixpoint bind_positional (params : parameters) (values : list pyval)
    : option (list (string * pyval) * parameters) :=
  match values, params with
  | [], _ => Some ([], params)
  | v :: values', (name, _) :: params' =>
      match bind_positional params' values' with
      | Some (bound, rest) => Some ((name, v) :: bound, rest)
      | None => None
      end
  | _ :: _, [] => None
  end.

Definition has_name (name : string) (params : parameters) : bool :=
  existsb (fun p => String.eqb (fst p) name) params.

Definition drop_name (name : string) (params : parameters) : parameters :=
  List.filter (fun p => negb (String.eqb (fst p) name)) params.

(** Each keyword must name a parameter, [all] being the parameters of
    the function, that has no value yet, [rest] being those. *)
Fixpoint bind_keywords (fname : string) (all rest : parameters)
    (kws : list (string * pyval))
    : outcome (list (string * pyval) * parameters) :=
  match kws with
  | [] => Ok ([], rest)
  | (name, v) :: kws' =>
      if has_name name rest then
        match bind_keywords fname all (drop_name name rest) kws' with
        | Ok (bound, rest') => Ok ((name, v) :: bound, rest')
        | Raise e => Raise e
        end
      else if has_name name all then
        Raise (type_error (fname +:+ "() got multiple values for argument '"
                           +:+ name +:+ "'"))
      else Raise (type_error (fname +:+ "() got an unexpected keyword argument '"
                              +:+ name +:+ "'"))
  end.

(** Parameters left without a value take their default. *)
Fixpoint bind_defaults (fname : string) (rest : parameters)
    : outcome (list (string * pyval)) :=
  match rest with
  | [] => Ok []
  | (name, Some dflt) :: rest' =>
      match bind_defaults fname rest' with
      | Ok bound => Ok ((name, dflt) :: bound)
      | Raise e => Raise e
      end
  | (name, None) :: _ =>
      Raise (type_error (fname +:+ "() missing 1 required positional argument: '"
                         +:+ name +:+ "'"))
  end.

(** Binding of a call's arguments to the parameters of [fname]. *)
Definition bind (fname : string) (params : parameters) (a : args)
    : outcome (list (string * pyval)) :=
  match bind_positional params (positional a) with
  | None =>
      Raise (type_error (fname +:+ "() takes "
                         +:+ str_int (Z.of_nat (List.length params))
                         +:+ " positional arguments but "
                         +:+ str_int (Z.of_nat (List.length (positional a)))
                         +:+ " were given"))
  | Some (bound1, rest) =>
      match bind_keywords fname params rest (keywords a) with
      | Raise e => Raise e
      | Ok (bound2, rest') =>
          match bind_defaults fname rest' with
          | Raise e => Raise e
          | Ok bound3 => Ok (bound1 ++ bound2 ++ bound3)
          end
      end
  end.

(** The value bound to [name]. *)
Fixpoint value (name : string) (bound : list (string * pyval)) : pyval :=
  match bound with
  | [] => PNone
  | (n, v) :: bound' => if String.eqb n name then v else value name bound'
  end.

End Call.

(** ** logger.py *)

Module Logger.
Import Py.

(** The wrapped [logging.Logger] formats the message with [str]. *)
Definition log (lvl : level) (log_message : pyval) : M unit :=
  emit (Log lvl (str log_message)).

Definition info (a : Call.args) : M unit :=
  bound ← lift (Call.bind "Logger.info" [("log_message", None)] a);
  log INFO (Call.value "log_message" bound).

Definition warning (a : Call.args) : M unit :=
  bound ← lift (Call.bind "Logger.warning" [("log_message", None)] a);
  log WARNING (Call.value "log_message" bound).

Definition error (a : Call.args) : M unit :=
  bound ← lift (Call.bind "Logger.error"
                  [("log_message", None);
                   ("include_exception_info", Some (PBool false))] a);
  log ERROR (Call.value "log_message" bound).

Definition debug (a : Call.args) : M unit :=
  bound ← lift (Call.bind "Logger.debug" [("log_message", None)] a);
  log DEBUG (Call.value "log_message" bound).

End Logger.

(** ** The logger a component is handed *)

Module Logging.
Import Py.

(** The collectors are annotated with [logging.Logger]; [noctua.py]
    hands every component, the report generator included, an instance
    of [logger.py]'s [Logger]: [noctua_Logger] is the logger of the
    application as it is wired. *)
Inductive kind := logging_Logger | noctua_Logger.

(** [self.logger.debug(msg)] and its siblings with one argument. *)
Definition debug (k : kind) (msg : string) : M unit :=
  match k with
  | logging_Logger => logger.debug msg
  | noctua_Logger =>
      Logger.debug {| Call.positional := [PStr msg]; Call.keywords := [] |}
  end.

Definition info (k : kind) (msg : string) : M unit :=
  match k with
  | logging_Logger => logger.info msg
  | noctua_Logger =>
      Logger.info {| Call.positional := [PStr msg]; Call.keywords := [] |}
  end.

Definition warning (k : kind) (msg : string) : M unit :=
  match k with
  | logging_Logger => logger.warning msg
  | noctua_Logger =>
      Logger.warning {| Call.positional := [PStr msg]; Call.keywords := [] |}
  end.

(** [self.logger.error(msg)]. *)
Definition error (k : kind) (msg : string) : M unit :=
  match k with
  | logging_Logger => logger.error msg
  | noctua_Logger =>
      Logger.error {| Call.positional := [PStr msg]; Call.keywords := [] |}
  end.

(** [self.logger.error(msg, exc_info=True)], the call of the failure
    handlers. *)
Definition error_exc_info (k : kind) (msg : string) : M unit :=
  match k with
  | logging_Logger => logger.error msg
  | noctua_Logger =>
      Logger.error {| Call.positional := [PStr msg];
                      Call.keywords := [("exc_info", PBool true)] |}
  end.

End Logging.

(** ** hardware/cpu.py *)

Module CPU.
Import Py.

(** [psutil.cpu_freq()] result. *)
Record scpufreq := { current : PyFloat.float; min : PyFloat.float; max : PyFloat.float }.

(** The collector: the [cpuinfo] dictionary read at construction, and
    what [psutil] answers when asked. *)
Record t := {
  cpu_info : gmap string pyval;
  psutil_cpu_count_physical : outcome pyval;
  psutil_cpu_count_logical : outcome pyval;
  psutil_cpu_freq : outcome (option scpufreq)
}.

Definition get_cpu_name (self : t) : M pyval :=
  logger.info "Fetching CPU name";;
  mret (dict_get (cpu_info self) "brand_raw" (PStr "Unknown")).

Definition get_architecture (self : t) : M pyval :=
  logger.info "Fetching CPU architecture";;
  mret (dict_get (cpu_info self) "arch" (PStr "Unknown")).

Definition get_cores_count (self : t) : M pyval :=
  logger.info "Fetching CPU cores count";;
  lift (psutil_cpu_count_physical self).

Definition get_threads_count (self : t) : M pyval :=
  logger.info "Fetching CPU threads count";;
  lift (psutil_cpu_count_logical self).

Definition get_summary (self : t) : M string :=
  logger.info "Fetching CPU summary";;
  name ← get_cpu_name self;
  cores ← get_cores_count self;
  threads ← get_threads_count self;
  arch ← get_architecture self;
  mret ("**Name:** " +:+ str name +:+ nl
        +:+ "**Cores:** " +:+ str cores +:+ nl
        +:+ "**Threads:** " +:+ str threads +:+ nl
        +:+ "**Architecture:** " +:+ str arch +:+ nl).

Definition _get_cache_info (cpu_info : gmap string pyval) : string :=
  let cache_sizes :=
    [("L1 Cache", dict_get cpu_info "l1_data_cache_size" (PStr "Unknown"));
     ("L2 Cache", dict_get cpu_info "l2_cache_size" (PStr "Unknown"));
     ("L3 Cache", dict_get cpu_info "l3_cache_size" (PStr "Unknown"))] in
  join ", " (map (fun '(key, value) => key +:+ ": " +:+ str value) cache_sizes).

(** [re.findall(pattern, v)] accepts text only. *)
Definition re_findall (v : pyval) : M (list string) :=
  match v with
  | PStr s => mret (Re.findall s)
  | _ => raise {| exn_cls := TypeError;
                  exn_msg := "expected string or bytes-like object" |}
  end.

Definition emphasized (s : string) : string := "**" +:+ s +:+ "**".

Definition _format_value (k : Logging.kind) (expected_value : pyval)
    (actual_value : PyFloat.float) : M string :=
  try_except
    (matches ← re_findall expected_value;
     first ← index0 matches;
     expected_value_cleaned ← lift (PyFloat.of_str first);
     if PyFloat.eqb expected_value_cleaned actual_value
     then mret (PyFloat.format_1f actual_value)
     else mret (emphasized (PyFloat.format_1f actual_value)))
    [([IndexError; ValueError], fun _ =>
        Logging.error_exc_info k
          ("Failed to parse expected value: " +:+ str expected_value);;
        mret (emphasized (PyFloat.format_1f actual_value)))].

(** [", ".join(v)]: a list of strings, or the characters of a string. *)
Fixpoint chars (s : string) : list string :=
  match s with
  | EmptyString => []
  | String c t => String c EmptyString :: chars t
  end.

Definition join_value (sep : string) (v : pyval) : M string :=
  match v with
  | PList l => mret (join sep l)
  | PStr s => mret (join sep (chars s))
  | _ => raise {| exn_cls := TypeError; exn_msg := "can only join an iterable" |}
  end.

(** [freqs.current]; [freqs] is [None] where the frequency is unknown. *)
Definition attr_current (freqs : option scpufreq) : M PyFloat.float :=
  match freqs with
  | Some f => mret (current f)
  | None => raise {| exn_cls := AttributeError;
                     exn_msg := "'NoneType' object has no attribute 'current'" |}
  end.

Definition get_details (k : Logging.kind) (self : t) : M string :=
  Logging.info k "Fetching detailed CPU information";;
  freqs ← lift (psutil_cpu_freq self);
  let caches := _get_cache_info (cpu_info self) in
  flags ← join_value ", " (dict_get (cpu_info self) "flags" (PList []));
  name ← get_cpu_name self;
  let vendor := dict_get (cpu_info self) "vendor_id_raw" (PStr "Unknown") in
  let arch := dict_get (cpu_info self) "arch" (PStr "Unknown") in
  let bits := dict_get (cpu_info self) "bits" (PStr "Unknown") in
  cores ← get_cores_count self;
  threads ← get_threads_count self;
  frequency ← attr_current freqs;
  actual ← attr_current freqs;
  configured ← _format_value k
    (dict_get (cpu_info self) "hz_advertised_friendly" (PStr "Unknown")) actual;
  mret ("**Name:** " +:+ str name +:+ nl
        +:+ "**Vendor ID:** " +:+ str vendor +:+ nl
        +:+ "**Architecture:** " +:+ str arch +:+ nl
        +:+ "**Bits:** " +:+ str bits +:+ nl
        +:+ "**Cores:** " +:+ str cores +:+ nl
        +:+ "**Threads:** " +:+ str threads +:+ nl
        +:+ "**Frequency:** " +:+ PyFloat.format_1f frequency +:+ " MHz" +:+ nl
        +:+ "**Configured Frequency:** " +:+ configured +:+ " MHz" +:+ nl
        +:+ "**Cache Sizes:** " +:+ caches +:+ nl
        +:+ "**Flags:** " +:+ flags +:+ nl).

End CPU.

(** ** hardware/ram.py *)

Module RAM.
Import Py.

Definition form_factors : gmap Z string :=
  list_to_map
    [(0, "Unknown"); (1, "Other"); (2, "SIP"); (3, "DIP"); (4, "ZIP");
     (5, "SOJ"); (6, "Proprietary"); (7, "SIMM"); (8, "DIMM"); (9, "TSOP");
     (10, "PGA"); (11, "RIMM"); (12, "SODIMM"); (13, "SRIMM");
     (14, "FB-DIMM")]%Z.

Definition memory_types : gmap Z string :=
  list_to_map
    [(0, "Unknown"); (1, "Other"); (2, "DRAM"); (3, "Synchronous DRAM");
     (4, "Cache DRAM"); (5, "EDO"); (6, "EDRAM"); (7, "VRAM"); (8, "SRAM");
     (9, "RAM"); (10, "ROM"); (11, "Flash"); (12, "EEPROM"); (13, "FEPROM");
     (14, "EPROM"); (15, "CDRAM"); (16, "3DRAM"); (17, "SDRAM");
     (18, "SGRAM"); (19, "RDRAM"); (20, "DDR"); (21, "DDR2");
     (22, "DDR2 FB-DIMM"); (24, "DDR3"); (25, "FBD2")]%Z.

Definition _get_form_factor (form_factor_code : Z) : string :=
  dict_get form_factors form_factor_code "Unknown".

Definition _get_memory_type (memory_type_code : Z) : string :=
  dict_get memory_types memory_type_code "Unknown".

Definition _format_value (expected_value actual_value : pyval) : string :=
  if Py.eqb expected_value actual_value
  then str actual_value
  else "**_" +:+ str actual_value +:+ "_**".

Section Collector.
(** The two fetchers read [psutil.virtual_memory()] and WMI's
    [Win32_PhysicalMemory]; the handlers below are taken over every
    behaviour they can have. *)
Variable k : Logging.kind.
Variable _fetch_ram_summary : M string.
Variable _fetch_ram_details : M string.

Definition get_summary : M string :=
  try_except
    (Logging.info k "Fetching RAM summary";;
     _fetch_ram_summary)
    [([Exception], fun _ =>
        Logging.error_exc_info k "Failed to fetch RAM summary";;
        mret ("**RAM Information**" +:+ nl
              +:+ "Failed to fetch RAM summary." +:+ nl))].

Definition get_details : M string :=
  try_except
    (Logging.info k "Fetching detailed RAM information";;
     _fetch_ram_details)
    [([Exception], fun _ =>
        Logging.error_exc_info k "Failed to fetch detailed RAM information";;
        mret ("**Detailed RAM Information**" +:+ nl
              +:+ "Failed to fetch detailed RAM information." +:+ nl))].
End Collector.

End RAM.

(** ** hardware/bios.py *)

Module BIOS.
Import Py.

(** One [Win32_BIOS] instance; a property WMI cannot fill is [None]. *)
Record Win32_BIOS_entry := {
  Manufacturer : pyval;
  SMBIOSBIOSVersion : pyval;
  ReleaseDate : pyval;
  SMBIOSMajorVersion : pyval;
  SMBIOSMinorVersion : pyval;
  BIOSCharacteristics : option (list Z);
  CurrentLanguage : pyval;
  PrimaryBIOS : pyval
}.

(** The collector: what the WMI session answers to [Win32_BIOS()]. *)
Record t := { Win32_BIOS : outcome (list Win32_BIOS_entry) }.

Definition characteristic_descriptions : gmap Z string :=
  list_to_map
    [(0, "Reserved");
     (1, "BIOS Characteristics Not Supported");
     (2, "ISA is supported");
     (3, "MCA is supported");
     (4, "EISA is supported");
     (5, "PCI is supported");
     (6, "PC Card (PCMCIA) is supported");
     (7, "Plug and Play is supported");
     (8, "APM is supported");
     (9, "BIOS is upgradeable");
     (10, "BIOS shadowing is allowed");
     (11, "VLB is supported");
     (12, "ESCD support is available");
     (13, "Boot from CD is supported");
     (14, "Selectable Boot is supported");
     (15, "BIOS ROM is socketed");
     (16, "Boot from PCMCIA is supported");
     (17, "EDD is supported");
     (18, "Print screen service is supported");
     (19, "8042 keyboard services are supported");
     (20, "Serial services are supported");
     (21, "Printer services are supported");
     (22, "CGA/Mono video services are supported");
     (23, "NEC PC-98");
     (24, "ACPI is supported");
     (25, "USB legacy is supported");
     (26, "AGP is supported");
     (27, "I2O boot is supported");
     (28, "LS-120 boot is supported");
     (29, "ATAPI ZIP drive boot is supported");
     (30, "1394 boot is supported");
     (31, "Smart battery is supported");
     (32, "BIOS Boot Specification is supported");
     (33, "Function key-initiated network boot is supported");
     (34, "Targeted content distribution is supported");
     (35, "UEFI is supported")]%Z.

Definition _get_bios_characteristics (characteristics : list Z) : string :=
  join ", "
    (map (fun char => dict_get characteristic_descriptions char "Unknown")
       characteristics).

(** Iterating the property: [None] is not iterable. *)
Definition iter_characteristics (v : option (list Z)) : M (list Z) :=
  match v with
  | Some l => mret l
  | None => raise {| exn_cls := TypeError;
                     exn_msg := "'NoneType' object is not iterable" |}
  end.

Definition _format_date (date_str : pyval) : M string :=
  if negb (truthy date_str) then mret "Unknown"
  else match date_str with
       | PStr s =>
           mret (slice 0 4 s +:+ "-" +:+ slice 4 6 s +:+ "-" +:+ slice 6 8 s)
       | PList l =>
           mret (str (PList (firstn 4 l)) +:+ "-"
                 +:+ str (PList (firstn 2 (skipn 4 l))) +:+ "-"
                 +:+ str (PList (firstn 2 (skipn 6 l))))
       | _ => raise {| exn_cls := TypeError;
                       exn_msg := "object is not subscriptable" |}
       end.

Definition _fetch_bios_summary (self : t) : M string :=
  entries ← lift (Win32_BIOS self);
  for_each entries
    (fun _ bios =>
       mret ("**Manufacturer:** " +:+ str (Manufacturer bios) +:+ nl
             +:+ "**Version:** " +:+ str (SMBIOSBIOSVersion bios) +:+ nl))
    "".

Definition _fetch_bios_details (self : t) : M string :=
  entries ← lift (Win32_BIOS self);
  for_each entries
    (fun details bios_entry =>
       release ← _format_date (ReleaseDate bios_entry);
       codes ← iter_characteristics (BIOSCharacteristics bios_entry);
       mret (details
             +:+ "**Manufacturer:** " +:+ str (Manufacturer bios_entry) +:+ nl
             +:+ "**Version:** " +:+ str (SMBIOSBIOSVersion bios_entry) +:+ nl
             +:+ "**Release Date:** " +:+ release +:+ nl
             +:+ "**SMBIOS Version:** " +:+ str (SMBIOSMajorVersion bios_entry)
             +:+ "." +:+ str (SMBIOSMinorVersion bios_entry) +:+ nl
             +:+ "**BIOS Characteristics:** "
             +:+ _get_bios_characteristics codes +:+ nl
             +:+ "**BIOS Language:** " +:+ str (CurrentLanguage bios_entry) +:+ nl
             +:+ "**Primary BIOS:** "
             +:+ (if truthy (PrimaryBIOS bios_entry) then "Yes" else "No")
             +:+ nl))
    "".

Definition get_summary (k : Logging.kind) (self : t) : M string :=
  try_except
    (Logging.info k "Fetching BIOS summary";;
     _fetch_bios_summary self)
    [([x_wmi], fun _ =>
        Logging.error_exc_info k "Failed to fetch BIOS summary";;
        mret ("**BIOS Information**" +:+ nl
              +:+ "Failed to fetch BIOS summary." +:+ nl));
     ([Exception], fun _ =>
        Logging.error_exc_info k "An unexpected error occurred";;
        mret ("**BIOS Information**" +:+ nl
              +:+ "An unexpected error occurred." +:+ nl))].

Definition get_details (k : Logging.kind) (self : t) : M string :=
  try_except
    (Logging.info k "Fetching detailed BIOS information";;
     _fetch_bios_details self)
    [([x_wmi], fun _ =>
        Logging.error_exc_info k "Failed to fetch detailed BIOS information";;
        mret ("**Detailed BIOS Information**" +:+ nl
              +:+ "Failed to fetch detailed BIOS information." +:+ nl));
     ([Exception], fun _ =>
        Logging.error_exc_info k "An unexpected error occurred";;
        mret ("**Detailed BIOS Information**" +:+ nl
              +:+ "An unexpected error occurred." +:+ nl))].

End BIOS.

(** ** report.py *)

Module Report.
Import Py.

(** The [Component] protocol, with the class name the headers print. *)
Record Component := {
  class_name : string;
  get_summary : M string;
  get_details : M string
}.

(** Local time, as [time.strftime] reads it. *)
Record struct_time := {
  tm_year : Z; tm_mon : Z; tm_mday : Z;
  tm_hour : Z; tm_min : Z; tm_sec : Z
}.

(** A two-digit field of [strftime] ([%m], [%d], [%H], [%M], [%S]). *)
Definition two_digits (n : Z) : string :=
  if (n <? 10)%Z then "0" +:+ str_int n else str_int n.

(** [time.strftime("%Y%m%d_%H%M%S")]. *)
Definition strftime_compact (now : struct_time) : string :=
  str_int (tm_year now) +:+ two_digits (tm_mon now) +:+ two_digits (tm_mday now)
  +:+ "_" +:+ two_digits (tm_hour now) +:+ two_digits (tm_min now)
  +:+ two_digits (tm_sec now).

(** [time.strftime("%Y-%m-%d %H:%M:%S")]. *)
Definition strftime_iso (now : struct_time) : string :=
  str_int (tm_year now) +:+ "-" +:+ two_digits (tm_mon now) +:+ "-"
  +:+ two_digits (tm_mday now) +:+ " " +:+ two_digits (tm_hour now) +:+ ":"
  +:+ two_digits (tm_min now) +:+ ":" +:+ two_digits (tm_sec now).

(** [os.path] on Windows, the platform of the WMI collectors: the
    separator is the backslash. *)
Definition os_sep : string := String (ascii_of_nat 92) EmptyString.

Definition is_sep (c : ascii) : bool :=
  Ascii.eqb c "/" || Ascii.eqb c (ascii_of_nat 92).

(** [os.path.join(a, b)] for a relative [b] without a drive, and an [a]
    that does not end in a separator. *)
Definition os_path_join (a b : string) : string := a +:+ os_sep +:+ b.

Fixpoint drop_while (f : ascii -> bool) (l : list ascii) : list ascii :=
  match l with
  | [] => []
  | c :: t => if f c then drop_while f t else l
  end.

(** [os.path.dirname(p)] for a path without a drive: the text before
    the last separator, trailing separators stripped unless nothing else
    is left. *)
Definition os_path_dirname (p : string) : string :=
  let head := drop_while (fun c => negb (is_sep c)) (rev (list_ascii_of_string p)) in
  match drop_while is_sep head with
  | [] => string_of_list_ascii (rev head)
  | stripped => string_of_list_ascii (rev stripped)
  end.

(** What the file system answers to the two calls of the writer. *)
Record filesystem := {
  fs_makedirs : string -> outcome unit;
  fs_write : string -> string -> outcome unit
}.

(** [os.makedirs(path, exist_ok=True)]. *)
Definition os_makedirs (fs : filesystem) (path : string) : M unit :=
  lift (fs_makedirs fs path);; emit (Makedirs path).

(** [with open(path, "w", encoding="utf-8") as f: f.write(content)]. *)
Definition write_file (fs : filesystem) (path content : string) : M unit :=
  lift (fs_write fs path content);; emit (WriteFile path content).

(** The generator's fields: the selection variables in dictionary order,
    the select-all variable and the detailed-report variable. *)
Record t := {
  components : list (string * bool);
  all_components_selection : bool;
  detailed_report_option : bool
}.

Definition _build_report_file_path (self : t) (now : struct_time)
    (pc_name : string) : string :=
  let timestamp := strftime_compact now in
  let sanitized_pc_name :=
    if negb (String.eqb pc_name "") then replace " " "_" pc_name
    else "unnamed_pc" in
  let filename :=
    "hardware_report_" +:+ sanitized_pc_name +:+ "_" +:+ timestamp +:+ ".md" in
  os_path_join "result" filename.

Definition _generate_overview (components : list Component) : M string :=
  for_each components
    (fun overview_content component =>
       summary ← get_summary component;
       mret (overview_content
             +:+ "## **" +:+ upper (class_name component) +:+ " Information**" +:+ nl
             +:+ summary +:+ nl +:+ "---" +:+ nl))
    ("# **Hardware Overview**" +:+ nl +:+ nl).

Definition _generate_full_details (components : list Component) : M string :=
  for_each components
    (fun details_content component =>
       details ← get_details component;
       mret (details_content
             +:+ nl +:+ "## Detailed " +:+ upper (class_name component)
             +:+ " Information" +:+ nl
             +:+ details +:+ nl +:+ "---" +:+ nl))
    "".

Definition _generate_selected_component_details (self : t)
    (system cpu gpu ram disk network motherboard bios : Component) : M string :=
  let components_map : gmap string Component :=
    list_to_map
      [("system", system); ("cpu", cpu); ("gpu", gpu); ("ram", ram);
       ("disk", disk); ("network", network); ("motherboard", motherboard);
       ("bios", bios)] in
  for_each (components self)
    (fun details_content '(component_name, var) =>
       if var then
         match components_map !! component_name with
         | Some component_instance =>
             logger.debug ("Including details for " +:+ component_name +:+ ".");;
             details ← get_details component_instance;
             mret (details_content
                   +:+ nl +:+ "## Detailed " +:+ capitalize component_name
                   +:+ " Information" +:+ nl
                   +:+ details +:+ nl +:+ "---" +:+ nl)
         | None =>
             logger.warning ("Details not available for " +:+ component_name +:+ ".");;
             mret details_content
         end
       else mret details_content)
    "".

(** The opening lines of [_compile_report_content]: title, generation
    time and, for a non-empty name, the machine name. *)
Definition header (now : struct_time) (pc_name : string) : string :=
  let timestamp := strftime_iso now in
  let report_content :=
    "# Hardware Report" +:+ nl +:+ nl +:+ "**Generated on:** " +:+ timestamp +:+ nl in
  if negb (String.eqb pc_name "")
  then report_content +:+ "**PC Name:** " +:+ pc_name +:+ nl
  else report_content.

Definition _compile_report_content (self : t) (now : struct_time)
    (system cpu gpu ram disk network motherboard bios : Component)
    (pc_name : string) : M string :=
  let report_content := header now pc_name in
  report_content ←
    (if all_components_selection self then
       logger.debug "Including all components in the report overview.";;
       overview ← _generate_overview
         [system; cpu; gpu; ram; disk; network; motherboard; bios];
       mret (report_content +:+ overview)
     else mret report_content);
  if detailed_report_option self then
    logger.debug "Including detailed information for all components.";;
    details ← _generate_full_details
      [system; cpu; gpu; ram; disk; network; motherboard; bios];
    mret (report_content +:+ details)
  else
    let selected_components :=
      List.map fst (List.filter (fun '(_, var) => var) (components self)) in
    match selected_components with
    | _ :: _ =>
        logger.debug ("Generating report for selected components: "
                      +:+ str (PList selected_components));;
        details ← _generate_selected_component_details self
          system cpu gpu ram disk network motherboard bios;
        mret (report_content +:+ details)
    | [] =>
        logger.warning "No components selected; generating an empty report.";;
        mret (report_content +:+ nl +:+ "No components selected.")
    end.

Definition _save_report (k : Logging.kind) (self : t) (fs : filesystem)
    (report_content file_path : string) : M unit :=
  try_except
    (os_makedirs fs (os_path_dirname file_path);;
     write_file fs file_path report_content;;
     Logging.info k ("Report successfully saved at: " +:+ file_path))
    [([OSError; IOError], fun save_error =>
        Logging.error_exc_info k
          ("Failed to save the report due to an error: " +:+ exn_msg save_error))].

(** [now_path] and [now_content] are the clock readings of the two
    [strftime] calls. *)
Definition generate_report (k : Logging.kind) (self : t) (fs : filesystem)
    (now_path now_content : struct_time)
    (system cpu gpu ram disk network motherboard bios : Component)
    (pc_name : string) : M unit :=
  Logging.debug k "Starting report generation process.";;
  try_except
    (let report_file_path := _build_report_file_path self now_path pc_name in
     Logging.info k ("Generating hardware report at: " +:+ report_file_path);;
     report_content ← _compile_report_content self now_content
       system cpu gpu ram disk network motherboard bios pc_name;
     _save_report k self fs report_content report_file_path;;
     Logging.info k ("Report successfully created at: " +:+ report_file_path))
    [([Exception], fun _ =>
        Logging.error_exc_info k "Report generation failed due to an error.")].

End Report.

(** ** noctua.py *)

Module Noctua.
Import Py.

(** The selection variables, each a fresh [BooleanVar()], in the order
    the dictionary literal lists them. *)
Definition initialize_hardware_selection_variables : list (string * bool) :=
  [("system", false); ("cpu", false); ("ram", false); ("disk", false);
   ("network", false); ("gpu", false); ("motherboard", false);
   ("bios", false)].

(** The collector classes, in instantiation order. *)
Definition hardware_classes : list string :=
  ["System"; "CPU"; "GPU"; "RAM"; "Disk"; "Network"; "Motherboard"; "BIOS"].

(** The application: its report generator and its eight collectors. *)
Record t := {
  report_generator : Report.t;
  hardware_component_instances : list Report.Component
}.

Definition generate_hardware_report (k : Logging.kind) (self : t)
    (fs : Report.filesystem)
    (now_path now_content : Report.struct_time) (system_name : string) : M unit :=
  Logging.debug k "Starting the hardware report generation process";;
  try_except
    (match hardware_component_instances self with
     | [system; cpu; gpu; ram; disk; network; motherboard; bios] =>
         Report.generate_report k (report_generator self) fs now_path now_content
           system cpu gpu ram disk network motherboard bios system_name
     | _ => raise {| exn_cls := ValueError;
                     exn_msg := "wrong number of values to unpack" |}
     end)
    [([Exception], fun _ =>
        Logging.error_exc_info k "Report generation process encountered an error")].

End Noctua.

(** ** Vocabulary of the properties *)

Module Spec.
Import Py.

(** A computation that ends normally. *)
Definition is_ok {A} (m : M A) : bool :=
  match result m with
  | Ok _ => true
  | Raise _ => false
  end.

(** Its text, when it does. *)
Definition text_of (m : M string) : string :=
  match result m with
  | Ok s => s
  | Raise _ => ""
  end.

(** An overview section: header line, summary, horizontal rule. *)
Definition overview_section (domain summary : string) : string :=
  "## **" +:+ domain +:+ " Information**" +:+ nl
  +:+ summary +:+ nl +:+ "---" +:+ nl.

(** A detail section: blank line, header line, details, horizontal rule. *)
Definition detail_section (domain details : string) : string :=
  nl +:+ "## Detailed " +:+ domain +:+ " Information" +:+ nl
  +:+ details +:+ nl +:+ "---" +:+ nl.

Definition overview_intro : string := "# **Hardware Overview**" +:+ nl +:+ nl.

(** The overview of a list of collectors whose summaries succeed. *)
Definition overview_of (cs : list Report.Component) : string :=
  overview_intro
  +:+ join "" (List.map (fun c => overview_section (upper (Report.class_name c))
                                   (text_of (Report.get_summary c))) cs).

(** The detail sections of detailed mode. *)
Definition full_details_of (cs : list Report.Component) : string :=
  join "" (List.map (fun c => detail_section (upper (Report.class_name c))
                                (text_of (Report.get_details c))) cs).

(** The collector a selection key stands for. *)
Definition component_of_key (system cpu gpu ram disk network motherboard bios
    : Report.Component) (key : string) : option Report.Component :=
  if String.eqb key "system" then Some system
  else if String.eqb key "cpu" then Some cpu
  else if String.eqb key "gpu" then Some gpu
  else if String.eqb key "ram" then Some ram
  else if String.eqb key "disk" then Some disk
  else if String.eqb key "network" then Some network
  else if String.eqb key "motherboard" then Some motherboard
  else if String.eqb key "bios" then Some bios
  else None.

(** The detail sections of per-domain selection, in selection order. *)
Definition selected_details_of (lookup : string -> option Report.Component)
    (selection : list (string * bool)) : string :=
  join "" (List.map (fun '(key, var) =>
                       if (var : bool) then
                         match lookup key with
                         | Some c => detail_section (capitalize key)
                                       (text_of (Report.get_details c))
                         | None => ""
                         end
                       else "") selection).

Definition no_flag_set (selection : list (string * bool)) : bool :=
  forallb (fun '(_, var) => negb var) selection.

Definition notice : string := "No components selected.".

(** The lines of a text. *)
Fixpoint lines_from (cur : string) (s : string) : list string :=
  match s with
  | EmptyString => [cur]
  | String c t =>
      if Ascii.eqb c (ascii_of_nat 10) then cur :: lines_from "" t
      else lines_from (cur +:+ String c EmptyString) t
  end.
Definition lines (s : string) : list string := lines_from "" s.

(** The second-level header lines of a document. *)
Definition header_lines (s : string) : list string :=
  List.filter (String.prefix "## ") (lines s).

(** The shape [dddddddd_dddddd] of a compact time stamp. *)
Definition is_compact_timestamp (s : string) : bool :=
  match list_ascii_of_string s with
  | [y1; y2; y3; y4; m1; m2; d1; d2; u; h1; h2; n1; n2; s1; s2] =>
      forallb is_digit [y1; y2; y3; y4; m1; m2; d1; d2; h1; h2; n1; n2; s1; s2]
      && Ascii.eqb u "_"
  | _ => false
  end.

(** A clock reading with a four-digit year and fields in range. *)
Definition plausible_time (now : Report.struct_time) : bool :=
  ((1000 <=? Report.tm_year now) && (Report.tm_year now <=? 9999)
   && (1 <=? Report.tm_mon now) && (Report.tm_mon now <=? 12)
   && (1 <=? Report.tm_mday now) && (Report.tm_mday now <=? 31)
   && (0 <=? Report.tm_hour now) && (Report.tm_hour now <=? 23)
   && (0 <=? Report.tm_min now) && (Report.tm_min now <=? 59)
   && (0 <=? Report.tm_sec now) && (Report.tm_sec now <=? 61))%Z.

(** Spaces turned into underscores, every other character kept. *)
Definition underscore_spaces : string -> string :=
  str_map (fun c => if Ascii.eqb c " " then "_"%char else c).

(** A run of one or more decimal digits. *)
Fixpoint all_digits (s : string) : bool :=
  match s with
  | EmptyString => true
  | String c t => is_digit c && all_digits t
  end.

(** A number written as digits, a point, digits: what the pattern
    [\d+\.\d+] matches. *)
Definition is_decimal_literal (m : string) : Prop :=
  exists i f, m = i +:+ "." +:+ f /\ i <> "" /\ f <> ""
              /\ all_digits i = true /\ all_digits f = true.


(** Texts of exactly two, and of exactly four, decimal digits. *)
Definition two_digit_text (s : string) : bool :=
  match s with
  | String a (String b EmptyString) => is_digit a && is_digit b
  | _ => false
  end.

Definition four_digit_text (s : string) : bool :=
  match s with
  | String a (String b (String c (String d EmptyString))) =>
      is_digit a && is_digit b && is_digit c && is_digit d
  | _ => false
  end.

(** Sample data for the executable checks below. *)
Definition sample_component (name summary details : string) : Report.Component :=
  {| Report.class_name := name;
     Report.get_summary := mret summary;
     Report.get_details := mret details |}.

Definition sample_time : Report.struct_time :=
  {| Report.tm_year := 2024; Report.tm_mon := 3; Report.tm_mday := 9;
     Report.tm_hour := 14; Report.tm_min := 5; Report.tm_sec := 0 |}.

Definition sample_report (all detailed : bool) : Report.t :=
  {| Report.components := Noctua.initialize_hardware_selection_variables;
     Report.all_components_selection := all;
     Report.detailed_report_option := detailed |}.

(** The eight collectors of the application, each answering a fixed
    text. *)
Definition sample_collector (name : string) : Report.Component :=
  sample_component name ("summary of " +:+ name) ("details of " +:+ name).

Definition sample_report_with (selection : list (string * bool))
    (all detailed : bool) : Report.t :=
  {| Report.components := selection;
     Report.all_components_selection := all;
     Report.detailed_report_option := detailed |}.

(** The document the sample collectors compile to. *)
Definition sample_document (self : Report.t) : M string :=
  Report._compile_report_content self sample_time
    (sample_collector "System") (sample_collector "CPU")
    (sample_collector "GPU") (sample_collector "RAM")
    (sample_collector "Disk") (sample_collector "Network")
    (sample_collector "Motherboard") (sample_collector "BIOS") "".



(** A machine whose CPU frequency [psutil] cannot determine. *)
Definition cpu_without_frequency : CPU.t :=
  {| CPU.cpu_info :=
       list_to_map [("brand_raw", PStr "Generic CPU");
                    ("hz_advertised_friendly", PStr "3.6000 GHz")];
     CPU.psutil_cpu_count_physical := Ok (PInt 4);
     CPU.psutil_cpu_count_logical := Ok (PInt 8);
     CPU.psutil_cpu_freq := Ok None |}.

(** A machine on which the core count query is refused. *)
Definition cpu_count_denied : CPU.t :=
  {| CPU.cpu_info := list_to_map [("brand_raw", PStr "Generic CPU")];
     CPU.psutil_cpu_count_physical :=
       Raise {| exn_cls := PermissionError; exn_msg := "Access is denied" |};
     CPU.psutil_cpu_count_logical := Ok (PInt 8);
     CPU.psutil_cpu_freq := Ok None |}.

(** A machine whose [cpuinfo] dictionary holds no advertised frequency,
    running at 3600 MHz. *)
Definition cpu_unadvertised : CPU.t :=
  {| CPU.cpu_info := list_to_map [("brand_raw", PStr "Generic CPU")];
     CPU.psutil_cpu_count_physical := Ok (PInt 4);
     CPU.psutil_cpu_count_logical := Ok (PInt 8);
     CPU.psutil_cpu_freq :=
       Ok (Some {| CPU.current := PyFloat.of_ratio10 3600 0;
                   CPU.min := PyFloat.of_ratio10 800 0;
                   CPU.max := PyFloat.of_ratio10 3600 0 |}) |}.

(** A machine advertised at 3.6 GHz and running at 3600 MHz. *)
Definition cpu_at_advertised_frequency : CPU.t :=
  {| CPU.cpu_info :=
       list_to_map [("brand_raw", PStr "Generic CPU");
                    ("hz_advertised_friendly", PStr "3.6000 GHz")];
     CPU.psutil_cpu_count_physical := Ok (PInt 4);
     CPU.psutil_cpu_count_logical := Ok (PInt 8);
     CPU.psutil_cpu_freq :=
       Ok (Some {| CPU.current := PyFloat.of_ratio10 3600 0;
                   CPU.min := PyFloat.of_ratio10 800 0;
                   CPU.max := PyFloat.of_ratio10 3600 0 |}) |}.


(** A WMI session that lists no firmware instance. *)
Definition no_bios_instance : BIOS.t := {| BIOS.Win32_BIOS := Ok [] |}.

End Spec.

(** * The rest of the program *)

(** ** gui.py and the variables it shares with noctua.py *)

Module NoctuaGUI.
Import Py.

(** What the interface does on top of logging and writing: message
    boxes, console output, closing the window. *)
Inductive gui_event :=
| Core (ev : event)
| AskOkCancel (title message : string)
| Print (text : string)
| Quit.

(** An interface action: its events and its outcome. *)
Definition G (A : Type) : Type := (list gui_event * outcome A)%type.

Definition g_ret {A} (a : A) : G A := ([], Ok a).
Definition g_emit (ev : gui_event) : G unit := ([ev], Ok tt).

Definition g_bind {A B} (m : G A) (k : A -> G B) : G B :=
  match m with
  | (t1, Ok a) => let (t2, r) := k a in (t1 ++ t2, r)
  | (t1, Raise e) => (t1, Raise e)
  end.

(** A computation of the core, run from the interface. *)
Definition run {A} (m : M A) : G A := (List.map Core (trace m), result m).

(** [try: m except Exception as e: handler e finally: final]. *)
Definition try_except_finally (m : G unit) (handler : exn -> G unit)
    (final : G unit) : G unit :=
  let guarded :=
    match m with
    | (t1, Ok a) => (t1, Ok a)
    | (t1, Raise e) =>
        if isinstance e [Exception]
        then let (t2, r) := handler e in (t1 ++ t2, r)
        else (t1, Raise e)
    end in
  match guarded, final with
  | (t1, r), (t2, Ok _) => (t1 ++ t2, r)
  | (t1, _), (t2, Raise e) => (t1 ++ t2, Raise e)
  end.

(** The Tk variables: the selection variables [noctua.py] creates and
    hands to both the report generator and the interface, the
    interface's own logging variable, its logger ([None] until logging
    is enabled) and the text of the name field. *)
Record t := {
  component_selection_vars : list (string * bool);
  select_all_components_var : bool;
  detailed_report_option_var : bool;
  logging_option_var : bool;
  has_logger : bool;
  pc_name_entry_field : string
}.

Definition set_vars (self : t) (vars : list (string * bool)) : t :=
  {| component_selection_vars := vars;
     select_all_components_var := select_all_components_var self;
     detailed_report_option_var := detailed_report_option_var self;
     logging_option_var := logging_option_var self;
     has_logger := has_logger self;
     pc_name_entry_field := pc_name_entry_field self |}.

(** [for var in vars.values(): var.set(state)]. *)
Definition set_all (state : bool) (vars : list (string * bool))
    : list (string * bool) :=
  List.map (fun '(name, _) => (name, state)) vars.

(** The variables when [Noctua.__init__] has built the interface:
    [select_all_components_option = BooleanVar(value=True)] and the
    [set(True)] of [create_select_all_components_checkbutton],
    [set(False)] of [create_detailed_report_option_checkbutton], the
    selection variables untouched. *)
Definition initial (pc_name : string) : t :=
  {| component_selection_vars := Noctua.initialize_hardware_selection_variables;
     select_all_components_var := true;
     detailed_report_option_var := false;
     logging_option_var := false;
     has_logger := false;
     pc_name_entry_field := pc_name |}.

Definition toggle_select_all_components (self : t) : t :=
  let state := select_all_components_var self in
  set_vars self (set_all state (component_selection_vars self)).

Definition toggle_detailed_report_option (self : t) : t :=
  let state := detailed_report_option_var self in
  set_vars self (set_all state (component_selection_vars self)).

Definition validate_component_selection (self : t) : bool :=
  existsb (fun '(_, var) => var) (component_selection_vars self)
  || select_all_components_var self.

(** A click on a [ttk.Checkbutton] flips its variable, then runs its
    command. *)
Definition click_select_all (self : t) : t :=
  toggle_select_all_components
    {| component_selection_vars := component_selection_vars self;
       select_all_components_var := negb (select_all_components_var self);
       detailed_report_option_var := detailed_report_option_var self;
       logging_option_var := logging_option_var self;
       has_logger := has_logger self;
       pc_name_entry_field := pc_name_entry_field self |}.

Definition click_detailed (self : t) : t :=
  toggle_detailed_report_option
    {| component_selection_vars := component_selection_vars self;
       select_all_components_var := select_all_components_var self;
       detailed_report_option_var := negb (detailed_report_option_var self);
       logging_option_var := logging_option_var self;
       has_logger := has_logger self;
       pc_name_entry_field := pc_name_entry_field self |}.

(** The report generator reads the same variables. *)
Definition report_generator (self : t) : Report.t :=
  {| Report.components := component_selection_vars self;
     Report.all_components_selection := select_all_components_var self;
     Report.detailed_report_option := detailed_report_option_var self |}.

(** [Noctua.terminate_noctua_application]. *)
Definition terminate_noctua_application : G unit :=
  g_bind (run (Logging.debug Logging.noctua_Logger
                 "Initiating Noctua application shutdown sequence"))
    (fun _ => g_emit Quit).

Definition completion_message : string :=
  "Report generated successfully:" +:+ nl +:+ "result/hardware_report.md"
  +:+ nl +:+ nl +:+ "Close the application?".

(** [answer] is what the user clicks in the message box. *)
Definition display_report_completion_message (answer : bool) : G unit :=
  g_bind (g_emit (AskOkCancel "Report Generated" completion_message))
    (fun _ => if answer then terminate_noctua_application else g_ret tt).

Definition generate_report (self : t)
    (report_generation_callback : string -> M unit) (answer : bool) : G unit :=
  try_except_finally
    (let pc_name := pc_name_entry_field self in
     run (report_generation_callback pc_name))
    (fun error =>
       if has_logger self
       then run (Logger.error
                   {| Call.positional :=
                        [PStr ("Error during report generation: " +:+ exn_msg error)];
                      Call.keywords := [] |})
       else g_emit (Print ("Error: " +:+ exn_msg error)))
    (display_report_completion_message answer).

End NoctuaGUI.

(** ** More string methods *)

Module Text.
Import Py.

(** [needle in s]. *)
Fixpoint contains (needle s : string) : bool :=
  String.prefix needle s
  || match s with
     | EmptyString => false
     | String _ t => contains needle t
     end.

Definition code_in (c : ascii) (codes : list N) : bool :=
  existsb (N.eqb (N_of_ascii c)) codes.

(** The line boundaries of [str.splitlines] and the white space of
    [str.split] in a text decoded from code page 850, one character per
    byte: the ASCII ones, and for white space the no-break space (byte
    255). *)
Definition is_line_boundary (c : ascii) : bool :=
  code_in c [10; 11; 12; 13; 28; 29; 30]%N.

Definition is_space (c : ascii) : bool :=
  code_in c [9; 10; 11; 12; 13; 28; 29; 30; 31; 32; 255]%N.

Definition is_empty (s : string) : bool :=
  match s with
  | EmptyString => true
  | String _ _ => false
  end.

Fixpoint splitlines_go (cur : string) (s : string) : list string :=
  match s with
  | EmptyString => if is_empty cur then [] else [cur]
  | String c t =>
      if is_line_boundary c then
        match t with
        | String c2 t2 =>
            if code_in c [13%N] && code_in c2 [10%N]
            then cur :: splitlines_go EmptyString t2
            else cur :: splitlines_go EmptyString t
        | EmptyString => cur :: splitlines_go EmptyString t
        end
      else splitlines_go (cur +:+ String c EmptyString) t
  end.

(** [s.splitlines()]. *)
Definition splitlines (s : string) : list string := splitlines_go EmptyString s.

Fixpoint split_go (cur : string) (s : string) : list string :=
  match s with
  | EmptyString => if is_empty cur then [] else [cur]
  | String c t =>
      if is_space c
      then if is_empty cur then split_go EmptyString t
           else cur :: split_go EmptyString t
      else split_go (cur +:+ String c EmptyString) t
  end.

(** [s.split()]. *)
Definition split (s : string) : list string := split_go EmptyString s.

(** [str(v)] for a WMI string property: text, or [None]. *)
Definition str_opt (v : option string) : string :=
  match v with
  | Some s => s
  | None => "None"
  end.

End Text.

(** ** hardware/motherboard.py *)

Module RAM_modules.
Import Py.

(** [a / b] on integers, [0 < b]: the binary64 nearest to the quotient. *)
Definition true_div (a b : Z) : PyFloat.float :=
  match a, b with
  | Zpos p, Zpos q =>
      SFdiv PyFloat.prec PyFloat.emax (S754_finite false p 0) (S754_finite false q 0)
  | Zneg p, Zpos q =>
      SFdiv PyFloat.prec PyFloat.emax (S754_finite true p 0) (S754_finite false q 0)
  | _, _ => S754_zero false
  end.

Definition pad2 (n : Z) : string :=
  if (n <? 10)%Z then "0" +:+ str_int n else str_int n.

(** [f"{x:.2f}"]: two digits after the point, the exact binary value
    rounded to nearest, ties to even. *)
Definition format_2f (x : PyFloat.float) : string :=
  match x with
  | S754_nan => "nan"
  | S754_infinity s => PyFloat.sign_str s +:+ "inf"
  | S754_zero s => PyFloat.sign_str s +:+ "0.00"
  | S754_finite s m e =>
      let hundredths :=
        match e with
        | Zneg p => PyFloat.round_half_even (100 * Zpos m) (2 ^ Zpos p)
        | _ => (100 * Zpos m * 2 ^ e)%Z
        end in
      PyFloat.sign_str s +:+ str_int (hundredths / 100) +:+ "."
        +:+ pad2 (hundredths mod 100)
  end.

(** The voltage is an integer number of millivolts, or [None]. *)
Definition _format_voltage (voltage : option Z) : string :=
  match voltage with
  | Some v =>
      let voltage_v := true_div v 1000 in
      format_2f voltage_v
  | None => "N/A"
  end.

End RAM_modules.

Module Motherboard.
Import Py.

Record Win32_BaseBoard_entry := {
  Manufacturer : option string;
  Product : option string;
  SerialNumber : option string;
  Version : option string
}.

Record Win32_SystemSlot_entry := {
  SlotDesignation : option string;
  slot_Name : option string;
  slot_Status : option string
}.

Record Win32_USBController_entry := {
  DeviceID : option string;
  usb_Name : option string;
  usb_Status : option string
}.

(** The collector: what the WMI session answers to each query while
    one method runs; [Win32_BIOS] lists the [SMBIOSBIOSVersion] of each
    instance. *)
Record t := {
  Win32_BaseBoard : outcome (list Win32_BaseBoard_entry);
  Win32_BIOS : outcome (list (option string));
  Win32_SystemSlot : outcome (list Win32_SystemSlot_entry);
  Win32_USBController : outcome (list Win32_USBController_entry)
}.

(** [text if text else fallback]. *)
Definition or_else (text fallback : string) : string :=
  if Text.is_empty text then fallback else text.

(** Returns the property as it is, [None] included. *)
Definition _get_bios_version (k : Logging.kind) (self : t)
    : M (option string) :=
  try_except
    (entries ← lift (Win32_BIOS self);
     bios ← index0 entries;
     mret bios)
    [([x_wmi], fun _ =>
        Logging.error_exc_info k "Failed to fetch BIOS version";;
        mret (Some "Unknown"));
     ([Exception], fun _ =>
        Logging.error_exc_info k "An unexpected error occurred";;
        mret (Some "Unknown"))].

Definition slot_line (slot : Win32_SystemSlot_entry) : string :=
  "Slot: " +:+ Text.str_opt (SlotDesignation slot) +:+ ", "
  +:+ "Type: " +:+ Text.str_opt (slot_Name slot) +:+ ", "
  +:+ "Status: " +:+ Text.str_opt (slot_Status slot) +:+ nl.

Definition _get_motherboard_slots (k : Logging.kind) (self : t) : M string :=
  try_except
    (slots ← lift (Win32_SystemSlot self);
     slot_details ← for_each slots
       (fun slot_details slot => mret (slot_details +:+ slot_line slot)) "";
     mret (or_else slot_details "No slot information available"))
    [([x_wmi], fun _ =>
        Logging.error_exc_info k "Failed to fetch motherboard slots";;
        mret "Failed to fetch slot information");
     ([Exception], fun _ =>
        Logging.error_exc_info k "An unexpected error occurred";;
        mret "An unexpected error occurred")].

Definition _get_usb_ports (k : Logging.kind) (self : t) : M string :=
  try_except
    (usb_ports ← lift (Win32_USBController self);
     usb_details ← for_each usb_ports
       (fun usb_details port =>
          mret (usb_details
                +:+ "Device ID: " +:+ Text.str_opt (DeviceID port) +:+ ", "
                +:+ "Name: " +:+ Text.str_opt (usb_Name port) +:+ ", "
                +:+ "Status: " +:+ Text.str_opt (usb_Status port) +:+ nl)) "";
     mret (or_else usb_details "No USB port information available"))
    [([x_wmi], fun _ =>
        Logging.error_exc_info k "Failed to fetch USB port information";;
        mret "Failed to fetch USB port information");
     ([Exception], fun _ =>
        Logging.error_exc_info k "An unexpected error occurred";;
        mret "An unexpected error occurred")].

(** ["PCI" in slot.Name]; [None] is not a container. *)
Definition PCI_in (name : option string) : M bool :=
  match name with
  | Some s => mret (Text.contains "PCI" s)
  | None => raise {| exn_cls := TypeError;
                     exn_msg := "argument of type 'NoneType' is not iterable" |}
  end.

Definition _get_pcie_slots (k : Logging.kind) (self : t) : M string :=
  try_except
    (pcie_slots ← lift (Win32_SystemSlot self);
     pcie_details ← for_each pcie_slots
       (fun pcie_details slot =>
          is_pci ← PCI_in (slot_Name slot);
          if (is_pci : bool) then mret (pcie_details +:+ slot_line slot)
          else mret pcie_details) "";
     mret (or_else pcie_details "No PCIe slot information available"))
    [([x_wmi], fun _ =>
        Logging.error_exc_info k "Failed to fetch PCIe slot information";;
        mret "Failed to fetch PCIe slot information");
     ([Exception], fun _ =>
        Logging.error_exc_info k "An unexpected error occurred";;
        mret "An unexpected error occurred")].

Definition _fetch_motherboard_summary (k : Logging.kind) (self : t) : M string :=
  try_except
    (boards ← lift (Win32_BaseBoard self);
     for_each boards
       (fun summary board =>
          mret (summary
                +:+ "**Manufacturer:** " +:+ Text.str_opt (Manufacturer board) +:+ nl
                +:+ "**Product:** " +:+ Text.str_opt (Product board) +:+ nl)) "")
    [([x_wmi], fun _ =>
        Logging.error_exc_info k "Failed to fetch motherboard summary";;
        mret "**Failed to fetch motherboard summary**");
     ([Exception], fun _ =>
        Logging.error_exc_info k "An unexpected error occurred";;
        mret "**An unexpected error occurred**")].

Definition _fetch_motherboard_details (k : Logging.kind) (self : t) : M string :=
  try_except
    (boards ← lift (Win32_BaseBoard self);
     for_each boards
       (fun details board =>
          bios_version ← _get_bios_version k self;
          slots ← _get_motherboard_slots k self;
          usb_ports ← _get_usb_ports k self;
          pcie_slots ← _get_pcie_slots k self;
          mret (details
                +:+ "**Manufacturer:** " +:+ Text.str_opt (Manufacturer board) +:+ nl
                +:+ "**Product:** " +:+ Text.str_opt (Product board) +:+ nl
                +:+ "**Serial Number:** " +:+ Text.str_opt (SerialNumber board) +:+ nl
                +:+ "**Version:** " +:+ Text.str_opt (Version board) +:+ nl
                +:+ "**BIOS Version:** " +:+ Text.str_opt bios_version +:+ nl
                +:+ "**Slots:**" +:+ nl +:+ slots +:+ nl
                +:+ "**USB Ports:**" +:+ nl +:+ usb_ports +:+ nl
                +:+ "**PCIe Slots:**" +:+ nl +:+ pcie_slots +:+ nl)) "")
    [([x_wmi], fun _ =>
        Logging.error_exc_info k "Failed to fetch detailed motherboard information";;
        mret "**Failed to fetch detailed motherboard information**");
     ([Exception], fun _ =>
        Logging.error_exc_info k "An unexpected error occurred";;
        mret "**An unexpected error occurred**")].

Definition get_summary (k : Logging.kind) (self : t) : M string :=
  try_except
    (Logging.info k "Fetching motherboard summary";;
     _fetch_motherboard_summary k self)
    [([x_wmi], fun _ =>
        Logging.error_exc_info k "Failed to fetch motherboard summary";;
        mret ("**Motherboard Information**" +:+ nl
              +:+ "Failed to fetch motherboard summary." +:+ nl));
     ([Exception], fun _ =>
        Logging.error_exc_info k "An unexpected error occurred";;
        mret ("**Motherboard Information**" +:+ nl
              +:+ "An unexpected error occurred." +:+ nl))].

Definition get_details (k : Logging.kind) (self : t) : M string :=
  try_except
    (Logging.info k "Fetching detailed motherboard information";;
     _fetch_motherboard_details k self)
    [([x_wmi], fun _ =>
        Logging.error_exc_info k "Failed to fetch detailed motherboard information";;
        mret ("**Detailed Motherboard Information**" +:+ nl
              +:+ "Failed to fetch detailed motherboard information." +:+ nl));
     ([Exception], fun _ =>
        Logging.error_exc_info k "An unexpected error occurred";;
        mret ("**Detailed Motherboard Information**" +:+ nl
              +:+ "An unexpected error occurred." +:+ nl))].

End Motherboard.

(** ** hardware/network.py: the network drives *)

Module Network.
Import Py.

(** A drive dictionary: [letter], [remote], [name]. *)
Record drive := { letter : string; remote : string; name : string }.

(** The collector's view of the system: what [net use] prints, or the
    exception [subprocess.check_output] raises. *)
Record t := { net_use : outcome string }.

Definition backslash : string := String (ascii_of_nat 92) EmptyString.

(** [parts[i]]. *)
Definition item (parts : list string) (i : nat) : outcome string :=
  match nth_error parts i with
  | Some s => Ok s
  | None => Raise {| exn_cls := IndexError; exn_msg := "list index out of range" |}
  end.

(** The dictionary built from one line that holds a backslash and a
    colon. *)
Definition drive_of_line (line : string) : outcome drive :=
  let parts := Text.split line in
  match item parts 1 with
  | Raise e => Raise e
  | Ok l =>
      match item parts 2 with
      | Raise e => Raise e
      | Ok r =>
          Ok {| letter := l; remote := r;
                name := if (3 <? List.length parts)%nat
                        then nth 3 parts "Unknown" else "Unknown" |}
      end
  end.

(** The loop over the lines: the drives appended so far, and the
    exception that ended the loop early, if any. *)
Fixpoint scan_lines (drives : list drive) (lines : list string)
    : list drive * option exn :=
  match lines with
  | [] => (drives, None)
  | line :: lines' =>
      if Text.contains backslash line && Text.contains ":" line then
        match drive_of_line line with
        | Ok d => scan_lines (drives ++ [d]) lines'
        | Raise e => (drives, Some e)
        end
      else scan_lines drives lines'
  end.

(** The [try] block catches [Exception], so whatever ends it early, the
    list built so far is what is returned. *)
Definition _get_network_drives (k : Logging.kind) (self : t) : M (list drive) :=
  match net_use self with
  | Raise _ =>
      Logging.error_exc_info k "Error getting network drives";;
      mret []
  | Ok result =>
      match scan_lines [] (Text.splitlines result) with
      | (drives, None) => mret drives
      | (drives, Some _) =>
          Logging.error_exc_info k "Error getting network drives";;
          mret drives
      end
  end.

Definition drive_line (d : drive) : string :=
  "- **Drive Letter:** " +:+ letter d +:+ ", "
  +:+ "**Remote Path:** " +:+ remote d +:+ " (" +:+ name d +:+ ")" +:+ nl.

Definition _fetch_network_drives_summary (k : Logging.kind) (self : t) : M string :=
  try_except
    (drives ← _get_network_drives k self;
     match drives with
     | _ :: _ =>
         for_each drives (fun summary d => mret (summary +:+ drive_line d))
           ("**Network Drives:**" +:+ nl)
     | [] => mret ""
     end)
    [([Exception], fun _ =>
        Logging.error_exc_info k "Failed to fetch network drives summary";;
        mret ("- **Network Drives Info:** Failed to fetch network drives summary"
              +:+ nl))].

Definition _fetch_network_drives_details (k : Logging.kind) (self : t) : M string :=
  try_except
    (drives ← _get_network_drives k self;
     match drives with
     | _ :: _ =>
         for_each drives (fun details d => mret (details +:+ drive_line d))
           ("**Network Drives:**" +:+ nl)
     | [] => mret ""
     end)
    [([Exception], fun _ =>
        Logging.error_exc_info k "Failed to fetch network drives details";;
        mret ("- **Network Drives Info:** Failed to fetch network drives details"
              +:+ nl))].

End Network.

(** ** hardware/system.py: the USB device lists *)

Module System.
Import Py.

Record Win32_PnPEntity_entry := {
  Name : option string;
  Manufacturer : option string;
  DeviceID : option string
}.

(** The collector: its WMI session ([None] when [wmi.WMI()] failed in
    the constructor) and what the session answers to
    [Win32_PnPEntity()]. *)
Record t := { wmi : option (outcome (list Win32_PnPEntity_entry)) }.

(** [device.Name and "USB" in device.Name]. *)
Definition is_usb (device : Win32_PnPEntity_entry) : bool :=
  match Name device with
  | Some s => negb (Text.is_empty s) && Text.contains "USB" s
  | None => false
  end.

Definition name_of (device : Win32_PnPEntity_entry) : string :=
  match Name device with
  | Some s => s
  | None => ""
  end.

Definition str_le (a b : string) : Prop := String.leb a b = true.

#[export] Instance str_le_dec a b : Decision (str_le a b) :=
  decide (String.leb a b = true).

(** [sorted(names)] for a set of strings. *)
Definition sorted (names : list string) : list string :=
  merge_sort str_le names.

(** The set built by [usb_devices.add(device.Name)], as the list of its
    distinct members. *)
Definition usb_names (devices : list Win32_PnPEntity_entry) : list string :=
  remove_dups (List.map name_of (List.filter is_usb devices)).

Definition _fetch_usb_devices_summary (k : Logging.kind) (self : t) : M string :=
  let summary := "**USB Devices:**" +:+ nl in
  match wmi self with
  | Some query =>
      match query with
      | Ok devices =>
          for_each (sorted (usb_names devices))
            (fun summary device => mret (summary +:+ "- " +:+ device +:+ nl))
            summary
      | Raise e =>
          Logging.error_exc_info k "Failed to fetch USB devices summary";;
          mret (summary +:+ "Failed to fetch USB devices summary: "
                +:+ exn_msg e +:+ nl)
      end
  | None => mret (summary +:+ "WMI not initialized." +:+ nl)
  end.

(** The dictionary built by [usb_devices[device.Name] = device]. *)
Definition usb_dict (devices : list Win32_PnPEntity_entry)
    : gmap string Win32_PnPEntity_entry :=
  fold_left (fun d device => <[name_of device := device]> d)
    (List.filter is_usb devices) ∅.

Definition device_block (name : string) (device : Win32_PnPEntity_entry) : string :=
  "- **Device:** " +:+ name +:+ nl
  +:+ "  - **Manufacturer:** " +:+ Text.str_opt (Manufacturer device) +:+ nl
  +:+ "  - **Device ID:** " +:+ Text.str_opt (DeviceID device) +:+ nl.

Definition _fetch_usb_devices_details (k : Logging.kind) (self : t) : M string :=
  let details := "**USB Devices:**" +:+ nl in
  match wmi self with
  | Some query =>
      match query with
      | Ok devices =>
          let usb_devices := usb_dict devices in
          for_each (sorted (elements (dom usb_devices)))
            (fun details name =>
               match usb_devices !! name with
               | Some device => mret (details +:+ device_block name device)
               | None => mret details
               end)
            details
      | Raise e =>
          Logging.error_exc_info k "Failed to fetch USB devices details";;
          mret (details +:+ "Failed to fetch USB devices details: "
                +:+ exn_msg e +:+ nl)
      end
  | None => mret (details +:+ "WMI not initialized." +:+ nl)
  end.

End System.

(** ** Vocabulary of the further properties *)

Module Extra.
Import Py.

(** The exception of [logger.error(msg, exc_info=True)] on the
    application's logger. *)
Definition exc_info_TypeError : exn :=
  Call.type_error "Logger.error() got an unexpected keyword argument 'exc_info'".

(** The message boxes among the events of an interface action. *)
Definition dialogs (events : list NoctuaGUI.gui_event) : list (string * string) :=
  flat_map (fun ev => match ev with
                      | NoctuaGUI.AskOkCancel title message => [(title, message)]
                      | _ => []
                      end) events.

(** The console output among them. *)
Definition printed (events : list NoctuaGUI.gui_event) : list string :=
  flat_map (fun ev => match ev with
                      | NoctuaGUI.Print text => [text]
                      | _ => []
                      end) events.

(** The file-system events of a trace. *)
Definition fs_events (events : list event) : list event :=
  List.filter (fun ev => match ev with
                         | Log _ _ => false
                         | _ => true
                         end) events.

(** A text without a path separator. *)
Definition sep_free (s : string) : bool :=
  forallb (fun c => negb (Report.is_sep c)) (list_ascii_of_string s).

(** A line of [net use] that the drive scan takes for a drive: it holds
    a backslash and a colon. *)
Definition drive_line_like (line : string) : bool :=
  Text.contains Network.backslash line && Text.contains ":" line.

(** The device enumerated last among the USB devices of a given name. *)
Definition last_named (name : string)
    (devices : list System.Win32_PnPEntity_entry)
    : option System.Win32_PnPEntity_entry :=
  List.find (fun device => String.eqb (System.name_of device) name)
    (rev (List.filter System.is_usb devices)).

(** A number of hundredths written with two decimals. *)
Definition hundredths_text (h : Z) : string :=
  str_int (h / 100) +:+ "." +:+ RAM_modules.pad2 (h mod 100).

(** The voltage text is one of the two neighbouring hundredths, and the
    nearer one. *)
Definition voltage_rounded (v : Z) : bool :=
  let text := RAM_modules._format_voltage (Some v) in
  (String.eqb text (hundredths_text (v / 10)) && (v mod 10 <=? 5)%Z)
  || (String.eqb text (hundredths_text (v / 10 + 1)) && (5 <=? v mod 10)%Z).

End Extra.

(** * Properties *)

Import Py.

(** ** The monad *)

Lemma result_bind {A B} (m : M A) (k : A -> M B) :
  result (m ≫= k) =
  match result m with
  | Ok a => result (k a)
  | Raise e => Raise e
  end.
Proof.
  destruct m as [t [a | e]]; cbn; [| reflexivity].
  destruct (k a); reflexivity.
Qed.

Lemma result_ret {A} (a : A) : result (mret a : M A) = Ok a.
Proof. reflexivity. Qed.

Lemma result_emit ev : result (emit ev) = Ok tt.
Proof. reflexivity. Qed.

Lemma result_lift {A} (o : outcome A) : result (lift o) = o.
Proof. reflexivity. Qed.

Lemma issubclass_Exception c : issubclass c Exception = true.
Proof. destruct c; reflexivity. Qed.

Lemma isinstance_Exception e : isinstance e [Exception] = true.
Proof. unfold isinstance; cbn. now rewrite issubclass_Exception. Qed.

(** ** The logger a component is handed *)

(** A call with the message alone does the same on both loggers. *)
Lemma Logging_single_argument k msg :
  Logging.debug k msg = logger.debug msg
  /\ Logging.info k msg = logger.info msg
  /\ Logging.warning k msg = logger.warning msg
  /\ Logging.error k msg = logger.error msg.
Proof. destruct k; repeat split; reflexivity. Qed.

Lemma result_info_then {A} k msg (m : M A) :
  result (Logging.info k msg;; m) = result m.
Proof. destruct k; rewrite result_bind; reflexivity. Qed.

Lemma result_debug_then {A} k msg (m : M A) :
  result (Logging.debug k msg;; m) = result m.
Proof. destruct k; rewrite result_bind; reflexivity. Qed.

Lemma result_try_except {A} (m : M A) clauses :
  result (try_except m clauses)
  = match result m with
    | Ok a => Ok a
    | Raise e =>
        match select_clause e clauses with
        | Some handler => result (handler e)
        | None => Raise e
        end
    end.
Proof.
  destruct m as [t [a | e]]; [reflexivity |].
  cbn. destruct (select_clause e clauses) as [h |]; [| reflexivity].
  now destruct (h e).
Qed.


(** One [except Exception] clause whose handler begins with that call,
    on the application's logger. *)
Lemma guarded_noctua {A} (m : M A) msg (k : M A) :
  result (try_except m
            [([Exception], fun _ =>
                Logging.error_exc_info Logging.noctua_Logger msg;; k)])
  = match result m with
    | Ok a => Ok a
    | Raise _ => Raise Extra.exc_info_TypeError
    end.
Proof.
  rewrite result_try_except. destruct (result m) as [a | e]; [reflexivity |].
  cbn [select_clause]. now rewrite isinstance_Exception.
Qed.

(** Two clauses, the second [except Exception], both with such
    handlers. *)
Lemma guarded_twice_noctua {A} (m : M A) classes msg1 msg2 (k1 k2 : M A) :
  result (try_except m
            [(classes, fun _ =>
                Logging.error_exc_info Logging.noctua_Logger msg1;; k1);
             ([Exception], fun _ =>
                Logging.error_exc_info Logging.noctua_Logger msg2;; k2)])
  = match result m with
    | Ok a => Ok a
    | Raise _ => Raise Extra.exc_info_TypeError
    end.
Proof.
  rewrite result_try_except. destruct (result m) as [a | e]; [reflexivity |].
  cbn [select_clause]. rewrite isinstance_Exception.
  now destruct (isinstance e classes).
Qed.

(** The same on a [logging.Logger]: the handler's value is returned. *)
Lemma guarded_logging {A} (m : M A) msg (a1 : A) :
  result (try_except m
            [([Exception], fun _ =>
                Logging.error_exc_info Logging.logging_Logger msg;; mret a1)])
  = match result m with
    | Ok a => Ok a
    | Raise _ => Ok a1
    end.
Proof.
  rewrite result_try_except. destruct (result m) as [a | e]; [reflexivity |].
  cbn [select_clause]. now rewrite isinstance_Exception.
Qed.

Lemma guarded_twice_logging {A} (m : M A) classes msg1 msg2 (a1 a2 : A) :
  result (try_except m
            [(classes, fun _ =>
                Logging.error_exc_info Logging.logging_Logger msg1;; mret a1);
             ([Exception], fun _ =>
                Logging.error_exc_info Logging.logging_Logger msg2;; mret a2)])
  = match result m with
    | Ok a => Ok a
    | Raise e => Ok (if isinstance e classes then a1 else a2)
    end.
Proof.
  rewrite result_try_except. destruct (result m) as [a | e]; [reflexivity |].
  cbn [select_clause]. rewrite isinstance_Exception.
  now destruct (isinstance e classes).
Qed.

(** ** Report writer *)


(** Neither the generator nor the entry point lets an exception of the
    code it calls through: each returns, or ends in what its own
    handler's logging call raises. *)
Lemma generate_report_outcome k self fs now_path now_content
    system cpu gpu ram disk network motherboard bios pc_name :
  result (Report.generate_report k self fs now_path now_content
            system cpu gpu ram disk network motherboard bios pc_name) = Ok tt
  \/ result (Report.generate_report k self fs now_path now_content
               system cpu gpu ram disk network motherboard bios pc_name)
     = result (Logging.error_exc_info k "Report generation failed due to an error.").
Proof.
  unfold Report.generate_report. rewrite result_debug_then, result_try_except.
  destruct (result _) as [[] | e]; [now left | right].
  cbn [select_clause]. now rewrite isinstance_Exception.
Qed.

Lemma generate_hardware_report_outcome k app fs now_path now_content system_name :
  result (Noctua.generate_hardware_report k app fs now_path now_content
            system_name) = Ok tt
  \/ result (Noctua.generate_hardware_report k app fs now_path now_content
               system_name)
     = result (Logging.error_exc_info k
                 "Report generation process encountered an error").
Proof.
  unfold Noctua.generate_hardware_report.
  rewrite result_debug_then, result_try_except.
  destruct (result _) as [[] | e]; [now left | right].
  cbn [select_clause]. now rewrite isinstance_Exception.
Qed.





(** ** Collectors *)

(** C2, at the failing inputs.  Where [psutil.cpu_freq()] returns [None]
    the CPU collector's [get_details] raises [AttributeError]; where the
    core count query fails its [get_summary] raises that error; and where
    WMI lists no firmware instance the BIOS collector's [get_summary]
    returns the empty text.  No failure notice is produced in any of the
    three, whichever logger the collectors are given. *)
Theorem C2_collectors_raise_or_return_empty :
  forall k,
    result (CPU.get_details k Spec.cpu_without_frequency)
    = Raise {| exn_cls := AttributeError;
               exn_msg := "'NoneType' object has no attribute 'current'" |}
    /\ result (CPU.get_summary Spec.cpu_count_denied)
       = Raise {| exn_cls := PermissionError; exn_msg := "Access is denied" |}
    /\ result (BIOS.get_summary k Spec.no_bios_instance) = Ok "".
Proof. intros []; repeat split; vm_compute; reflexivity. Qed.

(** ** Lookup tables *)

Local Open Scope Z_scope.

Lemma dict_get_None {V} (d : gmap Z V) (key : Z) (dflt : V) :
  d !! key = None -> dict_get d key dflt = dflt.
Proof. unfold dict_get. now intros ->. Qed.

(** The codes the form-factor table defines are exactly 0 to 14. *)
Lemma form_factors_defined (c : Z) :
  RAM.form_factors !! c = None <-> (c < 0 \/ 14 < c).
Proof.
  split.
  - intros H. destruct (decide (0 <= c <= 14)) as [Hin | Hout]; [| lia].
    exfalso.
    assert (Hc : c ∈ [0; 1; 2; 3; 4; 5; 6; 7; 8; 9; 10; 11; 12; 13; 14]).
    { rewrite !elem_of_cons. lia. }
    rewrite !elem_of_cons in Hc.
    repeat (destruct Hc as [-> | Hc]; [vm_compute in H; discriminate H |]).
    now apply elem_of_nil in Hc.
  - intros Hout. unfold RAM.form_factors.
    apply not_elem_of_list_to_map_1. cbn. rewrite !elem_of_cons.
    rewrite elem_of_nil. lia.
Qed.

(** The memory-type table defines 0 to 22, 24 and 25. *)
Lemma memory_types_defined (c : Z) :
  RAM.memory_types !! c = None <-> (c < 0 \/ c = 23 \/ 25 < c).
Proof.
  split.
  - intros H.
    destruct (decide (0 <= c <= 25 /\ c <> 23)) as [Hin | Hout]; [| lia].
    exfalso.
    assert (Hc : c ∈ [0; 1; 2; 3; 4; 5; 6; 7; 8; 9; 10; 11; 12; 13; 14; 15;
                      16; 17; 18; 19; 20; 21; 22; 24; 25]).
    { rewrite !elem_of_cons. lia. }
    rewrite !elem_of_cons in Hc.
    repeat (destruct Hc as [-> | Hc]; [vm_compute in H; discriminate H |]).
    now apply elem_of_nil in Hc.
  - intros Hout. unfold RAM.memory_types.
    apply not_elem_of_list_to_map_1. cbn. rewrite !elem_of_cons.
    rewrite elem_of_nil. lia.
Qed.

(** The characteristics table defines 0 to 35. *)
Lemma characteristic_descriptions_defined (c : Z) :
  BIOS.characteristic_descriptions !! c = None <-> (c < 0 \/ 35 < c).
Proof.
  split.
  - intros H. destruct (decide (0 <= c <= 35)) as [Hin | Hout]; [| lia].
    exfalso.
    assert (Hc : c ∈ [0; 1; 2; 3; 4; 5; 6; 7; 8; 9; 10; 11; 12; 13; 14; 15;
                      16; 17; 18; 19; 20; 21; 22; 23; 24; 25; 26; 27; 28; 29;
                      30; 31; 32; 33; 34; 35]).
    { rewrite !elem_of_cons. lia. }
    rewrite !elem_of_cons in Hc.
    repeat (destruct Hc as [-> | Hc]; [vm_compute in H; discriminate H |]).
    now apply elem_of_nil in Hc.
  - intros Hout. unfold BIOS.characteristic_descriptions.
    apply not_elem_of_list_to_map_1. cbn. rewrite !elem_of_cons.
    rewrite elem_of_nil. lia.
Qed.

(** C9: the three code tables are fixed lookups.  The form-factor
    table defines the codes 0 to 14, the memory-type table 0 to 22, 24
    and 25, the characteristics table 0 to 35; a code a table does not
    define maps to "Unknown" (in a characteristics list, at its place in
    the comma-separated text), and 99 is such a code in all three.  The
    defined form factors and memory types map to their names, and the
    characteristics 5, 7, 35 are rendered as the three supported
    features. *)
Theorem C9_code_tables :
  forall c : Z,
    (c < 0 \/ 14 < c -> RAM._get_form_factor c = "Unknown")
    /\ (c < 0 \/ c = 23 \/ 25 < c -> RAM._get_memory_type c = "Unknown")
    /\ (c < 0 \/ 35 < c ->
        forall before after,
          BIOS._get_bios_characteristics (before ++ c :: after)
          = join ", " (List.map (fun k => dict_get BIOS.characteristic_descriptions
                                            k "Unknown") before
                       ++ "Unknown"
                       :: List.map (fun k => dict_get BIOS.characteristic_descriptions
                                               k "Unknown") after))
    /\ (RAM.form_factors !! c = None <-> c < 0 \/ 14 < c)
    /\ (RAM.memory_types !! c = None <-> c < 0 \/ c = 23 \/ 25 < c)
    /\ (BIOS.characteristic_descriptions !! c = None <-> c < 0 \/ 35 < c)
    /\ List.map RAM._get_form_factor [0; 1; 2; 3; 4; 5; 6; 7; 8; 9; 10; 11; 12; 13; 14]
       = ["Unknown"; "Other"; "SIP"; "DIP"; "ZIP"; "SOJ"; "Proprietary"; "SIMM";
          "DIMM"; "TSOP"; "PGA"; "RIMM"; "SODIMM"; "SRIMM"; "FB-DIMM"]
    /\ List.map RAM._get_memory_type
         [0; 1; 2; 3; 4; 5; 6; 7; 8; 9; 10; 11; 12; 13; 14; 15; 16; 17; 18; 19;
          20; 21; 22; 23; 24; 25]
       = ["Unknown"; "Other"; "DRAM"; "Synchronous DRAM"; "Cache DRAM"; "EDO";
          "EDRAM"; "VRAM"; "SRAM"; "RAM"; "ROM"; "Flash"; "EEPROM"; "FEPROM";
          "EPROM"; "CDRAM"; "3DRAM"; "SDRAM"; "SGRAM"; "RDRAM"; "DDR"; "DDR2";
          "DDR2 FB-DIMM"; "Unknown"; "DDR3"; "FBD2"]
    /\ BIOS._get_bios_characteristics [5; 7; 35]
       = "PCI is supported, Plug and Play is supported, UEFI is supported".
Proof.
  intros c.
  split; [| split; [| split; [| split; [| split; [| split; [| split; [| split]]]]]]];
    try (vm_compute; reflexivity).
  - intros H. now apply dict_get_None, form_factors_defined.
  - intros H. now apply dict_get_None, memory_types_defined.
  - intros H before after. unfold BIOS._get_bios_characteristics.
    rewrite List.map_app. cbn [List.map].
    rewrite (dict_get_None _ c "Unknown"); [reflexivity |].
    now apply characteristic_descriptions_defined.
  - apply form_factors_defined.
  - apply memory_types_defined.
  - apply characteristic_descriptions_defined.
Qed.

Lemma C9_code_tables_witness :
  RAM._get_form_factor 99 = "Unknown"
  /\ RAM._get_memory_type 99 = "Unknown"
  /\ BIOS._get_bios_characteristics [5; 99; 35]
     = "PCI is supported, Unknown, UEFI is supported".
Proof.
  destruct (C9_code_tables 99) as (Hf & Hm & Hb & _).
  split; [apply Hf; lia |].
  split; [apply Hm; lia |].
  apply (Hb ltac:(lia) [5] [35]).
Defined.

Local Close Scope Z_scope.

(** ** Report file name *)

Lemma replace_space_underscore (s : string) :
  replace " " "_" s = Spec.underscore_spaces s.
Proof.
  unfold Spec.underscore_spaces.
  induction s as [| c t IH]; [reflexivity |].
  cbn [replace str_map]. rewrite IH. now destruct (Ascii.eqb c " ").
Qed.

Lemma two_digits_text (n : Z) :
  (0 <= n <= 99)%Z -> Spec.two_digit_text (Report.two_digits n) = true.
Proof.
  intros Hn.
  assert (Hall : forallb (fun k => Spec.two_digit_text (Report.two_digits (Z.of_nat k)))
                   (seq 0 100) = true) by (vm_compute; reflexivity).
  rewrite forallb_forall in Hall.
  specialize (Hall (Z.to_nat n)). rewrite Z2Nat.id in Hall by lia.
  apply Hall, in_seq. lia.
Qed.

Lemma year_text (y : Z) :
  (1000 <= y <= 9999)%Z -> Spec.four_digit_text (str_int y) = true.
Proof.
  intros Hy.
  assert (Hall : forallb (fun k => Spec.four_digit_text (str_int (1000 + Z.of_nat k)))
                   (seq 0 (Z.to_nat 9000)) = true) by (vm_compute; reflexivity).
  rewrite forallb_forall in Hall.
  specialize (Hall (Z.to_nat (y - 1000))).
  replace (1000 + Z.of_nat (Z.to_nat (y - 1000)))%Z with y in Hall by lia.
  apply Hall, in_seq. lia.
Qed.

Lemma strftime_compact_shape (now : Report.struct_time) :
  Spec.plausible_time now = true ->
  Spec.is_compact_timestamp (Report.strftime_compact now) = true.
Proof.
  unfold Spec.plausible_time. rewrite !andb_true_iff, !Z.leb_le.
  intros Hnow.
  pose proof (year_text (Report.tm_year now) ltac:(lia)) as Hy.
  pose proof (two_digits_text (Report.tm_mon now) ltac:(lia)) as Hmo.
  pose proof (two_digits_text (Report.tm_mday now) ltac:(lia)) as Hd.
  pose proof (two_digits_text (Report.tm_hour now) ltac:(lia)) as Hh.
  pose proof (two_digits_text (Report.tm_min now) ltac:(lia)) as Hmi.
  pose proof (two_digits_text (Report.tm_sec now) ltac:(lia)) as Hs.
  unfold Report.strftime_compact.
  destruct (str_int (Report.tm_year now)) as [| y1 [| y2 [| y3 [| y4 [| ? ?]]]]];
    try discriminate Hy.
  destruct (Report.two_digits (Report.tm_mon now)) as [| m1 [| m2 [| ? ?]]];
    try discriminate Hmo.
  destruct (Report.two_digits (Report.tm_mday now)) as [| d1 [| d2 [| ? ?]]];
    try discriminate Hd.
  destruct (Report.two_digits (Report.tm_hour now)) as [| h1 [| h2 [| ? ?]]];
    try discriminate Hh.
  destruct (Report.two_digits (Report.tm_min now)) as [| n1 [| n2 [| ? ?]]];
    try discriminate Hmi.
  destruct (Report.two_digits (Report.tm_sec now)) as [| s1 [| s2 [| ? ?]]];
    try discriminate Hs.
  cbn in Hy, Hmo, Hd, Hh, Hmi, Hs.
  repeat match goal with
         | H : _ && _ = true |- _ => apply andb_true_iff in H; destruct H
         end.
  cbv -[is_digit].
  repeat match goal with
         | H : is_digit _ = true |- _ => rewrite H; clear H
         end.
  reflexivity.
Qed.

(** C10: the report file is [hardware_report_<segment>_<stamp>.md] in the
    [result] directory, where the stamp has the shape [yyyyMMdd_HHmmss]
    and the segment is the machine name with every space turned into an
    underscore, or [unnamed_pc] for the empty name; "My PC" gives
    [My_PC]. *)
Theorem C10_report_file_name :
  forall self now pc_name,
    Spec.plausible_time now = true ->
    let segment :=
      if String.eqb pc_name "" then "unnamed_pc"
      else Spec.underscore_spaces pc_name in
    Report._build_report_file_path self now pc_name
    = Report.os_path_join "result"
        ("hardware_report_" +:+ segment +:+ "_"
         +:+ Report.strftime_compact now +:+ ".md")
    /\ Spec.is_compact_timestamp (Report.strftime_compact now) = true
    /\ (pc_name = "My PC" -> segment = "My_PC")
    /\ (pc_name = "" -> segment = "unnamed_pc").
Proof.
  intros self now pc_name Hnow segment. subst segment.
  split; [| split; [| split]].
  - unfold Report._build_report_file_path.
    rewrite replace_space_underscore.
    now destruct (String.eqb pc_name "").
  - now apply strftime_compact_shape.
  - now intros ->.
  - now intros ->.
Qed.

Lemma C10_report_file_name_witness :
  Report._build_report_file_path (Spec.sample_report true false)
    Spec.sample_time "My PC"
  = Report.os_path_join "result" "hardware_report_My_PC_20240309_140500.md".
Proof.
  apply (C10_report_file_name (Spec.sample_report true false)
           Spec.sample_time "My PC").
  vm_compute. reflexivity.
Defined.

(** ** Expected against actual *)

Lemma append_cons c s t : String c s +:+ t = String c (s +:+ t).
Proof. reflexivity. Qed.

Lemma append_nil t : "" +:+ t = t.
Proof. reflexivity. Qed.

Lemma is_digit_not_dot c : is_digit c = true -> Ascii.eqb c "." = false.
Proof.
  intros H. destruct (Ascii.eqb_spec c ".") as [-> | _]; [discriminate H | reflexivity].
Qed.

Lemma span_digits_all_digits s : Spec.all_digits (fst (Re.span_digits s)) = true.
Proof.
  induction s as [| c t IH]; [reflexivity |].
  cbn [Re.span_digits]. destruct (is_digit c) eqn:Ec; [| reflexivity].
  destruct (Re.span_digits t) as [d r]. cbn in IH |- *. now rewrite Ec.
Qed.

Lemma match_here_literal s m rest :
  Re.match_here s = Some (m, rest) -> Spec.is_decimal_literal m.
Proof.
  unfold Re.match_here.
  pose proof (span_digits_all_digits s) as Hi.
  destruct (Re.span_digits s) as [[| c i] [| d r]]; try discriminate.
  destruct (Ascii.eqb d "."); [| discriminate].
  pose proof (span_digits_all_digits r) as Hf.
  destruct (Re.span_digits r) as [[| c' f] r']; [discriminate |].
  intros [= <- <-]. exists (String c i), (String c' f).
  repeat split; try discriminate; assumption.
Qed.

Lemma findall_from_literals fuel s :
  Forall Spec.is_decimal_literal (Re.findall_from fuel s).
Proof.
  revert s. induction fuel as [| fuel IH]; intros s; [constructor |].
  cbn [Re.findall_from]. destruct s as [| c t]; [constructor |].
  destruct (Re.match_here (String c t)) as [[m rest] |] eqn:Em.
  - constructor; [eapply match_here_literal; eassumption | apply IH].
  - apply IH.
Qed.

Lemma span_digits_length s :
  String.length s
  = String.length (fst (Re.span_digits s)) + String.length (snd (Re.span_digits s)).
Proof.
  induction s as [| c t IH]; [reflexivity |].
  cbn [Re.span_digits]. destruct (is_digit c); [| reflexivity].
  destruct (Re.span_digits t) as [d r]. cbn in IH |- *. now rewrite IH.
Qed.

(** A match leaves strictly less text to search. *)
Lemma match_here_rest_shorter s m rest :
  Re.match_here s = Some (m, rest) -> String.length rest < String.length s.
Proof.
  unfold Re.match_here.
  pose proof (span_digits_length s) as Hs.
  destruct (Re.span_digits s) as [[| c i] [| d r]]; try discriminate.
  destruct (Ascii.eqb d "."); [| discriminate].
  pose proof (span_digits_length r) as Hr.
  destruct (Re.span_digits r) as [[| c' f] r']; [discriminate |].
  intros [= _ <-]. cbn in Hs, Hr. lia.
Qed.

(** The search never runs out of fuel: any fuel from the length of the
    text on gives the same matches. *)
Lemma findall_from_fuel fuel1 :
  forall fuel2 s,
    String.length s <= fuel1 -> String.length s <= fuel2 ->
    Re.findall_from fuel1 s = Re.findall_from fuel2 s.
Proof.
  induction fuel1 as [| fuel1 IH]; intros fuel2 s H1 H2.
  - destruct s; [| cbn in H1; lia]. now destruct fuel2.
  - destruct s as [| c t]; [now destruct fuel2 |].
    destruct fuel2 as [| fuel2]; [cbn in H2; lia |].
    cbn [Re.findall_from]. cbn in H1, H2.
    destruct (Re.match_here (String c t)) as [[m rest] |] eqn:Em.
    + apply match_here_rest_shorter in Em. cbn in Em.
      f_equal. apply IH; lia.
    + apply IH; lia.
Qed.

(** Every match the pattern finds is a decimal literal. *)
Lemma findall_literals s : Forall Spec.is_decimal_literal (Re.findall s).
Proof. apply findall_from_literals. Qed.

Lemma split_dot_literal i f :
  Spec.all_digits i = true ->
  PyFloat.split_dot (i +:+ "." +:+ f) = Some (i, f).
Proof.
  induction i as [| c i IH]; intros Hi; [reflexivity |].
  cbn in Hi. apply andb_true_iff in Hi as [Hc Hi].
  rewrite append_cons. cbn [PyFloat.split_dot].
  now rewrite (is_digit_not_dot c Hc), (IH Hi).
Qed.

Lemma all_digits_app s t :
  Spec.all_digits s = true -> Spec.all_digits t = true ->
  Spec.all_digits (s +:+ t) = true.
Proof.
  intros Hs Ht. induction s as [| c s IH]; [exact Ht |].
  cbn in Hs. apply andb_true_iff in Hs as [Hc Hs].
  rewrite append_cons. cbn. now rewrite Hc, IH.
Qed.

Lemma digits_value_total s :
  Spec.all_digits s = true -> forall acc, exists n, PyFloat.digits_value acc s = Some n.
Proof.
  induction s as [| c s IH]; intros Hs acc; [now exists acc |].
  cbn in Hs. apply andb_true_iff in Hs as [Hc Hs].
  cbn [PyFloat.digits_value]. rewrite Hc. apply IH, Hs.
Qed.

(** [float] accepts every decimal literal. *)
Lemma of_str_literal m :
  Spec.is_decimal_literal m -> exists x, PyFloat.of_str m = Ok x.
Proof.
  intros (i & f & -> & Hi0 & Hf0 & Hi & Hf).
  unfold PyFloat.of_str. rewrite (split_dot_literal i f Hi).
  destruct i as [| c i]; [contradiction |]. destruct f as [| d f]; [contradiction |].
  destruct (digits_value_total _ (all_digits_app _ _ Hi Hf) 0%Z) as [n ->].
  eauto.
Qed.

(** What the CPU formatter returns, case by case. *)
(** The CPU formatter on an expected text that holds a literal: the
    handler is not reached, whichever the logger. *)
Lemma CPU_format_value_literal k expected actual first rest x :
  Re.findall expected = first :: rest ->
  PyFloat.of_str first = Ok x ->
  result (CPU._format_value k (PStr expected) actual)
  = Ok (if PyFloat.eqb x actual
        then PyFloat.format_1f actual
        else "**" +:+ PyFloat.format_1f actual +:+ "**").
Proof.
  intros Hfind Hx. unfold CPU._format_value.
  rewrite result_try_except, result_bind. cbn [CPU.re_findall].
  rewrite result_ret, Hfind, result_bind. cbn [index0].
  rewrite result_ret, result_bind, result_lift, Hx.
  now destruct (PyFloat.eqb x actual).
Qed.

(** On an expected text without a literal the handler runs, and the
    formatter ends as the handler's logging call does. *)
Lemma CPU_format_value_no_literal k expected actual :
  Re.findall expected = [] ->
  result (CPU._format_value k (PStr expected) actual)
  = match k with
    | Logging.logging_Logger => Ok ("**" +:+ PyFloat.format_1f actual +:+ "**")
    | Logging.noctua_Logger => Raise Extra.exc_info_TypeError
    end.
Proof.
  intros Hnone. unfold CPU._format_value.
  rewrite result_try_except, result_bind. cbn [CPU.re_findall].
  rewrite result_ret, Hnone. destruct k; reflexivity.
Qed.

(** C3, at the failing inputs.  In the application, whose collectors log
    through [logger.py]'s [Logger], the CPU formatter raises [TypeError]
    on every expected text that holds no decimal literal, where the
    claim has it return the emphasised value: the handler that returns
    it first calls the logger with [exc_info=True].  And where the
    expected text holds a literal, that number is compared with the
    actual value as it is, whichever the logger: [get_details] passes
    the advertised frequency in GHz and the measured one in MHz, so a
    CPU advertised at 3.6 GHz and running at 3600 MHz is rendered
    emphasised, though the two are equal.  On a machine without an
    advertised frequency [get_details] raises with the formatter. *)
Theorem C3_formatter_raises_or_flags_equal_values :
  (forall expected actual,
     Re.findall expected = [] ->
     result (CPU._format_value Logging.noctua_Logger (PStr expected) actual)
     = Raise Extra.exc_info_TypeError)
  /\ (forall k expected actual first rest,
        Re.findall expected = first :: rest ->
        exists x,
          PyFloat.of_str first = Ok x
          /\ result (CPU._format_value k (PStr expected) actual)
             = Ok (if PyFloat.eqb x actual
                   then PyFloat.format_1f actual
                   else "**" +:+ PyFloat.format_1f actual +:+ "**"))
  /\ result (CPU.get_details Logging.noctua_Logger Spec.cpu_unadvertised)
     = Raise Extra.exc_info_TypeError
  /\ (forall k,
        result (CPU._format_value k (PStr "3.6000 GHz") (PyFloat.of_ratio10 3600 0))
        = Ok "**3600.0**"
        /\ Spec.is_ok (CPU.get_details k Spec.cpu_at_advertised_frequency) = true
        /\ Text.contains "**Configured Frequency:** **3600.0** MHz"
             (Spec.text_of (CPU.get_details k Spec.cpu_at_advertised_frequency))
           = true).
Proof.
  split; [| split; [| split]].
  - intros expected actual Hnone.
    now rewrite (CPU_format_value_no_literal _ _ _ Hnone).
  - intros k expected actual first rest Hfind.
    pose proof (findall_literals expected) as Hlit. rewrite Hfind in Hlit.
    apply Forall_inv in Hlit. destruct (of_str_literal first Hlit) as [x Hx].
    exists x. split; [exact Hx |].
    exact (CPU_format_value_literal k expected actual first rest x Hfind Hx).
  - vm_compute. reflexivity.
  - intros []; repeat split; vm_compute; reflexivity.
Qed.

Lemma C3_formatter_raises_or_flags_equal_values_witness :
  result (CPU._format_value Logging.noctua_Logger (PStr "Unknown")
            (PyFloat.of_ratio10 3600 0))
  = Raise Extra.exc_info_TypeError
  /\ result (CPU._format_value Logging.noctua_Logger (PStr "3.6000 GHz")
               (PyFloat.of_ratio10 36 1)) = Ok "3.6".
Proof.
  destruct C3_formatter_raises_or_flags_equal_values as (Hnone & Hliteral & _).
  split.
  - apply Hnone. vm_compute. reflexivity.
  - destruct (Hliteral Logging.noctua_Logger "3.6000 GHz"
                (PyFloat.of_ratio10 36 1) "3.6000" [])
      as (x & Hx & ->); [vm_compute; reflexivity |].
    vm_compute in Hx. injection Hx as <-. vm_compute. reflexivity.
Defined.

(** ** Report compiler *)

Lemma append_assoc (a b c : string) : (a +:+ b) +:+ c = a +:+ b +:+ c.
Proof. induction a as [| x a IH]; [reflexivity |]. rewrite !append_cons. now rewrite IH. Qed.

Lemma append_nil_r (a : string) : a +:+ "" = a.
Proof. induction a as [| x a IH]; [reflexivity |]. rewrite append_cons. now rewrite IH. Qed.

Lemma join_empty_cons (x : string) (xs : list string) :
  join "" (x :: xs) = x +:+ join "" xs.
Proof.
  unfold join. destruct xs as [| y ys]; cbn [String.concat].
  - now rewrite append_nil_r.
  - now rewrite append_nil.
Qed.

Lemma result_text_of (m : M string) :
  Spec.is_ok m = true -> result m = Ok (Spec.text_of m).
Proof.
  unfold Spec.is_ok, Spec.text_of. destruct (result m); [reflexivity | discriminate].
Qed.

(** A loop whose every step appends a piece to the text appends them
    all, in order. *)
Lemma for_each_append {A} (xs : list A) (body : string -> A -> M string)
    (piece : A -> string) :
  Forall (fun x => forall acc, result (body acc x) = Ok (acc +:+ piece x)) xs ->
  forall acc,
    result (for_each xs body acc) = Ok (acc +:+ join "" (List.map piece xs)).
Proof.
  induction 1 as [| x xs Hx _ IH]; intros acc.
  - cbn. now rewrite append_nil_r.
  - cbn [for_each List.map]. change (bind ?m ?k) with (m ≫= k).
    rewrite result_bind, Hx, IH, join_empty_cons. now rewrite append_assoc.
Qed.

Lemma generate_overview_result (cs : list Report.Component) :
  Forall (fun c => Spec.is_ok (Report.get_summary c) = true) cs ->
  result (Report._generate_overview cs) = Ok (Spec.overview_of cs).
Proof.
  intros Hok. unfold Report._generate_overview, Spec.overview_of.
  apply for_each_append.
  eapply Forall_impl; [exact Hok |]. intros c Hc acc. cbn beta in Hc.
  rewrite result_bind, (result_text_of _ Hc). reflexivity.
Qed.

Lemma generate_full_details_result (cs : list Report.Component) :
  Forall (fun c => Spec.is_ok (Report.get_details c) = true) cs ->
  result (Report._generate_full_details cs) = Ok (Spec.full_details_of cs).
Proof.
  intros Hok. unfold Report._generate_full_details, Spec.full_details_of.
  rewrite <- (append_nil (join _ _)).
  apply for_each_append.
  eapply Forall_impl; [exact Hok |]. intros c Hc acc. cbn beta in Hc.
  rewrite result_bind, (result_text_of _ Hc). reflexivity.
Qed.

(** The dictionary of [_generate_selected_component_details]. *)
Lemma components_map_lookup
    (system cpu gpu ram disk network motherboard bios : Report.Component)
    (key : string) :
  (list_to_map
     [("system", system); ("cpu", cpu); ("gpu", gpu); ("ram", ram);
      ("disk", disk); ("network", network); ("motherboard", motherboard);
      ("bios", bios)] : gmap string Report.Component) !! key
  = Spec.component_of_key system cpu gpu ram disk network motherboard bios key.
Proof.
  unfold Spec.component_of_key. rewrite !list_to_map_cons, list_to_map_nil.
  repeat match goal with
         | |- context [String.eqb key ?k] =>
             destruct (String.eqb_spec key k) as [-> | Hne];
             [now rewrite lookup_insert_eq
             | rewrite lookup_insert_ne by congruence; clear Hne]
         end.
  apply lookup_empty.
Qed.

Lemma generate_selected_component_details_result (self : Report.t)
    (system cpu gpu ram disk network motherboard bios : Report.Component) :
  Forall (fun c => Spec.is_ok (Report.get_details c) = true)
    [system; cpu; gpu; ram; disk; network; motherboard; bios] ->
  result (Report._generate_selected_component_details self
            system cpu gpu ram disk network motherboard bios)
  = Ok (Spec.selected_details_of
          (Spec.component_of_key system cpu gpu ram disk network motherboard bios)
          (Report.components self)).
Proof.
  intros Hok. unfold Report._generate_selected_component_details,
    Spec.selected_details_of.
  rewrite <- (append_nil (join _ _)).
  apply for_each_append. apply Forall_forall. intros [key var] _ acc.
  destruct var; [| cbn; now rewrite append_nil_r].
  rewrite components_map_lookup.
  destruct (Spec.component_of_key _ _ _ _ _ _ _ _ key) as [c |] eqn:Ekey.
  - assert (Hc : Spec.is_ok (Report.get_details c) = true).
    { rewrite Forall_forall in Hok. apply Hok.
      unfold Spec.component_of_key in Ekey.
      repeat match type of Ekey with
             | (if ?b then _ else _) = _ =>
                 destruct b; [injection Ekey as <-; rewrite !elem_of_cons; tauto |]
             end.
      discriminate Ekey. }
    rewrite !result_bind. cbn [result logger.debug emit snd].
    rewrite (result_text_of _ Hc). reflexivity.
  - rewrite result_bind. cbn. now rewrite append_nil_r.
Qed.

Lemma selected_components_nil (selection : list (string * bool)) :
  List.map fst (List.filter (fun '(_, var) => var) selection) = []
  <-> Spec.no_flag_set selection = true.
Proof.
  induction selection as [| [key var] l IH]; [easy |].
  cbn. destruct var; cbn; [easy | exact IH].
Qed.

(** The compiled document: header, overview when all components are
    selected, then the detail part the options choose. *)
Lemma compile_report_content_result (self : Report.t) now
    (system cpu gpu ram disk network motherboard bios : Report.Component)
    pc_name :
  let cs := [system; cpu; gpu; ram; disk; network; motherboard; bios] in
  (Report.all_components_selection self = true ->
   Forall (fun c => Spec.is_ok (Report.get_summary c) = true) cs) ->
  (Report.detailed_report_option self = true
   \/ Spec.no_flag_set (Report.components self) = false ->
   Forall (fun c => Spec.is_ok (Report.get_details c) = true) cs) ->
  result (Report._compile_report_content self now
            system cpu gpu ram disk network motherboard bios pc_name)
  = Ok (Report.header now pc_name
        +:+ (if Report.all_components_selection self
             then Spec.overview_of cs else "")
        +:+ (if Report.detailed_report_option self
             then Spec.full_details_of cs
             else if Spec.no_flag_set (Report.components self)
                  then nl +:+ Spec.notice
                  else Spec.selected_details_of
                         (Spec.component_of_key system cpu gpu ram disk
                            network motherboard bios)
                         (Report.components self))).
Proof.
  intros cs Hsum Hdet. unfold Report._compile_report_content.
  rewrite result_bind.
  assert (Hfirst :
    result (if Report.all_components_selection self
            then logger.debug "Including all components in the report overview.";;
                 overview ← Report._generate_overview cs;
                 mret (Report.header now pc_name +:+ overview)
            else mret (Report.header now pc_name))
    = Ok (Report.header now pc_name
          +:+ (if Report.all_components_selection self
               then Spec.overview_of cs else ""))).
  { destruct (Report.all_components_selection self).
    - rewrite !result_bind. cbn [result logger.debug emit snd].
      now rewrite generate_overview_result by auto.
    - cbn. now rewrite append_nil_r. }
  fold cs. rewrite Hfirst. clear Hfirst.
  destruct (Report.detailed_report_option self).
  - rewrite !result_bind. cbn [result logger.debug emit snd].
    rewrite generate_full_details_result by auto.
    cbn [result mret M_ret ret snd]. now rewrite append_assoc.
  - destruct (Spec.no_flag_set (Report.components self)) eqn:Eflags.
    + apply selected_components_nil in Eflags. rewrite Eflags.
      rewrite result_bind. cbn [result logger.warning emit snd mret M_ret ret].
      now rewrite append_assoc.
    + destruct (List.map fst _) as [| k ks] eqn:Esel.
      { apply selected_components_nil in Esel. congruence. }
      rewrite !result_bind. cbn [result logger.debug emit snd].
      rewrite generate_selected_component_details_result by auto.
      cbn [result mret M_ret ret snd]. now rewrite append_assoc.
Qed.

(** C4, as stated, fails.  With all components selected and detailed
    mode on, the overview headers carry bold markers around the upper
    case domain, so none reads [## SYSTEM Information], and the detail
    headers carry the domain in upper case; with [system] and [cpu]
    selected instead, the detail headers carry the capitalised selection
    key, so that the same domain is headed [SYSTEM] on one path and
    [System] on the other, [CPU] on one and [Cpu] on the other. *)
Lemma C4_headers_differ_from_convention :
  Spec.header_lines (Spec.text_of (Spec.sample_document (Spec.sample_report true true)))
  = ["## **SYSTEM Information**"; "## **CPU Information**";
     "## **GPU Information**"; "## **RAM Information**";
     "## **DISK Information**"; "## **NETWORK Information**";
     "## **MOTHERBOARD Information**"; "## **BIOS Information**";
     "## Detailed SYSTEM Information"; "## Detailed CPU Information";
     "## Detailed GPU Information"; "## Detailed RAM Information";
     "## Detailed DISK Information"; "## Detailed NETWORK Information";
     "## Detailed MOTHERBOARD Information"; "## Detailed BIOS Information"]
  /\ ~ In "## SYSTEM Information"
        (Spec.header_lines
           (Spec.text_of (Spec.sample_document (Spec.sample_report true true))))
  /\ Spec.header_lines
       (Spec.text_of
          (Spec.sample_document
             (Spec.sample_report_with
                [("system", true); ("cpu", true); ("bios", false)] false false)))
     = ["## Detailed System Information"; "## Detailed Cpu Information"].
Proof.
  split; [vm_compute; reflexivity |]. split; [| vm_compute; reflexivity].
  vm_compute. intros H.
  repeat (destruct H as [H | H]; [discriminate H |]). exact H.
Qed.

(** C4, amended.  Every overview section is headed
    [## **<DOMAIN> Information**], the domain being the collector's class
    name in upper case; every detail section of detailed mode is headed
    [## Detailed <DOMAIN> Information], upper case again; every detail
    section of per-domain selection is headed
    [## Detailed <Key> Information], the selection key capitalised
    (Cpu, Bios).  Each header line is followed by the collector's text
    and a rule. *)
Theorem C4_section_headers :
  (forall cs,
     Forall (fun c => Spec.is_ok (Report.get_summary c) = true) cs ->
     result (Report._generate_overview cs)
     = Ok (Spec.overview_intro
           +:+ join "" (List.map
                 (fun c => "## **" +:+ upper (Report.class_name c)
                           +:+ " Information**" +:+ nl
                           +:+ Spec.text_of (Report.get_summary c)
                           +:+ nl +:+ "---" +:+ nl) cs)))
  /\ (forall cs,
        Forall (fun c => Spec.is_ok (Report.get_details c) = true) cs ->
        result (Report._generate_full_details cs)
        = Ok (join "" (List.map
                (fun c => nl +:+ "## Detailed " +:+ upper (Report.class_name c)
                          +:+ " Information" +:+ nl
                          +:+ Spec.text_of (Report.get_details c)
                          +:+ nl +:+ "---" +:+ nl) cs)))
  /\ (forall self system cpu gpu ram disk network motherboard bios,
        Forall (fun c => Spec.is_ok (Report.get_details c) = true)
          [system; cpu; gpu; ram; disk; network; motherboard; bios] ->
        result (Report._generate_selected_component_details self
                  system cpu gpu ram disk network motherboard bios)
        = Ok (join "" (List.map
                (fun '(key, var) =>
                   if (var : bool) then
                     match Spec.component_of_key system cpu gpu ram disk
                             network motherboard bios key with
                     | Some c =>
                         nl +:+ "## Detailed " +:+ capitalize key
                         +:+ " Information" +:+ nl
                         +:+ Spec.text_of (Report.get_details c)
                         +:+ nl +:+ "---" +:+ nl
                     | None => ""
                     end
                   else "") (Report.components self)))).
Proof.
  split; [| split].
  - intros cs H. now rewrite generate_overview_result.
  - intros cs H. now rewrite generate_full_details_result.
  - intros. now rewrite generate_selected_component_details_result.
Qed.

Lemma C4_section_headers_witness :
  Spec.lines (Spec.text_of (Report._generate_overview [Spec.sample_collector "Disk"]))
  = ["# **Hardware Overview**"; ""; "## **DISK Information**";
     "summary of Disk"; "---"; ""].
Proof.
  destruct C4_section_headers as (Hoverview & _ & _).
  unfold Spec.text_of.
  rewrite (Hoverview [Spec.sample_collector "Disk"])
    by (repeat constructor).
  vm_compute. reflexivity.
Defined.

(** C5: with all components selected and the eight collectors of the
    application succeeding, the document holds, after its header and the
    overview title, exactly eight overview sections, for System, CPU,
    GPU, RAM, Disk, Network, Motherboard and BIOS in this order, each
    closed by a horizontal rule; what follows is the detail part. *)
Theorem C5_overview_sections_in_domain_order :
  forall self now system cpu gpu ram disk network motherboard bios pc_name,
    Report.all_components_selection self = true ->
    List.map Report.class_name
      [system; cpu; gpu; ram; disk; network; motherboard; bios]
    = Noctua.hardware_classes ->
    Forall (fun c => Spec.is_ok (Report.get_summary c) = true
                     /\ Spec.is_ok (Report.get_details c) = true)
      [system; cpu; gpu; ram; disk; network; motherboard; bios] ->
    let section domain (c : Report.Component) :=
      "## **" +:+ domain +:+ " Information**" +:+ nl
      +:+ Spec.text_of (Report.get_summary c) +:+ nl +:+ "---" +:+ nl in
    let sections :=
      [section "SYSTEM" system; section "CPU" cpu; section "GPU" gpu;
       section "RAM" ram; section "DISK" disk; section "NETWORK" network;
       section "MOTHERBOARD" motherboard; section "BIOS" bios] in
    let detail_part :=
      if Report.detailed_report_option self
      then Spec.full_details_of
             [system; cpu; gpu; ram; disk; network; motherboard; bios]
      else if Spec.no_flag_set (Report.components self)
           then nl +:+ Spec.notice
           else Spec.selected_details_of
                  (Spec.component_of_key system cpu gpu ram disk network
                     motherboard bios)
                  (Report.components self) in
    length sections = 8
    /\ result (Report._compile_report_content self now
                 system cpu gpu ram disk network motherboard bios pc_name)
       = Ok (Report.header now pc_name
             +:+ ("# **Hardware Overview**" +:+ nl +:+ nl +:+ join "" sections)
             +:+ detail_part).
Proof.
  intros self now system cpu gpu ram disk network motherboard bios pc_name
    Hall Hnames Hok section sections detail_part.
  split; [reflexivity |].
  rewrite compile_report_content_result.
  - rewrite Hall. subst sections section detail_part.
    unfold Spec.overview_of, Spec.overview_section, Spec.overview_intro.
    cbn [List.map]. injection Hnames as -> -> -> -> -> -> -> ->.
    rewrite append_assoc. reflexivity.
  - intros _. eapply Forall_impl; [exact Hok |]. now intros c [H _].
  - intros _. eapply Forall_impl; [exact Hok |]. now intros c [_ H].
Qed.

Lemma C5_overview_sections_in_domain_order_witness :
  Spec.header_lines (Spec.text_of (Spec.sample_document (Spec.sample_report true false)))
  = ["## **SYSTEM Information**"; "## **CPU Information**";
     "## **GPU Information**"; "## **RAM Information**";
     "## **DISK Information**"; "## **NETWORK Information**";
     "## **MOTHERBOARD Information**"; "## **BIOS Information**"].
Proof.
  unfold Spec.text_of, Spec.sample_document.
  destruct (C5_overview_sections_in_domain_order
              (Spec.sample_report true false) Spec.sample_time
              (Spec.sample_collector "System") (Spec.sample_collector "CPU")
              (Spec.sample_collector "GPU") (Spec.sample_collector "RAM")
              (Spec.sample_collector "Disk") (Spec.sample_collector "Network")
              (Spec.sample_collector "Motherboard") (Spec.sample_collector "BIOS")
              "") as [_ ->].
  - reflexivity.
  - reflexivity.
  - repeat constructor.
  - vm_compute. reflexivity.
Defined.

(** C6: with no selection flag set, not all components selected and
    detailed mode off, the compiled document is the header, a line
    break, and the literal "No components selected.", nothing else. *)
Theorem C6_no_components_selected :
  forall self now system cpu gpu ram disk network motherboard bios pc_name,
    Spec.no_flag_set (Report.components self) = true ->
    Report.all_components_selection self = false ->
    Report.detailed_report_option self = false ->
    result (Report._compile_report_content self now
              system cpu gpu ram disk network motherboard bios pc_name)
    = Ok (Report.header now pc_name +:+ nl +:+ "No components selected.").
Proof.
  intros self now system cpu gpu ram disk network motherboard bios pc_name
    Hflags Hall Hdetailed.
  rewrite compile_report_content_result.
  - now rewrite Hall, Hdetailed, Hflags, append_nil.
  - rewrite Hall. discriminate.
  - rewrite Hdetailed, Hflags. now intros [H | H].
Qed.

Lemma C6_no_components_selected_witness :
  Spec.lines (Spec.text_of (Spec.sample_document (Spec.sample_report false false)))
  = ["# Hardware Report"; ""; "**Generated on:** 2024-03-09 14:05:00"; "";
     "No components selected."].
Proof.
  unfold Spec.text_of, Spec.sample_document.
  rewrite C6_no_components_selected by reflexivity.
  vm_compute. reflexivity.
Defined.

(** C7: with no selection flag set and detailed mode off, the notice
    ends the document whether or not all components are selected; when
    they are (and the summaries succeed), the document holds the
    overview of the eight collectors and, after it, the notice. *)
Theorem C7_notice_independent_of_overview :
  forall self now system cpu gpu ram disk network motherboard bios pc_name,
    Spec.no_flag_set (Report.components self) = true ->
    Report.detailed_report_option self = false ->
    (Report.all_components_selection self = true ->
     Forall (fun c => Spec.is_ok (Report.get_summary c) = true)
       [system; cpu; gpu; ram; disk; network; motherboard; bios]) ->
    result (Report._compile_report_content self now
              system cpu gpu ram disk network motherboard bios pc_name)
    = Ok (Report.header now pc_name
          +:+ (if Report.all_components_selection self
               then Spec.overview_of
                      [system; cpu; gpu; ram; disk; network; motherboard; bios]
               else "")
          +:+ nl +:+ "No components selected.").
Proof.
  intros self now system cpu gpu ram disk network motherboard bios pc_name
    Hflags Hdetailed Hsum.
  rewrite compile_report_content_result.
  - now rewrite Hdetailed, Hflags.
  - exact Hsum.
  - rewrite Hdetailed, Hflags. now intros [H | H].
Qed.

Lemma C7_notice_independent_of_overview_witness :
  Spec.lines (Spec.text_of (Spec.sample_document (Spec.sample_report true false)))
  = ["# Hardware Report"; ""; "**Generated on:** 2024-03-09 14:05:00";
     "# **Hardware Overview**"; "";
     "## **SYSTEM Information**"; "summary of System"; "---";
     "## **CPU Information**"; "summary of CPU"; "---";
     "## **GPU Information**"; "summary of GPU"; "---";
     "## **RAM Information**"; "summary of RAM"; "---";
     "## **DISK Information**"; "summary of Disk"; "---";
     "## **NETWORK Information**"; "summary of Network"; "---";
     "## **MOTHERBOARD Information**"; "summary of Motherboard"; "---";
     "## **BIOS Information**"; "summary of BIOS"; "---";
     ""; "No components selected."].
Proof.
  unfold Spec.text_of, Spec.sample_document.
  rewrite C7_notice_independent_of_overview
    by (reflexivity || (intros _; repeat constructor)).
  vm_compute. reflexivity.
Defined.

(** C8: in detailed mode the document ends with the detail section of
    every one of the eight collectors, each holding that collector's
    full details, and it is the same document whatever the selection
    map holds. *)
Theorem C8_detailed_mode_covers_every_collector :
  forall self selection now system cpu gpu ram disk network motherboard bios
         pc_name,
    Report.detailed_report_option self = true ->
    (Report.all_components_selection self = true ->
     Forall (fun c => Spec.is_ok (Report.get_summary c) = true)
       [system; cpu; gpu; ram; disk; network; motherboard; bios]) ->
    Forall (fun c => Spec.is_ok (Report.get_details c) = true)
      [system; cpu; gpu; ram; disk; network; motherboard; bios] ->
    let section (c : Report.Component) :=
      nl +:+ "## Detailed " +:+ upper (Report.class_name c)
      +:+ " Information" +:+ nl
      +:+ Spec.text_of (Report.get_details c) +:+ nl +:+ "---" +:+ nl in
    let document :=
      Report.header now pc_name
      +:+ (if Report.all_components_selection self
           then Spec.overview_of
                  [system; cpu; gpu; ram; disk; network; motherboard; bios]
           else "")
      +:+ join "" [section system; section cpu; section gpu; section ram;
                   section disk; section network; section motherboard;
                   section bios] in
    result (Report._compile_report_content self now
              system cpu gpu ram disk network motherboard bios pc_name)
    = Ok document
    /\ result (Report._compile_report_content
                 {| Report.components := selection;
                    Report.all_components_selection :=
                      Report.all_components_selection self;
                    Report.detailed_report_option := true |} now
                 system cpu gpu ram disk network motherboard bios pc_name)
       = Ok document.
Proof.
  intros self selection now system cpu gpu ram disk network motherboard bios
    pc_name Hdetailed Hsum Hdet section document.
  split; rewrite compile_report_content_result by auto.
  - now rewrite Hdetailed.
  - reflexivity.
Qed.

Lemma C8_detailed_mode_covers_every_collector_witness :
  Spec.header_lines
    (Spec.text_of
       (Spec.sample_document
          (Spec.sample_report_with [("cpu", true); ("gpu", false)] false true)))
  = ["## Detailed SYSTEM Information"; "## Detailed CPU Information";
     "## Detailed GPU Information"; "## Detailed RAM Information";
     "## Detailed DISK Information"; "## Detailed NETWORK Information";
     "## Detailed MOTHERBOARD Information"; "## Detailed BIOS Information"].
Proof.
  unfold Spec.text_of, Spec.sample_document.
  destruct (C8_detailed_mode_covers_every_collector
              (Spec.sample_report_with [("cpu", true); ("gpu", false)] false true)
              [] Spec.sample_time
              (Spec.sample_collector "System") (Spec.sample_collector "CPU")
              (Spec.sample_collector "GPU") (Spec.sample_collector "RAM")
              (Spec.sample_collector "Disk") (Spec.sample_collector "Network")
              (Spec.sample_collector "Motherboard") (Spec.sample_collector "BIOS")
              "") as [-> _].
  - reflexivity.
  - discriminate.
  - repeat constructor.
  - vm_compute. reflexivity.
Defined.

(** * Properties of the rest of the program *)

(** ** The application's logger *)

Lemma has_name_drop_name name other params :
  Call.has_name name params = false ->
  Call.has_name name (Call.drop_name other params) = false.
Proof.
  unfold Call.has_name, Call.drop_name.
  induction params as [| [n d] params IH]; [reflexivity |].
  cbn. intros H. apply orb_false_iff in H as [Hn Hrest].
  destruct (negb (String.eqb n other)); cbn; [rewrite Hn |]; auto.
Qed.

Lemma bind_keywords_unknown fname all name v kws :
  In (name, v) kws ->
  forall rest,
    Call.has_name name rest = false ->
    exists e, Call.bind_keywords fname all rest kws = Raise e
              /\ exn_cls e = TypeError.
Proof.
  induction kws as [| [n w] kws IH]; intros Hin rest Hname; [destruct Hin |].
  cbn [Call.bind_keywords].
  destruct (Call.has_name n rest) eqn:Hn.
  - destruct Hin as [Heq | Hin].
    + injection Heq as ? ?; subst. congruence.
    + destruct (IH Hin (Call.drop_name n rest)
                  (has_name_drop_name _ _ _ Hname)) as (e & -> & He).
      eauto.
  - destruct (Call.has_name n all); eexists; split; reflexivity.
Qed.

(** A call that fails to bind fails with a [TypeError]. *)
Lemma bind_raises_TypeError fname params a e :
  Call.bind fname params a = Raise e -> exn_cls e = TypeError.
Proof.
  unfold Call.bind.
  destruct (Call.bind_positional params (Call.positional a)) as [[b1 rest] |];
    [| now intros [= <-]].
  assert (Hk : forall rest kws e0,
             Call.bind_keywords fname params rest kws = Raise e0 ->
             exn_cls e0 = TypeError).
  { intros rest0 kws. revert rest0.
    induction kws as [| [n w] kws IH]; intros rest0 e0; cbn; [discriminate |].
    destruct (Call.has_name n rest0);
      [| destruct (Call.has_name n params); now intros [= <-]].
    destruct (Call.bind_keywords fname params (Call.drop_name n rest0) kws)
      as [[b r] | e1] eqn:E; [discriminate |].
    intros [= <-]. eapply IH; eassumption. }
  assert (Hd : forall rest e0,
             Call.bind_defaults fname rest = Raise e0 -> exn_cls e0 = TypeError).
  { induction rest0 as [| [n [d |]] rest0 IH]; intros e0; cbn;
      [discriminate | | now intros [= <-]].
    destruct (Call.bind_defaults fname rest0) as [b | e1]; [discriminate |].
    intros [= <-]. now apply IH. }
  destruct (Call.bind_keywords fname params rest (Call.keywords a))
    as [[b2 rest'] | e1] eqn:Ek.
  - destruct (Call.bind_defaults fname rest') as [b3 | e2] eqn:Ed; [discriminate |].
    intros [= <-]. eapply Hd; eassumption.
  - intros [= <-]. eapply Hk; eassumption.
Qed.

(** X1: [Logger.error] takes the message and, in second place or by
    the name [include_exception_info], a flag.  Called with the message
    alone, or with the flag in either way, it logs the text of the
    message at error level; called with any keyword of another name,
    [exc_info] for one, it raises [TypeError] and logs nothing.
    Whatever the arguments, it either logs one message at error level
    and returns, or logs nothing and raises [TypeError]. *)
Theorem Logger_error_keywords :
  (forall msg, Logger.error {| Call.positional := [msg]; Call.keywords := [] |}
               = ([Log ERROR (str msg)], Ok tt))
  /\ (forall msg flag,
        Logger.error {| Call.positional := [msg; flag]; Call.keywords := [] |}
        = ([Log ERROR (str msg)], Ok tt)
        /\ Logger.error {| Call.positional := [msg];
                           Call.keywords := [("include_exception_info", flag)] |}
           = ([Log ERROR (str msg)], Ok tt))
  /\ (forall msg kws name v,
        In (name, v) kws ->
        name <> "log_message" -> name <> "include_exception_info" ->
        exists e,
          Logger.error {| Call.positional := [msg]; Call.keywords := kws |}
          = ([], Raise e)
          /\ exn_cls e = TypeError)
  /\ (forall a,
        (exists text, Logger.error a = ([Log ERROR text], Ok tt))
        \/ (exists e, Logger.error a = ([], Raise e) /\ exn_cls e = TypeError)).
Proof.
  split; [| split; [| split]].
  - reflexivity.
  - intros msg flag. split; reflexivity.
  - intros msg kws name v Hin Hm Hf.
    destruct (bind_keywords_unknown "Logger.error"
                [("log_message", None);
                 ("include_exception_info", Some (PBool false))]
                name v kws Hin
                [("include_exception_info", Some (PBool false))])
      as (e & Hk & He).
    { unfold Call.has_name. cbn [existsb fst].
      apply orb_false_iff. split; [| reflexivity].
      apply String.eqb_neq. congruence. }
    exists e. split; [| exact He].
    unfold Logger.error, Call.bind. cbn [Call.bind_positional Call.positional
      Call.keywords]. rewrite Hk. reflexivity.
  - intros a. unfold Logger.error.
    destruct (Call.bind "Logger.error"
                [("log_message", None);
                 ("include_exception_info", Some (PBool false))] a)
      as [bound | e] eqn:Hbind.
    + left. eexists. reflexivity.
    + right. exists e. split; [reflexivity |].
      eapply bind_raises_TypeError. exact Hbind.
Qed.

Lemma Logger_error_keywords_witness :
  exists e,
    Logger.error {| Call.positional := [PStr "Failed to fetch RAM summary"];
                    Call.keywords := [("exc_info", PBool true)] |}
    = ([], Raise e)
    /\ exn_cls e = TypeError.
Proof.
  destruct Logger_error_keywords as (_ & _ & H & _).
  apply (H (PStr "Failed to fetch RAM summary") [("exc_info", PBool true)]
           "exc_info" (PBool true)).
  - left; reflexivity.
  - discriminate.
  - discriminate.
Defined.

(** ** The collectors and the generator on the two loggers *)

(** X2: the failure handlers of the RAM and BIOS collectors depend on
    the logger.  With a [logging.Logger] a fetch that raises is answered
    with the failure notice.  With the application's own logger, a fetch
    that succeeds is returned as it is, and a fetch that raises makes
    [get_summary] and [get_details] raise [TypeError]: the handler's
    logging call fails before the failure notice is returned. *)
Theorem wired_collectors_raise_on_failure :
  forall (fetch : M string) (self : BIOS.t),
    result (RAM.get_summary Logging.logging_Logger fetch)
    = match result fetch with
      | Ok text => Ok text
      | Raise _ => Ok ("**RAM Information**" +:+ nl
                       +:+ "Failed to fetch RAM summary." +:+ nl)
      end
    /\ result (RAM.get_details Logging.logging_Logger fetch)
       = match result fetch with
         | Ok text => Ok text
         | Raise _ => Ok ("**Detailed RAM Information**" +:+ nl
                          +:+ "Failed to fetch detailed RAM information." +:+ nl)
         end
    /\ result (BIOS.get_summary Logging.logging_Logger self)
       = match result (BIOS._fetch_bios_summary self) with
         | Ok text => Ok text
         | Raise e =>
             Ok (if isinstance e [x_wmi]
                 then "**BIOS Information**" +:+ nl
                      +:+ "Failed to fetch BIOS summary." +:+ nl
                 else "**BIOS Information**" +:+ nl
                      +:+ "An unexpected error occurred." +:+ nl)
         end
    /\ result (BIOS.get_details Logging.logging_Logger self)
       = match result (BIOS._fetch_bios_details self) with
         | Ok text => Ok text
         | Raise e =>
             Ok (if isinstance e [x_wmi]
                 then "**Detailed BIOS Information**" +:+ nl
                      +:+ "Failed to fetch detailed BIOS information." +:+ nl
                 else "**Detailed BIOS Information**" +:+ nl
                      +:+ "An unexpected error occurred." +:+ nl)
         end
    /\ result (RAM.get_summary Logging.noctua_Logger fetch)
       = match result fetch with
         | Ok text => Ok text
         | Raise _ => Raise Extra.exc_info_TypeError
         end
    /\ result (RAM.get_details Logging.noctua_Logger fetch)
       = match result fetch with
         | Ok text => Ok text
         | Raise _ => Raise Extra.exc_info_TypeError
         end
    /\ result (BIOS.get_summary Logging.noctua_Logger self)
       = match result (BIOS._fetch_bios_summary self) with
         | Ok text => Ok text
         | Raise _ => Raise Extra.exc_info_TypeError
         end
    /\ result (BIOS.get_details Logging.noctua_Logger self)
       = match result (BIOS._fetch_bios_details self) with
         | Ok text => Ok text
         | Raise _ => Raise Extra.exc_info_TypeError
         end.
Proof.
  intros fetch self.
  unfold RAM.get_summary, RAM.get_details, BIOS.get_summary, BIOS.get_details.
  rewrite !guarded_logging, !guarded_twice_logging, !guarded_noctua,
    !guarded_twice_noctua, !result_info_then.
  repeat split.
Qed.

Lemma save_report_noctua self fs content path :
  result (Report._save_report Logging.noctua_Logger self fs content path)
  = match Report.fs_makedirs fs (Report.os_path_dirname path) with
    | Raise e =>
        Raise (if isinstance e [OSError; IOError] then Extra.exc_info_TypeError else e)
    | Ok _ =>
        match Report.fs_write fs path content with
        | Raise e =>
            Raise (if isinstance e [OSError; IOError]
                   then Extra.exc_info_TypeError else e)
        | Ok _ => Ok tt
        end
    end.
Proof.
  unfold Report._save_report, Report.os_makedirs, Report.write_file.
  rewrite result_try_except, !result_bind.
  destruct (Report.fs_makedirs fs (Report.os_path_dirname path)) as [[] | e].
  - cbn [result lift snd emit]. rewrite ?result_bind.
    destruct (Report.fs_write fs path content) as [[] | e]; [reflexivity |].
    cbn [result lift snd select_clause].
    now destruct (isinstance e [OSError; IOError]).
  - cbn [result lift snd select_clause].
    now destruct (isinstance e [OSError; IOError]).
Qed.

Lemma generate_report_noctua self fs now_path now_content
    system cpu gpu ram disk network motherboard bios pc_name :
  result (Report.generate_report Logging.noctua_Logger self fs now_path now_content
            system cpu gpu ram disk network motherboard bios pc_name)
  = match result (Report._compile_report_content self now_content
                    system cpu gpu ram disk network motherboard bios pc_name) with
    | Raise _ => Raise Extra.exc_info_TypeError
    | Ok content =>
        let path := Report._build_report_file_path self now_path pc_name in
        match Report.fs_makedirs fs (Report.os_path_dirname path) with
        | Raise _ => Raise Extra.exc_info_TypeError
        | Ok _ =>
            match Report.fs_write fs path content with
            | Raise _ => Raise Extra.exc_info_TypeError
            | Ok _ => Ok tt
            end
        end
    end.
Proof.
  unfold Report.generate_report. rewrite result_debug_then.
  rewrite result_try_except, result_info_then, result_bind.
  destruct (result (Report._compile_report_content _ _ _ _ _ _ _ _ _ _ _))
    as [content | e].
  - rewrite result_bind, save_report_noctua. cbv zeta.
    destruct (Report.fs_makedirs _ _) as [[] | e].
    + destruct (Report.fs_write _ _ _) as [[] | e]; [reflexivity |].
      cbn [select_clause]. now rewrite isinstance_Exception.
    + cbn [select_clause]. now rewrite isinstance_Exception.
  - cbn [select_clause]. now rewrite isinstance_Exception.
Qed.

(** X3: with a [logging.Logger] the report generator and the entry
    point return normally whatever happens.  With the application's own
    logger they return normally exactly when the document compiles and
    the directory and the file are written; a collector that raises, or
    a file system that refuses, makes [generate_report] and
    [generate_hardware_report] raise [TypeError], whatever the original
    exception was. *)
Theorem wired_generate_report_raises_on_failure :
  forall self fs now_path now_content
         system cpu gpu ram disk network motherboard bios pc_name,
    let outcome_of_run :=
      match result (Report._compile_report_content self now_content
                      system cpu gpu ram disk network motherboard bios pc_name) with
      | Raise _ => Raise Extra.exc_info_TypeError
      | Ok content =>
          let path := Report._build_report_file_path self now_path pc_name in
          match Report.fs_makedirs fs (Report.os_path_dirname path) with
          | Raise _ => Raise Extra.exc_info_TypeError
          | Ok _ =>
              match Report.fs_write fs path content with
              | Raise _ => Raise Extra.exc_info_TypeError
              | Ok _ => Ok tt
              end
          end
      end in
    let app :=
      {| Noctua.report_generator := self;
         Noctua.hardware_component_instances :=
           [system; cpu; gpu; ram; disk; network; motherboard; bios] |} in
    result (Report.generate_report Logging.logging_Logger self fs now_path
              now_content system cpu gpu ram disk network motherboard bios
              pc_name)
    = Ok tt
    /\ result (Noctua.generate_hardware_report Logging.logging_Logger app
                 fs now_path now_content pc_name)
       = Ok tt
    /\ result (Report.generate_report Logging.noctua_Logger self fs now_path
                 now_content system cpu gpu ram disk network motherboard bios
                 pc_name)
       = outcome_of_run
    /\ result (Noctua.generate_hardware_report Logging.noctua_Logger app
                 fs now_path now_content pc_name)
       = outcome_of_run.
Proof.
  intros. subst outcome_of_run app.
  split; [| split; [| split; [apply generate_report_noctua |]]].
  - destruct (generate_report_outcome Logging.logging_Logger self fs now_path
                now_content system cpu gpu ram disk network motherboard bios
                pc_name) as [H | H]; rewrite H; reflexivity.
  - match goal with
    | |- result (Noctua.generate_hardware_report _ ?app _ _ _ _) = _ =>
        destruct (generate_hardware_report_outcome Logging.logging_Logger app
                    fs now_path now_content pc_name) as [H | H]
    end; rewrite H; reflexivity.
  - unfold Noctua.generate_hardware_report. rewrite result_debug_then.
    rewrite result_try_except. cbn [Noctua.hardware_component_instances
      Noctua.report_generator].
    rewrite generate_report_noctua.
    destruct (result (Report._compile_report_content _ _ _ _ _ _ _ _ _ _ _))
      as [content | e]; [| reflexivity].
    cbv zeta.
    destruct (Report.fs_makedirs _ _) as [[] | e]; [| reflexivity].
    destruct (Report.fs_write _ _ _) as [[] | e]; reflexivity.
Qed.

(** ** The interface *)

Lemma dialogs_app l1 l2 :
  Extra.dialogs (l1 ++ l2) = Extra.dialogs l1 ++ Extra.dialogs l2.
Proof. unfold Extra.dialogs. now rewrite flat_map_app. Qed.

Lemma dialogs_core t : Extra.dialogs (List.map NoctuaGUI.Core t) = [].
Proof. induction t as [| ev t IH]; [reflexivity | exact IH]. Qed.

Lemma list_ascii_of_string_app s1 s2 :
  list_ascii_of_string (s1 +:+ s2)
  = list_ascii_of_string s1 ++ list_ascii_of_string s2.
Proof.
  induction s1 as [| c s1 IH]; [reflexivity |].
  rewrite append_cons. cbn. now rewrite IH.
Qed.

Lemma list_ascii_of_string_inj s1 s2 :
  list_ascii_of_string s1 = list_ascii_of_string s2 -> s1 = s2.
Proof.
  intros H. rewrite <- (string_of_list_ascii_of_string s1),
    <- (string_of_list_ascii_of_string s2). now rewrite H.
Qed.

Lemma length_list_ascii_of_string s :
  length (list_ascii_of_string s) = String.length s.
Proof. induction s as [| c s IH]; [reflexivity |]. cbn. now rewrite IH. Qed.

(** Two texts that end a common text and have the same length are the
    same text. *)
Lemma append_inj_tail a b c d :
  String.length b = String.length d -> a +:+ b = c +:+ d -> b = d.
Proof.
  intros Hlen Heq. apply list_ascii_of_string_inj.
  apply (f_equal list_ascii_of_string) in Heq.
  rewrite !list_ascii_of_string_app in Heq.
  apply app_inj_2 in Heq; [tauto |].
  now rewrite !length_list_ascii_of_string.
Qed.

Lemma compact_timestamp_length s :
  Spec.is_compact_timestamp s = true -> String.length s = 15.
Proof.
  unfold Spec.is_compact_timestamp. rewrite <- length_list_ascii_of_string.
  destruct (list_ascii_of_string s) as [| c l]; [discriminate |].
  do 14 (destruct l as [| ? l]; [discriminate |]).
  destruct l; [reflexivity | discriminate].
Qed.

(** The path named in the completion dialog is in no directory the path
    of a report. *)
Lemma report_path_is_not_the_announced_one self now pc_name dir :
  Spec.plausible_time now = true ->
  Report._build_report_file_path self now pc_name <> dir +:+ "hardware_report.md".
Proof.
  intros Hnow Heq.
  pose proof (strftime_compact_shape now Hnow) as Hshape.
  pose proof (compact_timestamp_length _ Hshape) as Hlen.
  unfold Report._build_report_file_path, Report.os_path_join in Heq.
  set (segment := if negb (String.eqb pc_name "") then replace " " "_" pc_name
                  else "unnamed_pc") in Heq.
  assert (Htail : Report.strftime_compact now +:+ ".md" = "hardware_report.md").
  { apply (append_inj_tail
             ("result" +:+ Report.os_sep +:+ "hardware_report_" +:+ segment +:+ "_")
             _ dir).
    - rewrite <- !length_list_ascii_of_string, list_ascii_of_string_app,
        length_app, !length_list_ascii_of_string, Hlen. reflexivity.
    - rewrite <- Heq. now rewrite !append_assoc. }
  assert (Hstamp : Report.strftime_compact now = "hardware_report").
  { apply list_ascii_of_string_inj.
    apply (f_equal list_ascii_of_string) in Htail.
    rewrite list_ascii_of_string_app in Htail.
    change (list_ascii_of_string "hardware_report.md")
      with (list_ascii_of_string "hardware_report" ++ list_ascii_of_string ".md")
      in Htail.
    now apply app_inj_2 in Htail. }
  rewrite Hstamp in Hshape. discriminate Hshape.
Qed.

(** X4: whatever the report generation does, returning or raising, the
    interface's [generate_report] returns normally and shows exactly one
    message box, "Report generated successfully" with the path
    [result/hardware_report.md]; an exception is only logged or printed
    first.  That path is never the path of a report, which carries the
    machine name and a time stamp. *)
Theorem gui_always_announces_success :
  forall self callback answer,
    snd (NoctuaGUI.generate_report self callback answer) = Ok tt
    /\ Extra.dialogs (fst (NoctuaGUI.generate_report self callback answer))
       = [("Report Generated", NoctuaGUI.completion_message)]
    /\ Text.contains "Report generated successfully" NoctuaGUI.completion_message
       = true
    /\ Text.contains "result/hardware_report.md" NoctuaGUI.completion_message = true
    /\ (forall e,
          result (callback (NoctuaGUI.pc_name_entry_field self)) = Raise e ->
          NoctuaGUI.has_logger self = false ->
          Extra.printed (fst (NoctuaGUI.generate_report self callback answer))
          = ["Error: " +:+ exn_msg e])
    /\ (forall rself now pc_name dir,
          Spec.plausible_time now = true ->
          Report._build_report_file_path rself now pc_name
          <> dir +:+ "hardware_report.md").
Proof.
  intros self callback answer.
  assert (Hfinal : forall m,
            let run := NoctuaGUI.try_except_finally m
                         (fun error =>
                            if NoctuaGUI.has_logger self
                            then NoctuaGUI.run
                                   (Logger.error
                                      {| Call.positional :=
                                           [PStr ("Error during report generation: "
                                                  +:+ exn_msg error)];
                                         Call.keywords := [] |})
                            else NoctuaGUI.g_emit
                                   (NoctuaGUI.Print ("Error: " +:+ exn_msg error)))
                         (NoctuaGUI.display_report_completion_message answer) in
            snd run = Ok tt
            /\ Extra.dialogs (fst run)
               = Extra.dialogs (fst m)
                 ++ [("Report Generated", NoctuaGUI.completion_message)]).
  { intros [t r]. unfold NoctuaGUI.try_except_finally.
    destruct r as [[] | e].
    - destruct answer; cbn; rewrite dialogs_app; split; reflexivity.
    - rewrite isinstance_Exception.
      destruct (NoctuaGUI.has_logger self), answer; cbn;
        rewrite !dialogs_app; unfold Extra.dialogs at 2 3;
        cbn [flat_map app]; rewrite app_nil_r; split; reflexivity. }
  unfold NoctuaGUI.generate_report. cbv zeta.
  destruct (Hfinal (NoctuaGUI.run (callback (NoctuaGUI.pc_name_entry_field self))))
    as [Hok Hdialogs].
  split; [exact Hok |].
  split; [rewrite Hdialogs; unfold NoctuaGUI.run; cbn [fst];
          now rewrite dialogs_core |].
  split; [vm_compute; reflexivity |]. split; [vm_compute; reflexivity |].
  split.
  - intros e He Hlogger. unfold NoctuaGUI.run at 1. rewrite He, Hlogger.
    unfold NoctuaGUI.try_except_finally. rewrite isinstance_Exception.
    unfold Extra.printed.
    destruct answer; cbn; rewrite !flat_map_app; cbn;
      rewrite ?app_nil_r;
      (replace (flat_map _ (List.map NoctuaGUI.Core _)) with (@nil string);
       [reflexivity |]);
      (induction (trace _) as [| ? ? IH]; [reflexivity | exact IH]).
  - intros. now apply report_path_is_not_the_announced_one.
Qed.

Lemma gui_always_announces_success_witness :
  Extra.printed
    (fst (NoctuaGUI.generate_report (NoctuaGUI.initial "My PC")
            (fun _ => raise {| exn_cls := OSError; exn_msg := "disk full" |})
            false))
  = ["Error: disk full"]
  /\ Report._build_report_file_path (Spec.sample_report true false)
       Spec.sample_time "My PC"
     <> "result/" +:+ "hardware_report.md".
Proof.
  destruct (gui_always_announces_success (NoctuaGUI.initial "My PC")
              (fun _ => raise {| exn_cls := OSError; exn_msg := "disk full" |})
              false) as (_ & _ & _ & _ & Hprinted & Hpath).
  split.
  - apply (Hprinted {| exn_cls := OSError; exn_msg := "disk full" |});
      reflexivity.
  - apply Hpath. vm_compute. reflexivity.
Defined.

Lemma set_all_keys state vars :
  List.map fst (NoctuaGUI.set_all state vars) = List.map fst vars.
Proof.
  induction vars as [| [name var] vars IH]; [reflexivity |].
  cbn. f_equal. exact IH.
Qed.

Lemma set_all_values state vars :
  List.map snd (NoctuaGUI.set_all state vars)
  = List.map (fun _ => state) vars.
Proof.
  induction vars as [| [name var] vars IH]; [reflexivity |].
  cbn. f_equal. exact IH.
Qed.

(** X5: a click on "Select All Components" or on "Generate Detailed
    Report" flips that check box and then overwrites every component
    variable with its new state, keeping the keys: whatever the user had
    selected per component is lost, and two clicks on the same box leave
    the box as it was but every component variable equal to the box. *)
Theorem check_boxes_overwrite_selection :
  forall self,
    let values s := List.map snd (NoctuaGUI.component_selection_vars s) in
    let keys s := List.map fst (NoctuaGUI.component_selection_vars s) in
    let all state := List.map (fun _ : string * bool => state)
                       (NoctuaGUI.component_selection_vars self) in
    (keys (NoctuaGUI.click_select_all self) = keys self
     /\ values (NoctuaGUI.click_select_all self)
        = all (negb (NoctuaGUI.select_all_components_var self))
     /\ NoctuaGUI.detailed_report_option_var (NoctuaGUI.click_select_all self)
        = NoctuaGUI.detailed_report_option_var self)
    /\ (keys (NoctuaGUI.click_detailed self) = keys self
        /\ values (NoctuaGUI.click_detailed self)
           = all (negb (NoctuaGUI.detailed_report_option_var self))
        /\ NoctuaGUI.select_all_components_var (NoctuaGUI.click_detailed self)
           = NoctuaGUI.select_all_components_var self)
    /\ (NoctuaGUI.select_all_components_var
          (NoctuaGUI.click_select_all (NoctuaGUI.click_select_all self))
        = NoctuaGUI.select_all_components_var self
        /\ values (NoctuaGUI.click_select_all (NoctuaGUI.click_select_all self))
           = all (NoctuaGUI.select_all_components_var self))
    /\ (NoctuaGUI.detailed_report_option_var
          (NoctuaGUI.click_detailed (NoctuaGUI.click_detailed self))
        = NoctuaGUI.detailed_report_option_var self
        /\ values (NoctuaGUI.click_detailed (NoctuaGUI.click_detailed self))
           = all (NoctuaGUI.detailed_report_option_var self)).
Proof.
  intros self values keys all. subst values keys all.
  unfold NoctuaGUI.click_select_all, NoctuaGUI.click_detailed,
    NoctuaGUI.toggle_select_all_components,
    NoctuaGUI.toggle_detailed_report_option, NoctuaGUI.set_vars.
  cbn [NoctuaGUI.component_selection_vars NoctuaGUI.select_all_components_var
       NoctuaGUI.detailed_report_option_var].
  rewrite !set_all_keys, !set_all_values, !negb_involutive.
  repeat split; try reflexivity.
  all: induction (NoctuaGUI.component_selection_vars self) as [| [? ?] ? IH];
    [reflexivity | cbn; f_equal; exact IH].
Qed.

(** X6: a checked "Select All Components" box does not by itself select
    the components.  When the interface opens, that box is checked, no
    component box is ticked, and the interface's own validation finds a
    selection: with every collector succeeding, the report is the
    header, the overview and the notice that no component is selected.
    Two clicks on the box leave it checked as before, but now every
    component box is ticked with it, and the report holds the detail
    section of every component, in the order of the selection keys. *)
Theorem select_all_applies_only_after_a_click :
  forall pc_name now (system cpu gpu ram disk network motherboard bios
                      : Report.Component),
    let cs := [system; cpu; gpu; ram; disk; network; motherboard; bios] in
    let opened := NoctuaGUI.initial pc_name in
    let clicked := NoctuaGUI.click_select_all (NoctuaGUI.click_select_all opened) in
    let ticked s := List.map snd (NoctuaGUI.component_selection_vars s) in
    let compile s :=
      result (Report._compile_report_content (NoctuaGUI.report_generator s) now
                system cpu gpu ram disk network motherboard bios pc_name) in
    let details key (c : Report.Component) :=
      Spec.detail_section key (Spec.text_of (Report.get_details c)) in
    Forall (fun c => Spec.is_ok (Report.get_summary c) = true) cs ->
    Forall (fun c => Spec.is_ok (Report.get_details c) = true) cs ->
    (NoctuaGUI.select_all_components_var opened = true
     /\ NoctuaGUI.detailed_report_option_var opened = false
     /\ ticked opened = repeat false 8
     /\ NoctuaGUI.validate_component_selection opened = true
     /\ compile opened
        = Ok (Report.header now pc_name +:+ Spec.overview_of cs
              +:+ nl +:+ Spec.notice))
    /\ (NoctuaGUI.select_all_components_var clicked = true
        /\ NoctuaGUI.detailed_report_option_var clicked = false
        /\ ticked clicked = repeat true 8
        /\ compile clicked
           = Ok (Report.header now pc_name +:+ Spec.overview_of cs
                 +:+ join "" [details "System" system; details "Cpu" cpu;
                              details "Ram" ram; details "Disk" disk;
                              details "Network" network; details "Gpu" gpu;
                              details "Motherboard" motherboard;
                              details "Bios" bios])).
Proof.
  intros pc_name now system cpu gpu ram disk network motherboard bios
    cs opened clicked ticked compile details Hsum Hdet.
  split.
  - repeat (split; [reflexivity |]). subst compile. cbv beta.
    rewrite (compile_report_content_result (NoctuaGUI.report_generator opened));
      [reflexivity | intros _; exact Hsum | intros _; exact Hdet].
  - repeat (split; [reflexivity |]). subst compile. cbv beta.
    rewrite (compile_report_content_result (NoctuaGUI.report_generator clicked));
      [reflexivity | intros _; exact Hsum | intros _; exact Hdet].
Qed.

Lemma select_all_applies_only_after_a_click_witness :
  let collector name := Spec.sample_component name "summary" "details" in
  result (Report._compile_report_content
            (NoctuaGUI.report_generator (NoctuaGUI.initial "My PC"))
            Spec.sample_time
            (collector "System") (collector "CPU") (collector "GPU")
            (collector "RAM") (collector "Disk") (collector "Network")
            (collector "Motherboard") (collector "BIOS") "My PC")
  <> result (Report._compile_report_content
               (NoctuaGUI.report_generator
                  (NoctuaGUI.click_select_all
                     (NoctuaGUI.click_select_all (NoctuaGUI.initial "My PC"))))
               Spec.sample_time
               (collector "System") (collector "CPU") (collector "GPU")
               (collector "RAM") (collector "Disk") (collector "Network")
               (collector "Motherboard") (collector "BIOS") "My PC").
Proof.
  intros collector.
  destruct (select_all_applies_only_after_a_click "My PC" Spec.sample_time
              (collector "System") (collector "CPU") (collector "GPU")
              (collector "RAM") (collector "Disk") (collector "Network")
              (collector "Motherboard") (collector "BIOS"))
    as ((_ & _ & _ & _ & Hopened) & (_ & _ & _ & Hclicked)).
  - repeat constructor.
  - repeat constructor.
  - rewrite Hopened, Hclicked. vm_compute. discriminate.
Defined.

(** ** The report generator's effects *)

Lemma trace_bind {A B} (m : M A) (k : A -> M B) :
  trace (m ≫= k)
  = trace m ++ match result m with
               | Ok a => trace (k a)
               | Raise _ => []
               end.
Proof.
  destruct m as [t [a | e]]; cbn.
  - now destruct (k a).
  - now rewrite app_nil_r.
Qed.

Lemma trace_try_except {A} (m : M A) clauses :
  trace (try_except m clauses)
  = trace m ++ match result m with
               | Ok _ => []
               | Raise e =>
                   match select_clause e clauses with
                   | Some handler => trace (handler e)
                   | None => []
                   end
               end.
Proof.
  destruct m as [t [a | e]]; cbn.
  - now rewrite app_nil_r.
  - destruct (select_clause e clauses) as [h |]; cbn.
    + now destruct (h e).
    + now rewrite app_nil_r.
Qed.

Lemma fs_events_app t1 t2 :
  Extra.fs_events (t1 ++ t2) = Extra.fs_events t1 ++ Extra.fs_events t2.
Proof. unfold Extra.fs_events. apply List.filter_app. Qed.

Lemma fs_events_error_exc_info k msg :
  Extra.fs_events (trace (Logging.error_exc_info k msg)) = [].
Proof. destruct k; reflexivity. Qed.

Lemma info_is_emit k msg : Logging.info k msg = emit (Log INFO msg).
Proof. now destruct (Logging_single_argument k msg) as (_ & -> & _). Qed.

Lemma debug_is_emit k msg : Logging.debug k msg = emit (Log DEBUG msg).
Proof. now destruct (Logging_single_argument k msg) as (-> & _). Qed.

(** The writer's file-system events. *)
Lemma save_report_fs_events k self fs content path :
  Extra.fs_events (trace (Report._save_report k self fs content path))
  = match Report.fs_makedirs fs (Report.os_path_dirname path) with
    | Raise _ => []
    | Ok _ =>
        Makedirs (Report.os_path_dirname path)
        :: match Report.fs_write fs path content with
           | Ok _ => [WriteFile path content]
           | Raise _ => []
           end
    end.
Proof.
  unfold Report._save_report, Report.os_makedirs, Report.write_file.
  rewrite info_is_emit, trace_try_except, fs_events_app.
  destruct (Report.fs_makedirs fs (Report.os_path_dirname path)) as [[] | e1].
  - destruct (Report.fs_write fs path content) as [[] | e2].
    + reflexivity.
    + cbn -[isinstance Logging.error_exc_info].
      destruct (isinstance e2 [OSError; IOError]);
        [rewrite fs_events_error_exc_info |]; reflexivity.
  - cbn -[isinstance Logging.error_exc_info].
    destruct (isinstance e1 [OSError; IOError]);
      [rewrite fs_events_error_exc_info |]; reflexivity.
Qed.

(** X7: what the report generator does to the file system, with either
    logger and whatever the collectors and the file system answer.  If
    compiling the document raises, nothing is created or written.
    Otherwise the directory of the report path is created first; if
    that fails nothing else happens; if it succeeds the whole compiled
    document is written to the report path in one write, unchanged.
    Nothing else is ever created or written by the generator. *)
Theorem generate_report_file_system_events :
  forall k self fs now_path now_content
         system cpu gpu ram disk network motherboard bios pc_name,
    let compile := Report._compile_report_content self now_content
                     system cpu gpu ram disk network motherboard bios pc_name in
    let path := Report._build_report_file_path self now_path pc_name in
    let directory := Report.os_path_dirname path in
    Extra.fs_events
      (trace (Report.generate_report k self fs now_path now_content
                system cpu gpu ram disk network motherboard bios pc_name))
    = Extra.fs_events (trace compile)
      ++ match result compile with
         | Raise _ => []
         | Ok content =>
             match Report.fs_makedirs fs directory with
             | Raise _ => []
             | Ok _ =>
                 Makedirs directory
                 :: match Report.fs_write fs path content with
                    | Ok _ => [WriteFile path content]
                    | Raise _ => []
                    end
             end
         end.
Proof.
  intros k self fs now_path now_content
    system cpu gpu ram disk network motherboard bios pc_name compile path directory.
  unfold Report.generate_report. cbv zeta. fold path. fold compile.
  rewrite debug_is_emit, !info_is_emit.
  rewrite trace_bind, fs_events_app. cbn [result emit snd trace fst].
  rewrite trace_try_except, fs_events_app.
  rewrite trace_bind, fs_events_app. cbn [result emit snd trace fst].
  rewrite trace_bind, fs_events_app.
  rewrite !result_bind. cbn [result emit snd].
  destruct (result compile) as [content | e] eqn:Hcompile.
  - rewrite trace_bind, fs_events_app, save_report_fs_events. fold directory.
    assert (Hhandler : forall r : outcome unit,
              Extra.fs_events
                match r with
                | Ok _ => []
                | Raise e =>
                    match
                      select_clause e
                        [([Exception], fun _ : exn =>
                            Logging.error_exc_info k
                              "Report generation failed due to an error.")]
                    with
                    | Some handler => trace (handler e)
                    | None => []
                    end
                end = []).
    { intros [[] | e]; [reflexivity |]. cbn [select_clause].
      rewrite isinstance_Exception. apply fs_events_error_exc_info. }
    rewrite Hhandler, app_nil_r.
    destruct (result (Report._save_report k self fs content path)); cbn;
      now rewrite ?app_nil_r.
  - cbn [select_clause]. rewrite isinstance_Exception, fs_events_error_exc_info.
    cbn. now rewrite !app_nil_r.
Qed.

(** ** The report directory *)

Lemma drop_while_all (f : ascii -> bool) l1 l2 :
  forallb f l1 = true ->
  Report.drop_while f (l1 ++ l2) = Report.drop_while f l2.
Proof.
  induction l1 as [| c l1 IH]; [reflexivity |].
  cbn. intros H. apply andb_true_iff in H as [Hc Hl]. rewrite Hc. now apply IH.
Qed.

Lemma forallb_rev {A} (f : A -> bool) l : forallb f (rev l) = forallb f l.
Proof.
  induction l as [| x l IH]; [reflexivity |].
  cbn. rewrite forallb_app, IH. cbn. rewrite andb_true_r. apply andb_comm.
Qed.

Lemma sep_free_app s1 s2 :
  Extra.sep_free (s1 +:+ s2) = Extra.sep_free s1 && Extra.sep_free s2.
Proof.
  unfold Extra.sep_free. now rewrite list_ascii_of_string_app, forallb_app.
Qed.

Lemma sep_free_underscore_spaces s :
  Extra.sep_free (Spec.underscore_spaces s) = Extra.sep_free s.
Proof.
  unfold Extra.sep_free, Spec.underscore_spaces.
  induction s as [| c s IH]; [reflexivity |].
  cbn [str_map list_ascii_of_string forallb]. rewrite IH. f_equal.
  destruct (Ascii.eqb_spec c " ") as [-> |]; reflexivity.
Qed.

Lemma underscore_spaces_app s1 s2 :
  Spec.underscore_spaces (s1 +:+ s2)
  = Spec.underscore_spaces s1 +:+ Spec.underscore_spaces s2.
Proof.
  unfold Spec.underscore_spaces.
  induction s1 as [| c s1 IH]; [reflexivity |].
  rewrite append_cons. cbn [str_map]. now rewrite IH, append_cons.
Qed.

Lemma compact_timestamp_sep_free s :
  Spec.is_compact_timestamp s = true -> Extra.sep_free s = true.
Proof.
  unfold Spec.is_compact_timestamp, Extra.sep_free.
  destruct (list_ascii_of_string s) as [| c l]; [discriminate |].
  do 14 (destruct l as [| ? l]; [discriminate |]).
  destruct l; [| discriminate].
  intros H. apply andb_true_iff in H as [Hdigits Hu].
  apply Ascii.eqb_eq in Hu. subst.
  assert (Hdigit : forall c, is_digit c = true -> negb (Report.is_sep c) = true).
  { intros c0 Hc0. unfold is_digit in Hc0. unfold Report.is_sep.
    destruct (Ascii.eqb_spec c0 "/") as [-> |]; [discriminate Hc0 |].
    destruct (Ascii.eqb_spec c0 (ascii_of_nat 92)) as [-> |];
      [discriminate Hc0 | reflexivity]. }
  cbn [forallb] in *.
  repeat match goal with
         | H : _ && _ = true |- _ => apply andb_true_iff in H as [? ?]
         end.
  repeat match goal with
         | H : is_digit ?c = true |- _ => rewrite (Hdigit c H); clear H
         end.
  reflexivity.
Qed.

(** [dirname] of a path whose last component holds no separator, after
    a head that does not end in one. *)
Lemma dirname_of_join head_ last_ c tail_ :
  Report.is_sep last_ = false ->
  Report.is_sep c = true ->
  Extra.sep_free tail_ = true ->
  Report.os_path_dirname
    ((head_ +:+ String last_ EmptyString) +:+ String c tail_)
  = head_ +:+ String last_ EmptyString.
Proof.
  intros Hlast Hc Htail. unfold Report.os_path_dirname, Extra.sep_free in *.
  rewrite !list_ascii_of_string_app. cbn [list_ascii_of_string].
  rewrite rev_app_distr. cbn [rev]. rewrite <- !app_assoc. cbn [app].
  rewrite drop_while_all by now rewrite forallb_rev.
  cbn [Report.drop_while]. rewrite Hc. cbn [negb].
  rewrite rev_app_distr. cbn [rev app Report.drop_while]. rewrite Hc, Hlast.
  rewrite rev_involutive.
  change [last_] with (list_ascii_of_string (String last_ EmptyString)).
  now rewrite <- list_ascii_of_string_app, string_of_list_ascii_of_string.
Qed.

(** A non-empty text ends in its last character. *)
Lemma string_snoc c s :
  exists s' d, String c s = s' +:+ String d EmptyString
               /\ (d = c \/ In d (list_ascii_of_string s)).
Proof.
  revert c. induction s as [| c' s IH]; intros c.
  - exists EmptyString, c. split; [reflexivity | now left].
  - destruct (IH c') as (s' & d & Heq & Hd).
    exists (String c s'), d. split; [now rewrite append_cons, <- Heq |].
    right. cbn [list_ascii_of_string In].
    destruct Hd as [-> | Hd]; [now left | now right].
Qed.

(** X8: where the report lands.  For a machine name without a path
    separator the directory the writer creates is [result].  The name is
    not checked, though: a name [a/b] or [a\b] moves the report to the
    directory [result\hardware_report_a], spaces of [a] turned into
    underscores. *)
Theorem report_directory :
  forall self now a,
    Spec.plausible_time now = true ->
    Extra.sep_free a = true ->
    Report.os_path_dirname (Report._build_report_file_path self now a) = "result"
    /\ (forall c b,
          Report.is_sep c = true ->
          Extra.sep_free b = true ->
          Report.os_path_dirname
            (Report._build_report_file_path self now (a +:+ String c b))
          = "result" +:+ Report.os_sep +:+ "hardware_report_"
            +:+ Spec.underscore_spaces a).
Proof.
  intros self now a Hnow Ha.
  pose proof (compact_timestamp_sep_free _ (strftime_compact_shape now Hnow))
    as Hstamp.
  split.
  - unfold Report._build_report_file_path, Report.os_path_join, Report.os_sep.
    match goal with
    | |- Report.os_path_dirname (_ +:+ (_ +:+ ?f)) = _ =>
        change (Report.os_path_dirname
                  (("resul" +:+ String "t" "") +:+ String (ascii_of_nat 92) f)
                = "resul" +:+ String "t" "")
    end.
    apply dirname_of_join; [reflexivity | reflexivity |].
    rewrite !sep_free_app, Hstamp.
    destruct (negb (String.eqb a "")); [| reflexivity].
    now rewrite replace_space_underscore, sep_free_underscore_spaces, Ha.
  - intros c b Hc Hb.
    unfold Report._build_report_file_path, Report.os_path_join.
    assert (Hne : negb (String.eqb (a +:+ String c b) "") = true).
    { destruct a; reflexivity. }
    rewrite Hne, replace_space_underscore, underscore_spaces_app.
    assert (Hcc : Spec.underscore_spaces (String c b)
                  = String c (Spec.underscore_spaces b)).
    { unfold Spec.underscore_spaces. cbn [str_map].
      destruct (Ascii.eqb_spec c " ") as [-> |]; [discriminate Hc | reflexivity]. }
    rewrite Hcc.
    set (a' := Spec.underscore_spaces a).
    assert (Ha' : Extra.sep_free a' = true)
      by (subst a'; now rewrite sep_free_underscore_spaces).
    set (prefix := "result" +:+ Report.os_sep +:+ "hardware_report_" +:+ a').
    assert (Hprefix : exists s' d, prefix = s' +:+ String d EmptyString
                                   /\ Report.is_sep d = false).
    { subst prefix. unfold Report.os_sep.
      destruct (string_snoc "h" ("ardware_report_" +:+ a')) as (s' & d & Heq & Hd).
      exists ("result" +:+ String (ascii_of_nat 92) s'), d. split.
      - change (("result" +:+ String (ascii_of_nat 92) s') +:+ String d "")
          with ("result" +:+ String (ascii_of_nat 92) (s' +:+ String d "")).
        rewrite <- Heq. reflexivity.
      - destruct Hd as [-> | Hd]; [reflexivity |].
        rewrite list_ascii_of_string_app in Hd. apply in_app_or in Hd as [Hd | Hd].
        + cbn in Hd. repeat destruct Hd as [<- | Hd]; try reflexivity. contradiction.
        + unfold Extra.sep_free in Ha'. rewrite forallb_forall in Ha'.
          apply Ha' in Hd. now apply negb_true_iff in Hd. }
    destruct Hprefix as (s' & d & Hprefix & Hd).
    replace ("result" +:+ Report.os_sep
             +:+ ("hardware_report_" +:+ (a' +:+ String c (Spec.underscore_spaces b))
                  +:+ "_" +:+ Report.strftime_compact now +:+ ".md"))
      with (prefix +:+ String c (Spec.underscore_spaces b +:+ "_"
                                 +:+ Report.strftime_compact now +:+ ".md")).
    + rewrite Hprefix. apply dirname_of_join; [exact Hd | exact Hc |].
      now rewrite !sep_free_app, sep_free_underscore_spaces, Hb, Hstamp.
    + subst prefix. unfold Report.os_sep. apply list_ascii_of_string_inj.
      repeat (rewrite ?list_ascii_of_string_app; cbn [list_ascii_of_string]).
      rewrite <- ?app_assoc. reflexivity.
Qed.

Lemma report_directory_witness :
  Report.os_path_dirname
    (Report._build_report_file_path (Spec.sample_report true false)
       Spec.sample_time "My PC") = "result"
  /\ Report.os_path_dirname
       (Report._build_report_file_path (Spec.sample_report true false)
          Spec.sample_time ("My PC" +:+ String "/" "desk 2"))
     = "result" +:+ Report.os_sep +:+ "hardware_report_"
       +:+ Spec.underscore_spaces "My PC".
Proof.
  destruct (report_directory (Spec.sample_report true false) Spec.sample_time
              "My PC") as [Hplain Hmoved]; [reflexivity | reflexivity |].
  split; [exact Hplain |]. apply Hmoved; reflexivity.
Defined.

(** ** A collector that raises *)

(** A loop stops at the first element whose step raises: the steps
    before it have run, the elements after it are not looked at. *)
Lemma for_each_raises {A S} (body : S -> A -> M S) (events : A -> list event)
    pre x post e :
  Forall (fun y => forall acc, Spec.is_ok (body acc y) = true
                               /\ trace (body acc y) = events y) pre ->
  (forall acc, body acc x = (events x, Raise e)) ->
  forall acc,
    for_each (pre ++ x :: post) body acc
    = (flat_map events pre ++ events x, Raise e).
Proof.
  intros Hpre Hx. induction Hpre as [| y pre Hy _ IH]; intros acc.
  - cbn [app for_each flat_map]. now rewrite Hx.
  - cbn [app for_each flat_map]. destruct (Hy acc) as [Hok Htrace].
    unfold Spec.is_ok, result, trace in *.
    destruct (body acc y) as [t [acc' | e']]; [| discriminate Hok].
    cbn in Htrace. subst t. cbn [bind]. rewrite IH. now rewrite app_assoc.
Qed.

Lemma step_of_collector (m : M string) (k : string -> string) :
  Spec.is_ok (summary ← m; mret (k summary)) = Spec.is_ok m
  /\ trace (summary ← m; mret (k summary)) = trace m
  /\ forall e, result m = Raise e ->
               (summary ← m; mret (k summary)) = (trace m, Raise e).
Proof.
  destruct m as [t [s | e]]; cbn.
  - rewrite app_nil_r. repeat split. intros e He. discriminate He.
  - repeat split. intros e' He. now injection He as ->.
Qed.

(** X9: a collector that raises aborts the report.  The overview loop
    and the detail loop end with the exception of the first collector
    whose call raises, after the calls of the collectors before it and
    without calling the ones after it; no placeholder section is
    written for it.  With the overview enabled the compiled document is
    lost to that exception before any detail is asked for. *)
Theorem first_failing_collector_aborts :
  forall pre c post,
    (forall e,
       Forall (fun c' => Spec.is_ok (Report.get_summary c') = true) pre ->
       result (Report.get_summary c) = Raise e ->
       Report._generate_overview (pre ++ c :: post)
       = (flat_map (fun c' => trace (Report.get_summary c')) pre
          ++ trace (Report.get_summary c), Raise e))
    /\ (forall e,
          Forall (fun c' => Spec.is_ok (Report.get_details c') = true) pre ->
          result (Report.get_details c) = Raise e ->
          Report._generate_full_details (pre ++ c :: post)
          = (flat_map (fun c' => trace (Report.get_details c')) pre
             ++ trace (Report.get_details c), Raise e))
    /\ (forall self now system cpu gpu ram disk network motherboard bios pc_name e,
          [system; cpu; gpu; ram; disk; network; motherboard; bios]
          = pre ++ c :: post ->
          Report.all_components_selection self = true ->
          Forall (fun c' => Spec.is_ok (Report.get_summary c') = true) pre ->
          result (Report.get_summary c) = Raise e ->
          Report._compile_report_content self now
            system cpu gpu ram disk network motherboard bios pc_name
          = (Log DEBUG "Including all components in the report overview."
             :: flat_map (fun c' => trace (Report.get_summary c')) pre
             ++ trace (Report.get_summary c), Raise e)).
Proof.
  intros pre c post.
  assert (Hoverview : forall e,
    Forall (fun c' => Spec.is_ok (Report.get_summary c') = true) pre ->
    result (Report.get_summary c) = Raise e ->
    Report._generate_overview (pre ++ c :: post)
    = (flat_map (fun c' => trace (Report.get_summary c')) pre
       ++ trace (Report.get_summary c), Raise e)).
  { intros e Hpre Hc. unfold Report._generate_overview.
    apply (for_each_raises _ (fun c' => trace (Report.get_summary c'))).
    - eapply Forall_impl; [exact Hpre |]. intros c' Hc' acc. cbn beta in Hc'.
      destruct (step_of_collector (Report.get_summary c')
                  (fun summary => acc +:+ "## **" +:+ upper (Report.class_name c')
                                  +:+ " Information**" +:+ nl
                                  +:+ summary +:+ nl +:+ "---" +:+ nl))
        as (Hok & Htrace & _).
      split; [now rewrite Hok | exact Htrace].
    - intros acc.
      now apply (step_of_collector (Report.get_summary c)
                   (fun summary => acc +:+ "## **" +:+ upper (Report.class_name c)
                                   +:+ " Information**" +:+ nl
                                   +:+ summary +:+ nl +:+ "---" +:+ nl)). }
  split; [exact Hoverview |]. split.
  - intros e Hpre Hc. unfold Report._generate_full_details.
    apply (for_each_raises _ (fun c' => trace (Report.get_details c'))).
    + eapply Forall_impl; [exact Hpre |]. intros c' Hc' acc. cbn beta in Hc'.
      destruct (step_of_collector (Report.get_details c')
                  (fun details => acc +:+ nl +:+ "## Detailed "
                                  +:+ upper (Report.class_name c')
                                  +:+ " Information" +:+ nl
                                  +:+ details +:+ nl +:+ "---" +:+ nl))
        as (Hok & Htrace & _).
      split; [now rewrite Hok | exact Htrace].
    + intros acc.
      now apply (step_of_collector (Report.get_details c)
                   (fun details => acc +:+ nl +:+ "## Detailed "
                                   +:+ upper (Report.class_name c)
                                   +:+ " Information" +:+ nl
                                   +:+ details +:+ nl +:+ "---" +:+ nl)).
  - intros self now system cpu gpu ram disk network motherboard bios pc_name e
      Hcs Hall Hpre Hc.
    unfold Report._compile_report_content. rewrite Hall, Hcs.
    rewrite (Hoverview e Hpre Hc). reflexivity.
Qed.

Lemma first_failing_collector_aborts_witness :
  let failing := {| Report.class_name := "GPU";
                    Report.get_summary :=
                      logger.info "Fetching GPU summary";;
                      raise {| exn_cls := AttributeError; exn_msg := "no adapter" |};
                    Report.get_details := mret "details" |} in
  let fine name := Spec.sample_component name "summary" "details" in
  Report._compile_report_content (Spec.sample_report true true) Spec.sample_time
    (fine "System") (fine "CPU") failing (fine "RAM") (fine "Disk")
    (fine "Network") (fine "Motherboard") (fine "BIOS") "My PC"
  = ([Log DEBUG "Including all components in the report overview.";
      Log INFO "Fetching GPU summary"],
     Raise {| exn_cls := AttributeError; exn_msg := "no adapter" |}).
Proof.
  intros failing fine.
  destruct (first_failing_collector_aborts [fine "System"; fine "CPU"] failing
              [fine "RAM"; fine "Disk"; fine "Network"; fine "Motherboard";
               fine "BIOS"]) as (_ & _ & Hcompile).
  apply Hcompile.
  - reflexivity.
  - reflexivity.
  - repeat constructor.
  - reflexivity.
Defined.

(** ** The BIOS collector *)

Lemma for_each_app {A S} (xs ys : list A) (body : S -> A -> M S) acc :
  for_each (xs ++ ys) body acc = for_each xs body acc ≫= for_each ys body.
Proof.
  revert acc. induction xs as [| x xs IH]; intros acc.
  - cbn. now destruct (for_each ys body acc).
  - cbn [app for_each]. change (bind ?m ?k) with (m ≫= k).
    destruct (body acc x) as [t [acc' | e]]; [| reflexivity].
    cbn. rewrite IH. change (bind ?m ?k) with (m ≫= k).
    destruct (for_each xs body acc') as [t1 [a1 | e1]]; cbn.
    + destruct (for_each ys body a1). now rewrite app_assoc.
    + reflexivity.
Qed.

(** A loop whose step overwrites the accumulator keeps what the last
    step made. *)
Lemma for_each_overwrite {A S} (xs : list A) (last_ : A) (make : A -> S) acc :
  for_each (xs ++ [last_]) (fun _ x => mret (make x)) acc
  = (mret (make last_) : M S).
Proof.
  revert acc. induction xs as [| x xs IH]; intros acc; [reflexivity |].
  cbn [app for_each]. cbn -[for_each app]. rewrite IH. reflexivity.
Qed.

(** A loop whose step appends to the accumulator: the accumulator it
    starts from stays in front. *)
Lemma for_each_accumulates {A} (xs : list A) (piece : A -> M string)
    (body : string -> A -> M string) :
  (forall acc x, result (body acc x)
                 = result (p ← piece x; mret (acc +:+ p))) ->
  forall acc,
    result (for_each xs body acc)
    = match result (for_each xs body "") with
      | Ok text => Ok (acc +:+ text)
      | Raise e => Raise e
      end.
Proof.
  intros Hbody. induction xs as [| x xs IH]; intros acc.
  - cbn. now rewrite append_nil_r.
  - cbn [for_each]. change (bind ?m ?k) with (m ≫= k).
    rewrite !result_bind, !Hbody, !result_bind.
    destruct (result (piece x)) as [p |]; [| reflexivity].
    cbn [result_ret]. rewrite !result_ret, (IH (acc +:+ p)), (IH ("" +:+ p)).
    destruct (result (for_each xs body "")); [| reflexivity].
    now rewrite append_nil, append_assoc.
Qed.

(** X10: with several [Win32_BIOS] instances the summary shows the last
    one only, since every instance overwrites the text, while the
    details hold one block per instance, in order. *)
Theorem BIOS_summary_keeps_last_instance :
  forall entries last_,
    BIOS._fetch_bios_summary {| BIOS.Win32_BIOS := Ok (entries ++ [last_]) |}
    = BIOS._fetch_bios_summary {| BIOS.Win32_BIOS := Ok [last_] |}
    /\ (forall before after,
          result (BIOS._fetch_bios_details {| BIOS.Win32_BIOS := Ok entries |})
          = Ok before ->
          result (BIOS._fetch_bios_details {| BIOS.Win32_BIOS := Ok [last_] |})
          = Ok after ->
          result (BIOS._fetch_bios_details
                    {| BIOS.Win32_BIOS := Ok (entries ++ [last_]) |})
          = Ok (before +:+ after)).
Proof.
  intros entries last_. split.
  - unfold BIOS._fetch_bios_summary. cbn -[for_each app].
    rewrite (for_each_overwrite entries last_
               (fun bios => "**Manufacturer:** " +:+ str (BIOS.Manufacturer bios)
                            +:+ nl +:+ "**Version:** "
                            +:+ str (BIOS.SMBIOSBIOSVersion bios) +:+ nl)).
    reflexivity.
  - intros before after. unfold BIOS._fetch_bios_details.
    rewrite !result_bind. cbn [result lift snd BIOS.Win32_BIOS].
    rewrite for_each_app, result_bind. intros -> Hafter.
    erewrite for_each_accumulates.
    + rewrite Hafter. reflexivity.
    + intros acc x. cbn beta.
      instantiate (1 := fun bios_entry =>
        release ← BIOS._format_date (BIOS.ReleaseDate bios_entry);
        codes ← BIOS.iter_characteristics (BIOS.BIOSCharacteristics bios_entry);
        mret ("**Manufacturer:** " +:+ str (BIOS.Manufacturer bios_entry) +:+ nl
              +:+ "**Version:** " +:+ str (BIOS.SMBIOSBIOSVersion bios_entry) +:+ nl
              +:+ "**Release Date:** " +:+ release +:+ nl
              +:+ "**SMBIOS Version:** " +:+ str (BIOS.SMBIOSMajorVersion bios_entry)
              +:+ "." +:+ str (BIOS.SMBIOSMinorVersion bios_entry) +:+ nl
              +:+ "**BIOS Characteristics:** "
              +:+ BIOS._get_bios_characteristics codes +:+ nl
              +:+ "**BIOS Language:** " +:+ str (BIOS.CurrentLanguage bios_entry) +:+ nl
              +:+ "**Primary BIOS:** "
              +:+ (if truthy (BIOS.PrimaryBIOS bios_entry) then "Yes" else "No")
              +:+ nl)).
      cbn beta.
      rewrite !result_bind.
      destruct (result (BIOS._format_date (BIOS.ReleaseDate x)));
        [| reflexivity].
      rewrite !result_bind.
      destruct (result (BIOS.iter_characteristics (BIOS.BIOSCharacteristics x)));
        reflexivity.
Qed.

Lemma BIOS_summary_keeps_last_instance_witness :
  let entry name date :=
    {| BIOS.Manufacturer := PStr name; BIOS.SMBIOSBIOSVersion := PStr "1.0";
       BIOS.ReleaseDate := PStr date; BIOS.SMBIOSMajorVersion := PInt 3;
       BIOS.SMBIOSMinorVersion := PInt 2; BIOS.BIOSCharacteristics := Some [7%Z];
       BIOS.CurrentLanguage := PNone; BIOS.PrimaryBIOS := PBool true |} in
  result (BIOS._fetch_bios_summary
            {| BIOS.Win32_BIOS := Ok ([entry "First" "20200101"]
                                      ++ [entry "Second" "20210202"]) |})
  = Ok ("**Manufacturer:** Second" +:+ nl +:+ "**Version:** 1.0" +:+ nl)
  /\ Spec.is_ok (BIOS._fetch_bios_details
                   {| BIOS.Win32_BIOS := Ok ([entry "First" "20200101"]
                                             ++ [entry "Second" "20210202"]) |})
     = true.
Proof.
  intros entry.
  destruct (BIOS_summary_keeps_last_instance [entry "First" "20200101"]
              (entry "Second" "20210202")) as [Hsummary Hdetails].
  split.
  - rewrite Hsummary. reflexivity.
  - unfold Spec.is_ok. erewrite Hdetails; reflexivity.
Defined.

Lemma substring_prefix a b : String.substring 0 (String.length a) (a +:+ b) = a.
Proof.
  induction a as [| c a IH].
  - cbn. now destruct b.
  - rewrite append_cons. cbn. now rewrite IH.
Qed.

Lemma substring_skip a b n :
  String.substring (String.length a) n (a +:+ b) = String.substring 0 n b.
Proof.
  induction a as [| c a IH]; [reflexivity |].
  rewrite append_cons. cbn [String.length String.substring]. exact IH.
Qed.

Lemma length_append a b :
  String.length (a +:+ b) = String.length a + String.length b.
Proof.
  induction a as [| c a IH]; [reflexivity |].
  rewrite append_cons. cbn. now rewrite IH.
Qed.

(** X11: the release date.  A text that starts with four, two and two
    characters is printed as those three groups joined by dashes,
    whatever follows them and whatever they are; a missing or empty
    date is printed as "Unknown". *)
Theorem BIOS_format_date_groups :
  forall y m d rest,
    String.length y = 4 -> String.length m = 2 -> String.length d = 2 ->
    BIOS._format_date (PStr (y +:+ m +:+ d +:+ rest))
    = mret (y +:+ "-" +:+ m +:+ "-" +:+ d)
    /\ BIOS._format_date PNone = mret "Unknown"
    /\ BIOS._format_date (PStr "") = mret "Unknown".
Proof.
  intros y m d rest Hy Hm Hd. split; [| split; reflexivity].
  unfold BIOS._format_date.
  assert (Htruthy : truthy (PStr (y +:+ m +:+ d +:+ rest)) = true).
  { destruct y; [discriminate Hy | reflexivity]. }
  assert (H1 : String.substring 0 4 (y +:+ m +:+ d +:+ rest) = y)
    by (rewrite <- Hy; apply substring_prefix).
  assert (H2 : String.substring 4 2 (y +:+ m +:+ d +:+ rest) = m).
  { rewrite <- Hy, substring_skip, <- Hm. apply substring_prefix. }
  assert (H3 : String.substring 6 2 (y +:+ m +:+ d +:+ rest) = d).
  { replace 6 with (String.length (y +:+ m)) by (rewrite length_append; lia).
    rewrite <- (append_assoc y m), substring_skip, <- Hd.
    apply substring_prefix. }
  rewrite Htruthy. cbn [negb]. unfold slice.
  change (4 - 0) with 4. change (6 - 4) with 2. change (8 - 6) with 2.
  now rewrite H1, H2, H3.
Qed.

Lemma BIOS_format_date_groups_witness :
  BIOS._format_date (PStr ("2023" +:+ "11" +:+ "05" +:+ "000000.000000+000"))
  = mret "2023-11-05".
Proof.
  destruct (BIOS_format_date_groups "2023" "11" "05" "000000.000000+000")
    as [Hgroups _]; [reflexivity | reflexivity | reflexivity |].
  exact Hgroups.
Defined.

(** What the detail loop of the BIOS collector can end in: a text, and
    then every instance had its characteristics, or a [TypeError]. *)
Lemma fetch_bios_details_outcome entries :
  match result (BIOS._fetch_bios_details {| BIOS.Win32_BIOS := Ok entries |}) with
  | Ok _ => Forall (fun b => BIOS.BIOSCharacteristics b <> None) entries
  | Raise e => exn_cls e = TypeError
  end.
Proof.
  unfold BIOS._fetch_bios_details. rewrite result_bind.
  cbn [result lift snd BIOS.Win32_BIOS].
  match goal with
  | |- context [for_each entries ?body _] => set (loop := body)
  end.
  generalize EmptyString as acc.
  induction entries as [| b entries IH]; intros acc; [constructor |].
  cbn [for_each]. change (bind ?m ?k) with (m ≫= k). rewrite result_bind.
  unfold loop at 1. rewrite !result_bind.
  assert (Hdate : match result (BIOS._format_date (BIOS.ReleaseDate b)) with
                  | Ok _ => True
                  | Raise e => exn_cls e = TypeError
                  end).
  { unfold BIOS._format_date.
    destruct (negb (truthy (BIOS.ReleaseDate b))); [exact I |].
    destruct (BIOS.ReleaseDate b); cbn; trivial. }
  destruct (result (BIOS._format_date (BIOS.ReleaseDate b))) as [release | e];
    [| exact Hdate].
  rewrite result_bind.
  destruct (BIOS.BIOSCharacteristics b) as [codes |] eqn:Hcodes;
    cbn [BIOS.iter_characteristics]; [| reflexivity].
  rewrite result_ret, result_ret.
  match goal with
  | |- context [for_each entries loop ?acc'] => specialize (IH acc')
  end.
  destruct (result (for_each entries _ _)); [| exact IH].
  constructor; [congruence | exact IH].
Qed.

(** X12: one instance without characteristics spoils the details of
    all.  If any [Win32_BIOS] instance reports no [BIOSCharacteristics],
    [get_details] gives no instance's data: with a [logging.Logger] it
    returns the "unexpected error" notice, with the application's logger
    it raises [TypeError].  The summary, which does not read the
    characteristics, still succeeds. *)
Theorem BIOS_details_need_characteristics :
  forall k entries,
    Exists (fun b => BIOS.BIOSCharacteristics b = None) entries ->
    result (BIOS.get_details k {| BIOS.Win32_BIOS := Ok entries |})
    = match k with
      | Logging.logging_Logger =>
          Ok ("**Detailed BIOS Information**" +:+ nl
              +:+ "An unexpected error occurred." +:+ nl)
      | Logging.noctua_Logger => Raise Extra.exc_info_TypeError
      end
    /\ Spec.is_ok (BIOS.get_summary k {| BIOS.Win32_BIOS := Ok entries |})
       = true.
Proof.
  intros k entries Hnone. split.
  - pose proof (fetch_bios_details_outcome entries) as Hout.
    unfold BIOS.get_details.
    rewrite result_try_except, result_info_then.
    destruct (result (BIOS._fetch_bios_details _)) as [text | e].
    + exfalso. apply Exists_exists in Hnone as (b & Hin & Hb).
      rewrite Forall_forall in Hout. now apply (Hout b Hin).
    + cbn [select_clause]. unfold isinstance. rewrite Hout.
      destruct k; reflexivity.
  - assert (Hsummary : exists text,
              result (BIOS._fetch_bios_summary {| BIOS.Win32_BIOS := Ok entries |})
              = Ok text).
    { unfold BIOS._fetch_bios_summary. rewrite result_bind.
      cbn [result lift snd BIOS.Win32_BIOS]. clear Hnone.
      match goal with
      | |- context [for_each entries ?body _] => set (loop := body)
      end.
      generalize EmptyString as acc.
      induction entries as [| b entries IH]; intros acc;
        [eexists; reflexivity |].
      cbn [for_each]. change (bind ?m ?k) with (m ≫= k).
      rewrite result_bind. unfold loop at 1. rewrite result_ret. apply IH. }
    destruct Hsummary as [text Hsummary].
    unfold Spec.is_ok, BIOS.get_summary.
    now rewrite result_try_except, result_info_then, Hsummary.
Qed.

Lemma BIOS_details_need_characteristics_witness :
  let entry characteristics :=
    {| BIOS.Manufacturer := PStr "Vendor"; BIOS.SMBIOSBIOSVersion := PStr "1.0";
       BIOS.ReleaseDate := PStr "20200101"; BIOS.SMBIOSMajorVersion := PInt 3;
       BIOS.SMBIOSMinorVersion := PInt 2;
       BIOS.BIOSCharacteristics := characteristics;
       BIOS.CurrentLanguage := PNone; BIOS.PrimaryBIOS := PBool true |} in
  result (BIOS.get_details Logging.logging_Logger
            {| BIOS.Win32_BIOS := Ok [entry (Some [7%Z]); entry None] |})
  = Ok ("**Detailed BIOS Information**" +:+ nl
        +:+ "An unexpected error occurred." +:+ nl).
Proof.
  intros entry.
  destruct (BIOS_details_need_characteristics Logging.logging_Logger
              [entry (Some [7%Z]); entry None]) as [Hdetails _].
  - apply Exists_cons_tl, Exists_cons_hd. reflexivity.
  - exact Hdetails.
Defined.

(** ** The motherboard collector *)



(** A loop of pure appending steps over a non-empty list, each piece
    starting with a character, ends in a non-empty text. *)
Lemma for_each_pieces {A} (xs : list A) (body : string -> A -> M string)
    (piece : A -> string) :
  (forall acc x, result (body acc x) = Ok (acc +:+ piece x)) ->
  result (for_each xs body "") = Ok (join "" (List.map piece xs)).
Proof.
  intros Hbody.
  rewrite (for_each_append xs body piece); [now rewrite append_nil |].
  apply Forall_forall. intros x _ acc. apply Hbody.
Qed.



(** The PCIe loop raises as soon as it meets a slot without a name. *)
Lemma pcie_loop_raises slots :
  Exists (fun slot => Motherboard.slot_Name slot = None) slots ->
  forall acc,
    exists e,
      result (for_each slots
                (fun pcie_details slot =>
                   is_pci ← Motherboard.PCI_in (Motherboard.slot_Name slot);
                   if (is_pci : bool)
                   then mret (pcie_details +:+ Motherboard.slot_line slot)
                   else mret pcie_details) acc) = Raise e
      /\ exn_cls e = TypeError.
Proof.
  induction 1 as [slot slots Hname | slot slots _ IH]; intros acc;
    cbn [for_each]; change (bind ?m ?k) with (m ≫= k); rewrite !result_bind.
  - rewrite Hname. cbn. eauto.
  - destruct (Motherboard.slot_Name slot) as [name |]; cbn [Motherboard.PCI_in].
    + rewrite result_ret. destruct (Text.contains "PCI" name);
        rewrite result_ret; apply IH.
    + cbn. eauto.
Qed.

Lemma helper_noctua {A} (m : M A) classes msg1 msg2 (a1 a2 : A) :
  result (try_except m
            [(classes, fun _ =>
                Logging.error_exc_info Logging.noctua_Logger msg1;; mret a1);
             ([Exception], fun _ =>
                Logging.error_exc_info Logging.noctua_Logger msg2;; mret a2)])
  = match result m with
    | Ok a => Ok a
    | Raise _ => Raise Extra.exc_info_TypeError
    end.
Proof. apply guarded_twice_noctua. Qed.

(** X14: a system slot whose [Name] WMI leaves empty.  The list of all
    slots prints it, with the type [None]; the list of PCIe slots is
    lost altogether, because the test for "PCI" in the name raises: with
    a [logging.Logger] that list reads "An unexpected error occurred",
    and with the application's logger [get_details] raises [TypeError]
    as soon as WMI lists a base board. *)
Theorem Motherboard_slot_without_name :
  forall k self slots,
    Motherboard.Win32_SystemSlot self = Ok slots ->
    Exists (fun slot => Motherboard.slot_Name slot = None) slots ->
    result (Motherboard._get_motherboard_slots k self)
    = Ok (join "" (List.map Motherboard.slot_line slots))
    /\ result (Motherboard._get_pcie_slots k self)
       = match k with
         | Logging.logging_Logger => Ok "An unexpected error occurred"
         | Logging.noctua_Logger => Raise Extra.exc_info_TypeError
         end
    /\ (forall board boards,
          Motherboard.Win32_BaseBoard self = Ok (board :: boards) ->
          result (Motherboard.get_details Logging.noctua_Logger self)
          = Raise Extra.exc_info_TypeError).
Proof.
  intros k self slots Hslots Hnone.
  assert (Hpcie : forall k',
    result (Motherboard._get_pcie_slots k' self)
    = match k' with
      | Logging.logging_Logger => Ok "An unexpected error occurred"
      | Logging.noctua_Logger => Raise Extra.exc_info_TypeError
      end).
  { intros k'. unfold Motherboard._get_pcie_slots.
    destruct (pcie_loop_raises slots Hnone "") as (e & Hloop & Hcls).
    destruct k'.
    - rewrite guarded_twice_logging, result_bind, Hslots. cbn [result lift snd].
      rewrite result_bind, Hloop. unfold isinstance. rewrite Hcls. reflexivity.
    - rewrite helper_noctua, result_bind, Hslots. cbn [result lift snd].
      now rewrite result_bind, Hloop. }
  split; [| split; [apply Hpcie |]].
  - unfold Motherboard._get_motherboard_slots.
    rewrite result_try_except, result_bind, Hslots. cbn [result lift snd].
    rewrite result_bind.
    rewrite (for_each_pieces slots _ Motherboard.slot_line) by reflexivity.
    rewrite result_ret. f_equal.
    destruct Hnone as [slot slots' _ | slot slots' _];
      cbn [List.map]; rewrite join_empty_cons; reflexivity.
  - intros board boards Hboards.
    unfold Motherboard.get_details. rewrite helper_noctua, result_info_then.
    unfold Motherboard._fetch_motherboard_details.
    rewrite helper_noctua, result_bind, Hboards. cbn [result lift snd for_each].
    change (bind ?m ?k) with (m ≫= k). rewrite !result_bind.
    unfold Motherboard._get_bios_version at 1. rewrite helper_noctua.
    destruct (result (_ ≫= _)); [| reflexivity].
    rewrite result_bind.
    unfold Motherboard._get_motherboard_slots at 1. rewrite helper_noctua.
    destruct (result (_ ≫= _)); [| reflexivity].
    rewrite result_bind.
    unfold Motherboard._get_usb_ports at 1. rewrite helper_noctua.
    destruct (result (_ ≫= _)); [| reflexivity].
    now rewrite result_bind, (Hpcie Logging.noctua_Logger).
Qed.

Lemma Motherboard_slot_without_name_witness :
  let self :=
    {| Motherboard.Win32_BaseBoard :=
         Ok [{| Motherboard.Manufacturer := Some "Vendor";
                Motherboard.Product := Some "Board";
                Motherboard.SerialNumber := None;
                Motherboard.Version := Some "1.0" |}];
       Motherboard.Win32_BIOS := Ok [Some "F.20"];
       Motherboard.Win32_SystemSlot :=
         Ok [{| Motherboard.SlotDesignation := Some "J6B2";
                Motherboard.slot_Name := Some "PCI Express x16";
                Motherboard.slot_Status := Some "OK" |};
             {| Motherboard.SlotDesignation := Some "J6B1";
                Motherboard.slot_Name := None;
                Motherboard.slot_Status := Some "OK" |}];
       Motherboard.Win32_USBController := Ok [] |} in
  result (Motherboard._get_pcie_slots Logging.logging_Logger self)
  = Ok "An unexpected error occurred"
  /\ result (Motherboard.get_details Logging.noctua_Logger self)
     = Raise Extra.exc_info_TypeError.
Proof.
  intros self.
  destruct (Motherboard_slot_without_name Logging.logging_Logger self
              [{| Motherboard.SlotDesignation := Some "J6B2";
                  Motherboard.slot_Name := Some "PCI Express x16";
                  Motherboard.slot_Status := Some "OK" |};
               {| Motherboard.SlotDesignation := Some "J6B1";
                  Motherboard.slot_Name := None;
                  Motherboard.slot_Status := Some "OK" |}])
    as (_ & Hpcie & Hdetails).
  - reflexivity.
  - apply Exists_cons_tl, Exists_cons_hd. reflexivity.
  - split; [exact Hpcie |]. eapply Hdetails. reflexivity.
Defined.

(** ** The network drives *)

Lemma scan_lines_app drives pre rest :
  Network.scan_lines drives (pre ++ rest)
  = match Network.scan_lines drives pre with
    | (found, None) => Network.scan_lines found rest
    | (found, Some e) => (found, Some e)
    end.
Proof.
  revert drives. induction pre as [| line pre IH]; intros drives; [reflexivity |].
  cbn [app Network.scan_lines].
  destruct (Text.contains Network.backslash line && Text.contains ":" line);
    [| apply IH].
  destruct (Network.drive_of_line line); [apply IH | reflexivity].
Qed.

Lemma drive_of_short_line line :
  List.length (Text.split line) < 3 ->
  exists e, Network.drive_of_line line = Raise e /\ exn_cls e = IndexError.
Proof.
  intros Hshort. unfold Network.drive_of_line, Network.item.
  destruct (Text.split line) as [| p0 [| p1 [| p2 parts]]]; cbn in *;
    try (eexists; split; reflexivity).
  lia.
Qed.

(** X15: the scan of the [net use] output stops at the first line that
    holds a backslash and a colon but fewer than three fields: the
    drives of the lines before it are kept, the lines after it are
    never read.  With a [logging.Logger] that shorter list is returned
    and reported as if complete; with the application's logger the
    failure handler raises, and the drive summary and details raise
    [TypeError] with it. *)
Theorem Network_drive_scan_stops :
  forall k self output before line after drives,
    Network.net_use self = Ok output ->
    Text.splitlines output = before ++ line :: after ->
    Network.scan_lines [] before = (drives, None) ->
    Extra.drive_line_like line = true ->
    List.length (Text.split line) < 3 ->
    let text :=
      match drives with
      | [] => ""
      | _ :: _ => "**Network Drives:**" +:+ nl
                  +:+ join "" (List.map Network.drive_line drives)
      end in
    result (Network._get_network_drives k self)
    = match k with
      | Logging.logging_Logger => Ok drives
      | Logging.noctua_Logger => Raise Extra.exc_info_TypeError
      end
    /\ result (Network._fetch_network_drives_summary k self)
       = match k with
         | Logging.logging_Logger => Ok text
         | Logging.noctua_Logger => Raise Extra.exc_info_TypeError
         end
    /\ result (Network._fetch_network_drives_details k self)
       = match k with
         | Logging.logging_Logger => Ok text
         | Logging.noctua_Logger => Raise Extra.exc_info_TypeError
         end.
Proof.
  intros k self output before line after drives Hout Hlines Hbefore Hlike Hshort text.
  assert (Hscan : exists e, Network.scan_lines [] (Text.splitlines output)
                            = (drives, Some e)).
  { rewrite Hlines, scan_lines_app, Hbefore. cbn [Network.scan_lines].
    unfold Extra.drive_line_like in Hlike. rewrite Hlike.
    destruct (drive_of_short_line line Hshort) as (e & -> & _). eauto. }
  destruct Hscan as [e Hscan].
  assert (Hdrives : result (Network._get_network_drives k self)
                    = match k with
                      | Logging.logging_Logger => Ok drives
                      | Logging.noctua_Logger => Raise Extra.exc_info_TypeError
                      end).
  { unfold Network._get_network_drives. rewrite Hout, Hscan.
    destruct k; reflexivity. }
  assert (Hloop : forall body,
            (body = fun (acc : string) d => mret (acc +:+ Network.drive_line d)) ->
            result match drives with
                   | _ :: _ => for_each drives body ("**Network Drives:**" +:+ nl)
                   | [] => mret ""
                   end = Ok text).
  { intros body ->. subst text. destruct drives as [| d drives']; [reflexivity |].
    rewrite (for_each_append _ _ Network.drive_line);
      [now rewrite append_assoc |].
    apply Forall_forall. intros x _ acc. reflexivity. }
  split; [exact Hdrives |].
  unfold Network._fetch_network_drives_summary,
    Network._fetch_network_drives_details.
  destruct k.
  - rewrite !result_try_except, !result_bind, Hdrives.
    rewrite !(Hloop _ eq_refl). split; reflexivity.
  - rewrite !guarded_noctua, !result_bind, Hdrives. split; reflexivity.
Qed.

Lemma Network_drive_scan_stops_witness :
  let output :=
    "OK Z: " +:+ Network.backslash +:+ Network.backslash +:+ "nas"
    +:+ Network.backslash +:+ "media Microsoft" +:+ nl
    +:+ "Y: " +:+ Network.backslash +:+ Network.backslash +:+ "nas"
    +:+ Network.backslash +:+ "backup" +:+ nl
    +:+ "OK X: " +:+ Network.backslash +:+ Network.backslash +:+ "nas"
    +:+ Network.backslash +:+ "home Microsoft" +:+ nl in
  result (Network._fetch_network_drives_summary Logging.logging_Logger
            {| Network.net_use := Ok output |})
  = Ok ("**Network Drives:**" +:+ nl
        +:+ "- **Drive Letter:** Z:, **Remote Path:** "
        +:+ Network.backslash +:+ Network.backslash +:+ "nas"
        +:+ Network.backslash +:+ "media (Microsoft)" +:+ nl).
Proof.
  intros output.
  destruct (Network_drive_scan_stops Logging.logging_Logger
              {| Network.net_use := Ok output |} output
              ["OK Z: " +:+ Network.backslash +:+ Network.backslash +:+ "nas"
               +:+ Network.backslash +:+ "media Microsoft"]
              ("Y: " +:+ Network.backslash +:+ Network.backslash +:+ "nas"
               +:+ Network.backslash +:+ "backup")
              ["OK X: " +:+ Network.backslash +:+ Network.backslash +:+ "nas"
               +:+ Network.backslash +:+ "home Microsoft"]
              [{| Network.letter := "Z:";
                  Network.remote := Network.backslash +:+ Network.backslash
                                    +:+ "nas" +:+ Network.backslash +:+ "media";
                  Network.name := "Microsoft" |}])
    as (_ & Hsummary & _).
  - reflexivity.
  - vm_compute. reflexivity.
  - vm_compute. reflexivity.
  - vm_compute. reflexivity.
  - vm_compute. lia.
  - rewrite Hsummary. vm_compute. reflexivity.
Defined.

(** ** The USB devices *)

Lemma ascii_compare_N c1 c2 :
  Ascii.compare c1 c2 = N.compare (N_of_ascii c1) (N_of_ascii c2).
Proof. reflexivity. Qed.

Lemma string_compare_trans_le s1 :
  forall s2 s3,
    String.compare s1 s2 <> Gt -> String.compare s2 s3 <> Gt ->
    String.compare s1 s3 <> Gt.
Proof.
  induction s1 as [| c1 s1 IH]; intros [| c2 s2] [| c3 s3]; cbn;
    try congruence.
  rewrite !ascii_compare_N.
  destruct (N.compare_spec (N_of_ascii c1) (N_of_ascii c2)) as [H12 | H12 | H12];
    destruct (N.compare_spec (N_of_ascii c2) (N_of_ascii c3)) as [H23 | H23 | H23];
    destruct (N.compare_spec (N_of_ascii c1) (N_of_ascii c3)) as [H13 | H13 | H13];
    try congruence; try lia.
  apply IH.
Qed.

Lemma leb_compare s1 s2 : String.leb s1 s2 = true <-> String.compare s1 s2 <> Gt.
Proof.
  unfold String.leb. destruct (String.compare s1 s2); split; congruence.
Qed.

Lemma str_le_total : Total System.str_le.
Proof. intros a b. apply String.leb_total. Qed.

Lemma str_le_trans : Transitive System.str_le.
Proof.
  intros a b c Hab Hbc. unfold System.str_le in *.
  rewrite leb_compare in *. eapply string_compare_trans_le; eassumption.
Qed.

Lemma str_le_antisym : AntiSymm eq System.str_le.
Proof. intros a b. apply String.leb_antisym. Qed.

Lemma is_usb_name device :
  System.is_usb device = true
  <-> System.Name device = Some (System.name_of device)
      /\ Text.contains "USB" (System.name_of device) = true.
Proof.
  unfold System.is_usb, System.name_of.
  destruct (System.Name device) as [s |].
  - split.
    + intros H. apply andb_true_iff in H as [_ H]. now split.
    + intros [_ H]. rewrite H. now destruct s.
  - split; [discriminate | intros [H _]; discriminate H].
Qed.

Lemma sorted_names_spec devices n :
  In n (System.sorted (System.usb_names devices))
  <-> exists device, In device devices
                     /\ System.Name device = Some n
                     /\ Text.contains "USB" n = true.
Proof.
  unfold System.sorted, System.usb_names.
  rewrite <- list_elem_of_In, merge_sort_Permutation, elem_of_remove_dups,
    list_elem_of_In, in_map_iff.
  split.
  - intros (device & <- & Hin). apply filter_In in Hin as [Hin Husb].
    apply is_usb_name in Husb as [Hname Hcontains]. eauto.
  - intros (device & Hin & Hname & Hcontains). exists device.
    assert (Hn : System.name_of device = n)
      by (unfold System.name_of; now rewrite Hname).
    split; [exact Hn |]. apply filter_In. split; [exact Hin |].
    apply is_usb_name. now rewrite Hn.
Qed.

(** X16: the USB summary lists each distinct name once, in ascending
    order of the names, however many devices share it and in whatever
    order WMI enumerates them; the names listed are exactly the names
    that contain "USB" (upper case) of the enumerated devices. *)
Theorem USB_summary_sorted_distinct :
  forall k devices,
    let names := System.sorted (System.usb_names devices) in
    result (System._fetch_usb_devices_summary k
              {| System.wmi := Some (Ok devices) |})
    = Ok (("**USB Devices:**" +:+ nl)
          +:+ join "" (List.map (fun n => "- " +:+ n +:+ nl) names))
    /\ Sorted System.str_le names
    /\ NoDup names
    /\ (forall n,
          In n names
          <-> exists device, In device devices
                             /\ System.Name device = Some n
                             /\ Text.contains "USB" n = true).
Proof.
  intros k devices names. repeat split.
  - unfold System._fetch_usb_devices_summary. cbn [System.wmi]. fold names.
    apply for_each_append. apply Forall_forall. intros n _ acc. reflexivity.
  - apply Sorted_merge_sort, str_le_total.
  - subst names. unfold System.sorted. rewrite merge_sort_Permutation.
    apply NoDup_remove_dups.
  - apply sorted_names_spec.
  - apply sorted_names_spec.
Qed.

Lemma usb_fold_dom (l : list System.Win32_PnPEntity_entry)
    (d : gmap string System.Win32_PnPEntity_entry) :
  dom (fold_left (fun d device => <[System.name_of device := device]> d) l d)
  = dom d ∪ list_to_set (List.map System.name_of l).
Proof.
  revert d. induction l as [| x l IH]; intros d; cbn [fold_left List.map].
  - now rewrite list_to_set_nil, (right_id_L ∅ (∪)).
  - rewrite IH, dom_insert_L, list_to_set_cons.
    rewrite (comm_L (∪) {[System.name_of x]} (dom d)).
    now rewrite (assoc_L (∪)).
Qed.

Lemma find_snoc {A} (p : A -> bool) l x :
  List.find p (l ++ [x])
  = match List.find p l with
    | Some y => Some y
    | None => if p x then Some x else None
    end.
Proof.
  induction l as [| y l IH]; [reflexivity |].
  cbn. destruct (p y); [reflexivity | exact IH].
Qed.

Lemma usb_fold_lookup (l : list System.Win32_PnPEntity_entry)
    (d : gmap string System.Win32_PnPEntity_entry) n :
  fold_left (fun d device => <[System.name_of device := device]> d) l d !! n
  = match List.find (fun device => String.eqb (System.name_of device) n) (rev l) with
    | Some device => Some device
    | None => d !! n
    end.
Proof.
  revert d. induction l as [| x l IH]; intros d; [reflexivity |].
  cbn [fold_left rev]. rewrite IH, find_snoc.
  destruct (List.find _ (rev l)); [reflexivity |].
  destruct (String.eqb_spec (System.name_of x) n) as [-> | Hne].
  - apply lookup_insert_eq.
  - now apply lookup_insert_ne.
Qed.

Lemma usb_dict_names devices :
  System.sorted (elements (dom (System.usb_dict devices)))
  = System.sorted (System.usb_names devices).
Proof.
  unfold System.sorted.
  apply (@Sorted_unique _ System.str_le str_le_trans str_le_antisym).
  - apply Sorted_merge_sort, str_le_total.
  - apply Sorted_merge_sort, str_le_total.
  - rewrite !merge_sort_Permutation. apply NoDup_Permutation.
    + apply NoDup_elements.
    + apply NoDup_remove_dups.
    + intros n. unfold System.usb_dict, System.usb_names.
      rewrite elem_of_elements, usb_fold_dom, elem_of_remove_dups.
      now rewrite dom_empty_L, (left_id_L ∅ (∪)), elem_of_list_to_set.
Qed.

(** X17: the USB details hold one block for each name of the summary,
    in the same order, and the block shows the device that WMI
    enumerated last under that name: the other devices of the same name
    are not shown. *)
Theorem USB_details_last_device_per_name :
  forall k devices,
    let names := System.sorted (System.usb_names devices) in
    result (System._fetch_usb_devices_details k
              {| System.wmi := Some (Ok devices) |})
    = Ok (("**USB Devices:**" +:+ nl)
          +:+ join ""
                (List.map (fun n =>
                             match Extra.last_named n devices with
                             | Some device => System.device_block n device
                             | None => ""
                             end) names))
    /\ (forall n, In n names ->
          exists device, Extra.last_named n devices = Some device
                         /\ In device devices
                         /\ System.Name device = Some n).
Proof.
  intros k devices names. split.
  - unfold System._fetch_usb_devices_details. cbn [System.wmi].
    cbv zeta. rewrite usb_dict_names. fold names.
    apply for_each_append. apply Forall_forall. intros n _ acc.
    unfold System.usb_dict, Extra.last_named.
    rewrite usb_fold_lookup, lookup_empty.
    destruct (List.find _ _); [reflexivity |].
    now rewrite result_ret, append_nil_r.
  - intros n Hn. apply sorted_names_spec in Hn as (device & Hin & Hname & Husb).
    unfold Extra.last_named.
    destruct (List.find _ _) as [found |] eqn:Hfind.
    + apply find_some in Hfind as [Hfound Heq].
      apply in_rev, filter_In in Hfound as [Hfound Hfusb].
      apply String.eqb_eq in Heq. apply is_usb_name in Hfusb as [Hfname _].
      exists found. rewrite Hfname, Heq. auto.
    + exfalso.
      assert (Hdev : In device (rev (List.filter System.is_usb devices))).
      { apply in_rev. rewrite rev_involutive. apply filter_In. split; [exact Hin |].
        apply is_usb_name. unfold System.name_of. now rewrite Hname. }
      apply (find_none _ _ Hfind) in Hdev.
      unfold System.name_of in Hdev. rewrite Hname, String.eqb_refl in Hdev.
      discriminate Hdev.
Qed.

Lemma USB_details_last_device_per_name_witness :
  let device id :=
    {| System.Name := Some "USB Root Hub";
       System.Manufacturer := Some "(Standard USB Host Controller)";
       System.DeviceID := Some id |} in
  result (System._fetch_usb_devices_details Logging.logging_Logger
            {| System.wmi := Some (Ok [device "USB-1"; device "USB-2"]) |})
  = Ok ("**USB Devices:**" +:+ nl
        +:+ System.device_block "USB Root Hub" (device "USB-2")).
Proof.
  intros device.
  destruct (USB_details_last_device_per_name Logging.logging_Logger
              [device "USB-1"; device "USB-2"]) as [Hdetails _].
  rewrite Hdetails. vm_compute. reflexivity.
Defined.

(** ** The CPU collector and the application's logger *)

(** X18: the CPU details and the advertised frequency.  With a
    [logging.Logger] an advertised frequency without a decimal number is
    answered with the emphasised value.  With the application's logger
    such a text, and in particular a [cpuinfo] dictionary without
    [hz_advertised_friendly] (read as "Unknown"), makes [get_details]
    raise whatever else the machine reports: the handler that should
    fall back to the emphasised value raises [TypeError] instead. *)
Theorem CPU_details_need_advertised_frequency :
  forall self,
    (forall s actual,
       Re.findall s = [] ->
       result (CPU._format_value Logging.logging_Logger (PStr s) actual)
       = Ok ("**" +:+ PyFloat.format_1f actual +:+ "**"))
    /\ (forall s,
          dict_get (CPU.cpu_info self) "hz_advertised_friendly" (PStr "Unknown")
          = PStr s ->
          Re.findall s = [] ->
          Spec.is_ok (CPU.get_details Logging.noctua_Logger self) = false)
    /\ (CPU.cpu_info self !! "hz_advertised_friendly" = None ->
        Spec.is_ok (CPU.get_details Logging.noctua_Logger self) = false).
Proof.
  intros self. split.
  { intros s actual Hnone.
    now rewrite (CPU_format_value_no_literal _ _ _ Hnone). }
  assert (Hraises : forall s,
    dict_get (CPU.cpu_info self) "hz_advertised_friendly" (PStr "Unknown")
    = PStr s ->
    Re.findall s = [] ->
    Spec.is_ok (CPU.get_details Logging.noctua_Logger self) = false).
  { intros s Hfriendly Hnone. unfold Spec.is_ok, CPU.get_details.
    rewrite Hfriendly, result_info_then.
    repeat (rewrite result_bind;
            match goal with
            | |- context [match result ?m with _ => _ end] =>
                lazymatch m with
                | CPU._format_value _ _ _ => fail
                | _ => destruct (result m); [| reflexivity]
                end
            end).
    rewrite result_bind, (CPU_format_value_no_literal _ s _ Hnone). reflexivity. }
  split; [exact Hraises |].
  intros Hmissing. apply (Hraises "Unknown"); [| reflexivity].
  unfold dict_get. now rewrite Hmissing.
Qed.

Lemma CPU_details_need_advertised_frequency_witness :
  Spec.is_ok (CPU.get_details Logging.logging_Logger Spec.cpu_unadvertised) = true
  /\ Spec.is_ok (CPU.get_details Logging.noctua_Logger Spec.cpu_unadvertised)
     = false.
Proof.
  destruct (CPU_details_need_advertised_frequency Spec.cpu_unadvertised)
    as (_ & _ & Hmissing).
  split; [vm_compute; reflexivity |].
  apply Hmissing. vm_compute. reflexivity.
Defined.

(** ** The voltage of a memory module *)

Lemma voltage_rounded_all :
  forallb (fun n => Extra.voltage_rounded (Z.of_nat n)) (seq 0 (Z.to_nat 5001))
  = true.
Proof. vm_compute. reflexivity. Qed.

(** X19: the voltage of a memory module.  A missing voltage is printed
    as "N/A".  A voltage of up to 5000 millivolts is printed in volts
    with two decimals, as the hundredth nearest to it; a multiple of ten
    millivolts is therefore printed exactly, and the division by 1000 in
    binary floating point never shows. *)
Theorem RAM_voltage_rounded :
  forall v,
    (0 <= v <= 5000)%Z ->
    RAM_modules._format_voltage None = "N/A"
    /\ (exists h,
          RAM_modules._format_voltage (Some v) = Extra.hundredths_text h
          /\ (-5 <= 10 * h - v <= 5)%Z)
    /\ ((v mod 10 = 0)%Z ->
        RAM_modules._format_voltage (Some v) = Extra.hundredths_text (v / 10)).
Proof.
  intros v Hv. split; [reflexivity |].
  pose proof voltage_rounded_all as Hall. rewrite forallb_forall in Hall.
  specialize (Hall (Z.to_nat v)). rewrite Z2Nat.id in Hall by lia.
  assert (Hin : In (Z.to_nat v) (seq 0 (Z.to_nat 5001))) by (apply in_seq; lia).
  specialize (Hall Hin). unfold Extra.voltage_rounded in Hall.
  apply orb_true_iff in Hall.
  pose proof (Z.div_mod v 10 ltac:(lia)) as Hdiv.
  pose proof (Z.mod_pos_bound v 10 ltac:(lia)) as Hmod.
  destruct Hall as [H | H]; apply andb_true_iff in H as [Htext Hside];
    apply String.eqb_eq in Htext; apply Z.leb_le in Hside.
  - split; [exists (v / 10)%Z; split; [exact Htext | lia] |].
    intros _. exact Htext.
  - split; [exists (v / 10 + 1)%Z; split; [exact Htext | lia] |].
    intros Hzero. lia.
Qed.

Lemma RAM_voltage_rounded_witness :
  RAM_modules._format_voltage (Some 1350%Z) = "1.35".
Proof.
  destruct (RAM_voltage_rounded 1350 ltac:(lia)) as (_ & _ & Hexact).
  rewrite Hexact; reflexivity.
Defined.
